(** * ESP32 Autonomous Sentinel: wake orchestration and persistent cooldown

    A shallow embedding of the power manager (sleep_manager.cpp), the camera
    and SD card drivers (camera_driver.cpp, sdcard_driver.cpp), the detector
    wrapper (detector.cpp) and the application handlers (app_main.cpp),
    followed by the properties of the cooldown store, the wake arbiter and the
    PIR-trigger pipeline.

    Conventions.
    - [int64_t] values are integers in [Z]; the result of every 64-bit
      operation is reduced explicitly ([wrap_s64], [wrap_u64]).
    - [float] values are IEEE numbers ([spec_float]); comparisons are the IEEE
      comparisons, so a NaN compares false.
    - Calls into ESP-IDF are recorded, in program order, in a trace of
      [Event]s.  What ESP-IDF answers (error codes, frame buffers, timer
      readings) is supplied by an [Env] record.
    - A C++ object ([SdCardDriver], [CameraDriver], [WifiObject]) is a record
      of its fields, passed to and returned from its methods; a destructor is
      called where the object goes out of scope.
    - Control flow that does not return is an outcome of the monad [M]:
      [PoweredDown] for [esp_deep_sleep_start], [Aborted] for the [abort()]
      behind [ESP_ERROR_CHECK].  Once reached, nothing that follows in the
      program text is executed, destructors included. *)

From Stdlib Require Import ZArith List Bool Lia SpecFloat.
From Stdlib Require Ascii String.
Import ListNotations.
Open Scope Z_scope.

(** ** Machine integers *)

Definition INT64_MIN : Z := - 2 ^ 63.
Definition INT64_MAX : Z := 2 ^ 63 - 1.
Definition UINT64_MOD : Z := 2 ^ 64.

Definition in_int64 (z : Z) : Prop := INT64_MIN <= z <= INT64_MAX.

(** Two's complement reduction of an integer to [int64_t]. *)
Definition wrap_s64 (z : Z) : Z := (z + 2 ^ 63) mod 2 ^ 64 - 2 ^ 63.

(** Reduction of an integer to [uint64_t]. *)
Definition wrap_u64 (z : Z) : Z := z mod 2 ^ 64.

Definition esp_err_t := Z.
Definition ESP_OK : esp_err_t := 0.
Definition ESP_FAIL : esp_err_t := -1.
Definition ESP_ERR_TIMEOUT : esp_err_t := 263. (* 0x107 *)

(** ** Configuration (board_config.hpp, app_config.hpp) *)

Module config.

Module camera.
Definition PIN_XCLK : Z := 15.
Definition PIN_PCLK : Z := 13.
Definition PIN_VSYNC : Z := 6.
Definition PIN_HREF : Z := 7.
Definition PIN_D0 : Z := 11.
Definition PIN_D1 : Z := 9.
Definition PIN_D2 : Z := 8.
Definition PIN_D3 : Z := 10.
Definition PIN_D4 : Z := 12.
Definition PIN_D5 : Z := 18.
Definition PIN_D6 : Z := 17.
Definition PIN_D7 : Z := 16.
Definition DATA_PINS : list Z :=
      [PIN_D0; PIN_D1; PIN_D2; PIN_D3; PIN_D4; PIN_D5; PIN_D6; PIN_D7;
       PIN_PCLK; PIN_XCLK; PIN_HREF; PIN_VSYNC].
Definition MIN_FRAME_SIZE : Z := 1024.
End camera.

Module sdcard.
Definition PIN_CLK : Z := 39.
Definition PIN_CMD : Z := 38.
Definition PIN_D0 : Z := 40.
Definition PINS : list Z := [PIN_CLK; PIN_CMD; PIN_D0].
End sdcard.

Module pir.
Definition PIN : Z := 3.          (* GPIO_NUM_3 *)
Definition WARMUP_MS : Z := 3000.
End pir.

Module timing.
Definition COOLDOWN_SECONDS : Z := 3600.
Definition CAMERA_WARMUP_FRAMES : nat := 25.
Definition CAMERA_WARMUP_DELAY_MS : Z := 35.
Definition CAMERA_MIN_VALID_FRAMES : Z := 20.
End timing.

Module detection.
    (** [0.5f]: mantissa [2^23], exponent [-24] in binary32. *)
Definition MIN_CONFIDENCE : spec_float := S754_finite false 8388608 (-24).
End detection.

End config.

(** ** network::WifiManager (wifi_manager.cpp)

    [connect], [disconnect] and [isConnected] call by call.  The calls into
    ESP-IDF and FreeRTOS are recorded as [WifiCall]s; their answers come from
    a [WifiPlatform].  [ESP_ERROR_CHECK] on a failed [nvs_flash_erase] aborts
    the program: [WifiAborted]. *)

Definition ESP_ERR_NO_MEM : esp_err_t := 257.                   (* 0x101 *)
Definition ESP_ERR_INVALID_STATE : esp_err_t := 259.            (* 0x103 *)
Definition ESP_ERR_NVS_NO_FREE_PAGES : esp_err_t := 4365.       (* 0x110d *)
Definition ESP_ERR_NVS_NEW_VERSION_FOUND : esp_err_t := 4368.   (* 0x1110 *)
Definition CONNECTED_BIT : Z := 1.                              (* BIT0 *)
Definition FAIL_BIT : Z := 2.                                   (* BIT1 *)

Inductive WifiCall :=
| WcNvsFlashInit (r : esp_err_t)
| WcNvsFlashErase (r : esp_err_t)
| WcEventGroupCreate (ok : bool)
| WcNetifInit (r : esp_err_t)
| WcEventLoopCreateDefault (r : esp_err_t)
| WcNetifCreateDefaultWifiSta
| WcWifiInit (r : esp_err_t)
| WcRegisterWifiHandler (r : esp_err_t)
| WcRegisterIpHandler (r : esp_err_t)
| WcWifiSetMode (r : esp_err_t)
| WcWifiSetConfig (r : esp_err_t)
| WcWifiStart (r : esp_err_t)
| WcEventGroupWaitBits (timeout_ms : Z) (bits : Z)
| WcEventGroupGetBits (bits : Z)
| WcUnregisterWifiHandler
| WcUnregisterIpHandler
| WcWifiStop
| WcWifiDeinit
| WcEventGroupDelete.

Record WifiPlatform := mk_wifi_platform {
  nvs_flash_init_first : esp_err_t;
  nvs_flash_erase_ret : esp_err_t;
  nvs_flash_init_second : esp_err_t;
  xEventGroupCreate_ok : bool;
  esp_netif_init_ret : esp_err_t;
  esp_event_loop_create_default_ret : esp_err_t;
  esp_wifi_init_ret : esp_err_t;
  register_wifi_handler_ret : esp_err_t;
  register_ip_handler_ret : esp_err_t;
  esp_wifi_set_mode_ret : esp_err_t;
  esp_wifi_set_config_ret : esp_err_t;
  esp_wifi_start_ret : esp_err_t;
  xEventGroupWaitBits_ret : Z;
  xEventGroupGetBits_ret : Z
}.

(** The four data members of [WifiManager]; a handle is [true] when it is
    not null. *)
Record WifiObject := mk_wifi_object {
  wm_eventGroup : bool;
  wm_wifiEventHandle : bool;
  wm_ipEventHandle : bool;
  wm_initialized : bool
}.

Definition WifiObject_new : WifiObject := mk_wifi_object false false false false.

Inductive WifiRun :=
| WifiReturned (r : esp_err_t) (o : WifiObject) (calls : list WifiCall)
| WifiAborted (calls : list WifiCall).

Definition WIFI_TIMEOUT_MS : Z := 20000.

(** [initNvs]: [None] when [ESP_ERROR_CHECK] aborts. *)
Definition initNvs (p : WifiPlatform) : list WifiCall * option esp_err_t :=
  let ret := nvs_flash_init_first p in
  if (ret =? ESP_ERR_NVS_NO_FREE_PAGES) || (ret =? ESP_ERR_NVS_NEW_VERSION_FOUND)
  then
    if nvs_flash_erase_ret p =? ESP_OK then
      ([WcNvsFlashInit ret; WcNvsFlashErase (nvs_flash_erase_ret p);
        WcNvsFlashInit (nvs_flash_init_second p)],
       Some (nvs_flash_init_second p))
    else ([WcNvsFlashInit ret; WcNvsFlashErase (nvs_flash_erase_ret p)], None)
  else ([WcNvsFlashInit ret], Some ret).

(** The part of [connect] after the event loop exists. *)
Definition connect_wifi_stack (p : WifiPlatform) (o : WifiObject)
                              (calls : list WifiCall) : WifiRun :=
  let calls := calls ++ [WcNetifCreateDefaultWifiSta;
                         WcWifiInit (esp_wifi_init_ret p)] in
  if negb (esp_wifi_init_ret p =? ESP_OK)
  then WifiReturned (esp_wifi_init_ret p) o calls
  else
  let calls := calls ++ [WcRegisterWifiHandler (register_wifi_handler_ret p)] in
  if negb (register_wifi_handler_ret p =? ESP_OK)
  then WifiReturned (register_wifi_handler_ret p) o calls
  else
  let o := mk_wifi_object (wm_eventGroup o) true (wm_ipEventHandle o)
                          (wm_initialized o) in
  let calls := calls ++ [WcRegisterIpHandler (register_ip_handler_ret p)] in
  if negb (register_ip_handler_ret p =? ESP_OK)
  then WifiReturned (register_ip_handler_ret p) o calls
  else
  let o := mk_wifi_object (wm_eventGroup o) (wm_wifiEventHandle o) true
                          (wm_initialized o) in
  let calls := calls ++ [WcWifiSetMode (esp_wifi_set_mode_ret p)] in
  if negb (esp_wifi_set_mode_ret p =? ESP_OK)
  then WifiReturned (esp_wifi_set_mode_ret p) o calls
  else
  let calls := calls ++ [WcWifiSetConfig (esp_wifi_set_config_ret p)] in
  if negb (esp_wifi_set_config_ret p =? ESP_OK)
  then WifiReturned (esp_wifi_set_config_ret p) o calls
  else
  let calls := calls ++ [WcWifiStart (esp_wifi_start_ret p)] in
  if negb (esp_wifi_start_ret p =? ESP_OK)
  then WifiReturned (esp_wifi_start_ret p) o calls
  else
  let o := mk_wifi_object (wm_eventGroup o) (wm_wifiEventHandle o)
                          (wm_ipEventHandle o) true in
  let bits := xEventGroupWaitBits_ret p in
  let calls := calls ++ [WcEventGroupWaitBits WIFI_TIMEOUT_MS bits] in
  if negb (Z.land bits CONNECTED_BIT =? 0)
  then WifiReturned ESP_OK o calls
  else WifiReturned ESP_ERR_TIMEOUT o calls.

Definition WifiObject_connect (p : WifiPlatform) (o : WifiObject) : WifiRun :=
  match initNvs p with
  | (calls, None) => WifiAborted calls
  | (calls, Some ret) =>
      if negb (ret =? ESP_OK) then WifiReturned ret o calls
      else
      let calls := calls ++ [WcEventGroupCreate (xEventGroupCreate_ok p)] in
      let o := mk_wifi_object (xEventGroupCreate_ok p) (wm_wifiEventHandle o)
                              (wm_ipEventHandle o) (wm_initialized o) in
      if negb (xEventGroupCreate_ok p)
      then WifiReturned ESP_ERR_NO_MEM o calls
      else
      let ret := esp_netif_init_ret p in
      let calls := calls ++ [WcNetifInit ret] in
      if negb (ret =? ESP_OK) && negb (ret =? ESP_ERR_INVALID_STATE)
      then WifiReturned ret o calls
      else
      let ret := esp_event_loop_create_default_ret p in
      let calls := calls ++ [WcEventLoopCreateDefault ret] in
      if negb (ret =? ESP_OK) && negb (ret =? ESP_ERR_INVALID_STATE)
      then WifiReturned ret o calls
      else connect_wifi_stack p o calls
  end.

Definition WifiObject_disconnect (o : WifiObject) : WifiObject * list WifiCall :=
  if negb (wm_initialized o) then (o, [])
  else
    (mk_wifi_object false false false false,
     (if wm_wifiEventHandle o then [WcUnregisterWifiHandler] else [])
     ++ (if wm_ipEventHandle o then [WcUnregisterIpHandler] else [])
     ++ [WcWifiStop; WcWifiDeinit]
     ++ (if wm_eventGroup o then [WcEventGroupDelete] else [])).

Definition WifiObject_isConnected (p : WifiPlatform) (o : WifiObject)
  : bool * list WifiCall :=
  if negb (wm_eventGroup o) then (false, [])
  else
    let bits := xEventGroupGetBits_ret p in
    (negb (Z.land bits CONNECTED_BIT =? 0), [WcEventGroupGetBits bits]).

Definition wifi_calls (r : WifiRun) : list WifiCall :=
  match r with WifiReturned _ _ c => c | WifiAborted c => c end.

Definition wifi_count (q : WifiCall -> bool) (calls : list WifiCall) : nat :=
  length (filter q calls).

Definition is_wifi_init_ok (c : WifiCall) : bool :=
  match c with WcWifiInit r => r =? ESP_OK | _ => false end.
Definition is_wifi_deinit (c : WifiCall) : bool :=
  match c with WcWifiDeinit => true | _ => false end.
Definition is_wifi_start_ok (c : WifiCall) : bool :=
  match c with WcWifiStart r => r =? ESP_OK | _ => false end.
Definition is_wifi_stop (c : WifiCall) : bool :=
  match c with WcWifiStop => true | _ => false end.
Definition is_group_create_ok (c : WifiCall) : bool :=
  match c with WcEventGroupCreate ok => ok | _ => false end.
Definition is_group_delete (c : WifiCall) : bool :=
  match c with WcEventGroupDelete => true | _ => false end.
Definition is_register_ok (c : WifiCall) : bool :=
  match c with
  | WcRegisterWifiHandler r | WcRegisterIpHandler r => r =? ESP_OK
  | _ => false
  end.
Definition is_unregister (c : WifiCall) : bool :=
  match c with
  | WcUnregisterWifiHandler | WcUnregisterIpHandler => true
  | _ => false
  end.

(** The calls [disconnect] makes. *)
Definition is_teardown_call (c : WifiCall) : bool :=
  match c with
  | WcUnregisterWifiHandler | WcUnregisterIpHandler | WcWifiStop
  | WcWifiDeinit | WcEventGroupDelete => true
  | _ => false
  end.

(** All the steps of [connect] up to [esp_wifi_start] succeed. *)
Definition wifi_bringup_ok (p : WifiPlatform) : bool :=
  match initNvs p with
  | (_, Some ret) => ret =? ESP_OK
  | (_, None) => false
  end
  && xEventGroupCreate_ok p
  && ((esp_netif_init_ret p =? ESP_OK)
      || (esp_netif_init_ret p =? ESP_ERR_INVALID_STATE))
  && ((esp_event_loop_create_default_ret p =? ESP_OK)
      || (esp_event_loop_create_default_ret p =? ESP_ERR_INVALID_STATE))
  && (esp_wifi_init_ret p =? ESP_OK)
  && (register_wifi_handler_ret p =? ESP_OK)
  && (register_ip_handler_ret p =? ESP_OK)
  && (esp_wifi_set_mode_ret p =? ESP_OK)
  && (esp_wifi_set_config_ret p =? ESP_OK)
  && (esp_wifi_start_ret p =? ESP_OK).

(** An access point that answers in time. *)
Definition reachable_ap : WifiPlatform :=
  mk_wifi_platform ESP_OK ESP_OK ESP_OK true ESP_OK ESP_OK ESP_OK ESP_OK ESP_OK
                   ESP_OK ESP_OK ESP_OK 1 1.

(** The second handler cannot be registered. *)
Definition handler_refused : WifiPlatform :=
  mk_wifi_platform ESP_OK ESP_OK ESP_OK true ESP_OK ESP_OK ESP_OK ESP_OK
                   ESP_ERR_NO_MEM ESP_OK ESP_OK ESP_OK 0 0.

(** No access point in range: the wait runs into its timeout. *)
Definition no_ap_in_range : WifiPlatform :=
  mk_wifi_platform ESP_OK ESP_OK ESP_OK true ESP_OK ESP_OK ESP_OK ESP_OK ESP_OK
                   ESP_OK ESP_OK ESP_OK 0 0.

(** ** Data crossing the ESP-IDF boundary *)

(** [camera_fb_t]: the fields the program reads. *)
Record camera_fb_t := mk_fb {
  fb_buf_null : bool;   (* [buf == nullptr] *)
  fb_len : Z;           (* [size_t len] *)
  fb_width : Z;
  fb_height : Z
}.

(** One entry of the list returned by the ESP-DL detector ([score], [box]). *)
Record result_t := mk_det {
  det_score : spec_float;
  det_box : list Z
}.

(** [detection::DetectionResult] *)
Record DetectionResult := mk_result {
  detected : bool;
  confidence : spec_float;
  res_x : Z;
  res_y : Z;
  res_width : Z;
  res_height : Z
}.

Inductive gpio_op := GpioResetPin | GpioSetInput | GpioPullupDis | GpioPulldownDis.

(** [WakeSourceSelection]: what the sleep subsystem has been told to wake on. *)
Inductive WakeSource :=
| TimerWake (us : Z)        (* esp_sleep_enable_timer_wakeup(us) *)
| LevelWake (mask : Z).     (* esp_sleep_enable_ext1_wakeup(mask, ANY_HIGH) *)

(** Calls into the platform, in program order. *)
Inductive Event :=
| EvSdmmcMount (r : esp_err_t)          (* esp_vfs_fat_sdmmc_mount *)
| EvSdcardUnmount                       (* esp_vfs_fat_sdcard_unmount *)
| EvCameraInit (r : esp_err_t)          (* esp_camera_init *)
| EvCameraDeinit                        (* esp_camera_deinit *)
| EvSensorSettings                      (* applySensorSettings *)
| EvSensorStandby                       (* sensor->set_reg(0x09, 0xFF, 0x10) *)
| EvFbGet (fb : option camera_fb_t)     (* esp_camera_fb_get *)
| EvFbReturn (fb : camera_fb_t)         (* esp_camera_fb_return *)
| EvGpio (op : gpio_op) (pin : Z)
| EvDelayMs (ms : Z)                    (* vTaskDelay(pdMS_TO_TICKS(ms)) *)
| EvJpegDecode (ok : bool)              (* dl::image::sw_decode_jpeg *)
| EvModelRun (n : nat)                  (* Detect::run, [n] detections *)
| EvHeapFree                            (* heap_caps_free(img.data) *)
| EvWifiConnect                         (* WifiManager::connect entered *)
| EvWifi (c : WifiCall)                 (* a call made by WifiManager *)
| EvTelegramSend (r : esp_err_t)        (* TelegramClient::sendDocument *)
| EvDetectReturned (r : DetectionResult) (* Detector::detect returned [r] *)
| EvStartCooldown (seconds : Z)         (* SleepManager::startCooldown entered *)
| EvArm (src : WakeSource)              (* esp_sleep_enable_*_wakeup *)
| EvDeepSleepStart.                     (* esp_deep_sleep_start *)

(** What the platform answers during one run of [app_main]. *)
Record Env := mk_env {
  esp_timer_get_time_at : nat -> Z;     (* k-th reading, microseconds *)
  esp_sleep_get_wakeup_cause : Z;
  esp_vfs_fat_sdmmc_mount_ret : esp_err_t;
  esp_camera_init_ret : esp_err_t;
  esp_camera_sensor_present : bool;     (* esp_camera_sensor_get() != NULL,
                                           the same answer at init and shutdown *)
  esp_camera_fb_get_at : nat -> option camera_fb_t;   (* k-th call *)
  sw_decode_jpeg_ok : bool;
  detect_run : list result_t;
  wifi_platform : WifiPlatform;         (* the answers to WifiManager's calls *)
  telegram_sendDocument_ret : esp_err_t
}.

(** ** Program state and the monad of the embedding *)

Record World := mk_world {
  s_nextPirAllowTime : Z;   (* RTC_DATA_ATTR static int64_t *)
  timer_calls : nat;        (* esp_timer_get_time calls made so far *)
  fb_calls : nat;           (* esp_camera_fb_get calls made so far *)
  trace : list Event        (* oldest first *)
}.

Inductive Outcome (A : Type) : Type :=
| Returned (a : A) (w : World)
| PoweredDown (w : World)      (* esp_deep_sleep_start() *)
| Aborted (w : World).         (* abort() *)
Arguments Returned {A} a w.
Arguments PoweredDown {A} w.
Arguments Aborted {A} w.

Definition M (A : Type) : Type := World -> Outcome A.

Definition ret {A} (a : A) : M A := fun w => Returned a w.

Definition bind {A B} (m : M A) (k : A -> M B) : M B :=
  fun w => match m w with
           | Returned a w' => k a w'
           | PoweredDown w' => PoweredDown w'
           | Aborted w' => Aborted w'
           end.

Notation "x <- m ;; k" := (bind m (fun x => k))
  (at level 61, m at next level, right associativity).
Notation "m ;;; k" := (bind m (fun _ => k))
  (at level 61, right associativity).

Definition world_of {A} (o : Outcome A) : World :=
  match o with Returned _ w => w | PoweredDown w => w | Aborted w => w end.

Definition emit (e : Event) : M unit :=
  fun w => Returned tt (mk_world (s_nextPirAllowTime w) (timer_calls w)
                                 (fb_calls w) (trace w ++ [e])).

Definition emit_all (es : list Event) : M unit :=
  fun w => Returned tt (mk_world (s_nextPirAllowTime w) (timer_calls w)
                                 (fb_calls w) (trace w ++ es)).

Definition vTaskDelay_ms (ms : Z) : M unit := emit (EvDelayMs ms).

(** [esp_deep_sleep_start]: the call that does not return. *)
Definition esp_deep_sleep_start {A} : M A :=
  fun w => PoweredDown (mk_world (s_nextPirAllowTime w) (timer_calls w)
                                 (fb_calls w) (trace w ++ [EvDeepSleepStart])).

(** [abort()], reached when [ESP_ERROR_CHECK] fails: it does not return. *)
Definition abort {A} : M A := fun w => Aborted w.

(** ** power::SleepManager (sleep_manager.cpp) *)

Inductive WakeReason := POWER_ON | PIR_TRIGGER | TIMER | UNKNOWN.

Definition ESP_SLEEP_WAKEUP_UNDEFINED : Z := 0.
Definition ESP_SLEEP_WAKEUP_EXT1 : Z := 3.
Definition ESP_SLEEP_WAKEUP_TIMER : Z := 4.

(** The constructor's [switch]. *)
Definition classify (cause : Z) : WakeReason :=
  if cause =? ESP_SLEEP_WAKEUP_UNDEFINED then POWER_ON
  else if cause =? ESP_SLEEP_WAKEUP_EXT1 then PIR_TRIGGER
  else if cause =? ESP_SLEEP_WAKEUP_TIMER then TIMER
  else UNKNOWN.

(** [esp_timer_get_time() / 1000000] on [int64_t]: C++ division truncates. *)
Definition seconds_of_us (us : Z) : Z := Z.quot us 1000000.

(** The bodies of the cooldown queries, as functions of the persisted
    timestamp and of the value [getCurrentTimeSec()] returned. *)
Definition isInCooldown_at (allowed_after now : Z) : bool :=
  allowed_after >? now.

Definition getCooldownRemaining_at (allowed_after now : Z) : Z :=
  let remaining := wrap_s64 (allowed_after - now) in
  if remaining >? 0 then remaining else 0.

Definition startCooldown_at (now seconds : Z) : Z :=
  wrap_s64 (now + seconds).

(** The value [getCurrentTimeSec] returns at the [k]-th timer reading. *)
Definition now_at (env : Env) (k : nat) : Z :=
  seconds_of_us (esp_timer_get_time_at env k).

Section SleepManager.

Variable env : Env.

Definition getCurrentTimeSec : M Z :=
    fun w => Returned (now_at env (timer_calls w))
                      (mk_world (s_nextPirAllowTime w) (S (timer_calls w))
                                (fb_calls w) (trace w)).

Definition read_nextPirAllowTime : M Z :=
    fun w => Returned (s_nextPirAllowTime w) w.

Definition write_nextPirAllowTime (v : Z) : M unit :=
    fun w => Returned tt (mk_world v (timer_calls w) (fb_calls w) (trace w)).

Definition getWakeReason : M WakeReason :=
    ret (classify (esp_sleep_get_wakeup_cause env)).

Definition isInCooldown : M bool :=
    now <- getCurrentTimeSec ;;
    a <- read_nextPirAllowTime ;;
    ret (isInCooldown_at a now).

Definition getCooldownRemaining : M Z :=
    now <- getCurrentTimeSec ;;
    a <- read_nextPirAllowTime ;;
    ret (getCooldownRemaining_at a now).

Definition startCooldown (seconds : Z) : M unit :=
    emit (EvStartCooldown seconds) ;;;
    now <- getCurrentTimeSec ;;
    write_nextPirAllowTime (startCooldown_at now seconds).

  (** [sleepDuration * 1000000ULL]: the product is taken in [uint64_t]. *)
Definition timer_wakeup_us (sleepDuration : Z) : Z :=
    wrap_u64 (sleepDuration * 1000000).

Definition pir_ext1_mask : Z := Z.shiftl 1 config.pir.PIN.

Definition enterDeepSleep {A} : M A :=
    c <- isInCooldown ;;
    (if c : bool then
       sleepDuration <- getCooldownRemaining ;;
       emit (EvArm (TimerWake (timer_wakeup_us sleepDuration)))
     else
       emit (EvArm (LevelWake pir_ext1_mask))) ;;;
    vTaskDelay_ms 100 ;;;
    esp_deep_sleep_start.

End SleepManager.

(** ** drivers::SdCardDriver (sdcard_driver.cpp) *)

Record SdCardDriver := mk_sd {
  m_card : bool     (* [m_card != nullptr] *)
}.

(** One pass of the [resetGpioPins] loop body over a pin table. *)
Definition resetGpioPins_events (pins : list Z) : list Event :=
  flat_map (fun pin => [EvGpio GpioResetPin pin; EvGpio GpioSetInput pin;
                        EvGpio GpioPullupDis pin; EvGpio GpioPulldownDis pin])
           pins.

Section Drivers.

Variable env : Env.

Definition SdCardDriver_new : SdCardDriver := mk_sd false.

Definition SdCardDriver_mount (sd : SdCardDriver) : M (esp_err_t * SdCardDriver) :=
  if m_card sd then ret (ESP_OK, sd)
  else
    let r := esp_vfs_fat_sdmmc_mount_ret env in
    emit (EvSdmmcMount r) ;;;
    if negb (r =? ESP_OK) then ret (r, mk_sd false)
    else ret (ESP_OK, mk_sd true).

Definition SdCardDriver_resetGpioPins : M unit :=
  emit_all (resetGpioPins_events config.sdcard.PINS).

Definition SdCardDriver_shutdown (sd : SdCardDriver) : M SdCardDriver :=
  if negb (m_card sd) then ret sd
  else
    emit EvSdcardUnmount ;;;
    SdCardDriver_resetGpioPins ;;;
    ret (mk_sd false).

(** ** drivers::CameraDriver (camera_driver.cpp) *)

Record CameraDriver := mk_cam {
  m_initialized : bool
}.

Definition CameraDriver_new : CameraDriver := mk_cam false.

Definition esp_camera_fb_get : M (option camera_fb_t) :=
  fun w =>
    let fb := esp_camera_fb_get_at env (fb_calls w) in
    Returned fb (mk_world (s_nextPirAllowTime w) (timer_calls w)
                          (S (fb_calls w)) (trace w ++ [EvFbGet fb])).

Definition esp_camera_fb_return (fb : camera_fb_t) : M unit :=
  emit (EvFbReturn fb).

Definition CameraDriver_init (cam : CameraDriver) : M (esp_err_t * CameraDriver) :=
  if m_initialized cam then ret (ESP_OK, cam)
  else
    let err := esp_camera_init_ret env in
    emit (EvCameraInit err) ;;;
    if negb (err =? ESP_OK) then ret (err, cam)
    else if esp_camera_sensor_present env then
      emit EvSensorSettings ;;;
      ret (ESP_OK, mk_cam true)
    else
      emit EvCameraDeinit ;;;
      ret (ESP_FAIL, cam).

(** The body of the [for] loop of [warmup], [n] iterations still to run. *)
Fixpoint warmup_loop (n : nat) (validFrames : Z) : M Z :=
  match n with
  | O => ret validFrames
  | S n' =>
      fb <- esp_camera_fb_get ;;
      v <- match fb with
           | Some f =>
               let v := if fb_len f >? config.camera.MIN_FRAME_SIZE
                        then validFrames + 1 else validFrames in
               esp_camera_fb_return f ;;; ret v
           | None => ret validFrames
           end ;;
      vTaskDelay_ms config.timing.CAMERA_WARMUP_DELAY_MS ;;;
      warmup_loop n' v
  end.

Definition CameraDriver_warmup (cam : CameraDriver) : M bool :=
  if negb (m_initialized cam) then ret false
  else
    validFrames <- warmup_loop config.timing.CAMERA_WARMUP_FRAMES 0 ;;
    ret (validFrames >=? config.timing.CAMERA_MIN_VALID_FRAMES).

Definition CameraDriver_capture (cam : CameraDriver) : M (option camera_fb_t) :=
  if negb (m_initialized cam) then ret None
  else
    fb <- esp_camera_fb_get ;;
    match fb with
    | None => ret None
    | Some f =>
        if fb_len f <? config.camera.MIN_FRAME_SIZE then
          esp_camera_fb_return f ;;; ret None
        else ret (Some f)
    end.

Definition CameraDriver_returnFrame (fb : option camera_fb_t) : M unit :=
  match fb with
  | Some f => esp_camera_fb_return f
  | None => ret tt
  end.

Definition CameraDriver_resetGpioPins : M unit :=
  emit_all (resetGpioPins_events config.camera.DATA_PINS).

Definition CameraDriver_shutdown (cam : CameraDriver) : M CameraDriver :=
  if negb (m_initialized cam) then ret cam
  else
    (if esp_camera_sensor_present env then emit EvSensorStandby else ret tt) ;;;
    emit EvCameraDeinit ;;;
    CameraDriver_resetGpioPins ;;;
    ret (mk_cam false).

(** ** detection::Detector (detector.cpp) *)

Definition wrap_s32 (z : Z) : Z := (z + 2 ^ 31) mod 2 ^ 32 - 2 ^ 31.

Definition no_detection : DetectionResult :=
  mk_result false (S754_zero false) 0 0 0 0.

Definition result_of_detection (det : result_t) : DetectionResult :=
  let box := det_box det in
  if (4 <=? Z.of_nat (length box)) then
    mk_result true (det_score det)
              (nth 0 box 0) (nth 1 box 0)
              (wrap_s32 (nth 2 box 0 - nth 0 box 0))
              (wrap_s32 (nth 3 box 0 - nth 1 box 0))
  else mk_result true (det_score det) 0 0 0 0.

Definition Detector_detect (frame : option camera_fb_t) : M DetectionResult :=
  match frame with
  | None => ret no_detection
  | Some f =>
      if fb_buf_null f || (fb_len f =? 0) then ret no_detection
      else
        emit (EvJpegDecode (sw_decode_jpeg_ok env)) ;;;
        if negb (sw_decode_jpeg_ok env) then ret no_detection
        else
          let detections := detect_run env in
          emit (EvModelRun (length detections)) ;;;
          let result := match detections with
                        | det :: _ => result_of_detection det
                        | [] => no_detection
                        end in
          emit EvHeapFree ;;;
          ret result
  end.

(** ** network::WifiManager in the program, network::TelegramClient

    The methods of [WifiManager] as steps of the program: the calls they make
    enter the trace, and the [abort()] inside [initNvs] ends the run. *)

Definition emit_wifi (calls : list WifiCall) : M unit :=
  emit_all (map EvWifi calls).

Definition WifiManager_connect (wifi : WifiObject) : M (esp_err_t * WifiObject) :=
  emit EvWifiConnect ;;;
  match WifiObject_connect (wifi_platform env) wifi with
  | WifiAborted calls => emit_wifi calls ;;; abort
  | WifiReturned r wifi' calls => emit_wifi calls ;;; ret (r, wifi')
  end.

Definition WifiManager_isConnected (wifi : WifiObject) : M bool :=
  emit_wifi (snd (WifiObject_isConnected (wifi_platform env) wifi)) ;;;
  ret (fst (WifiObject_isConnected (wifi_platform env) wifi)).

Definition WifiManager_disconnect (wifi : WifiObject) : M WifiObject :=
  emit_wifi (snd (WifiObject_disconnect wifi)) ;;;
  ret (fst (WifiObject_disconnect wifi)).

(** [~WifiManager()] *)
Definition WifiManager_destroy (wifi : WifiObject) : M unit :=
  _ <- WifiManager_disconnect wifi ;; ret tt.

Definition ESP_ERR_INVALID_ARG : esp_err_t := 258. (* 0x102 *)

(** [sendDocument] as a step of the program, at its interface: the caption
    handed to it is formatted from floating-point values, and the code it
    returns after the argument check is the platform's answer.
    [EvTelegramSend] records a call that got past the argument check.  The
    function itself is followed call by call in [telegram] below. *)
Definition TelegramClient_sendDocument (f : camera_fb_t) : M esp_err_t :=
  if fb_buf_null f || (fb_len f =? 0) then ret ESP_ERR_INVALID_ARG
  else
    emit (EvTelegramSend (telegram_sendDocument_ret env)) ;;;
    ret (telegram_sendDocument_ret env).

(** ** Application handlers (app_main.cpp) *)

Definition handlePowerOnBoot : M unit :=
  vTaskDelay_ms config.pir.WARMUP_MS ;;;
  enterDeepSleep env.

Definition handleTimerWakeup : M unit :=
  enterDeepSleep env.

(** STEP 6 of [handlePirTrigger], the block entered on a confident
    detection.  [wifi] is local to the block: its destructor runs at the
    closing brace, after [startCooldown]. *)
Definition notify_and_cooldown (f : camera_fb_t) : M unit :=
  c <- WifiManager_connect WifiObject_new ;;
  let '(r, wifi) := c in
  (* [wifi.connect() == ESP_OK && wifi.isConnected()] *)
  up <- (if r =? ESP_OK then WifiManager_isConnected wifi else ret false) ;;
  wifi <- (if up : bool then
             _ <- getCurrentTimeSec env ;;      (* the caption's "Time:" field *)
             _ <- TelegramClient_sendDocument f ;;
             WifiManager_disconnect wifi
           else ret wifi) ;;
  startCooldown env config.timing.COOLDOWN_SECONDS ;;;
  WifiManager_destroy wifi.

Definition confident (result : DetectionResult) : bool :=
  detected result && SFleb config.detection.MIN_CONFIDENCE (confidence result).

Definition handlePirTrigger : M unit :=
  c <- isInCooldown env ;;
  (if c : bool then
     _ <- getCooldownRemaining env ;;
     enterDeepSleep env
   else ret tt) ;;;
  (* STEP 1 *)
  m <- SdCardDriver_mount SdCardDriver_new ;;
  let '(mr, sdCard) := m in
  sdCard <- (if negb (mr =? ESP_OK) then
               _ <- SdCardDriver_shutdown sdCard ;;
               enterDeepSleep env
             else ret sdCard) ;;
  (* STEP 2 *)
  i <- CameraDriver_init CameraDriver_new ;;
  let '(ir, camera) := i in
  (if negb (ir =? ESP_OK) then
     _ <- CameraDriver_shutdown camera ;;
     _ <- SdCardDriver_shutdown sdCard ;;
     enterDeepSleep env
   else ret tt) ;;;
  (* STEP 3 *)
  ok <- CameraDriver_warmup camera ;;
  (if negb ok then
     _ <- CameraDriver_shutdown camera ;;
     _ <- SdCardDriver_shutdown sdCard ;;
     enterDeepSleep env
   else ret tt) ;;;
  (* STEP 4 *)
  fr <- CameraDriver_capture camera ;;
  frame <- match fr with
           | None =>
               _ <- CameraDriver_shutdown camera ;;
               _ <- SdCardDriver_shutdown sdCard ;;
               enterDeepSleep env
           | Some f => ret f
           end ;;
  (* STEP 5 *)
  result <- Detector_detect (Some frame) ;;
  emit (EvDetectReturned result) ;;;
  (* STEP 6 *)
  (if confident result then notify_and_cooldown frame else ret tt) ;;;
  (* STEP 7 *)
  CameraDriver_returnFrame (Some frame) ;;;
  _ <- CameraDriver_shutdown camera ;;
  _ <- SdCardDriver_shutdown sdCard ;;
  enterDeepSleep env.

Definition app_main : M unit :=
  wakeReason <- getWakeReason env ;;
  match wakeReason with
  | POWER_ON => handlePowerOnBoot
  | TIMER => handleTimerWakeup
  | PIR_TRIGGER => handlePirTrigger
  | UNKNOWN => enterDeepSleep env
  end.

End Drivers.

(** ** Observations on a run *)

(** The world at process start: only the RTC variable carries a value over. *)
Definition boot_world (allowed_after : Z) : World :=
  mk_world allowed_after 0 0 [].

Definition count (p : Event -> bool) (tr : list Event) : nat :=
  length (filter p tr).

Definition armed_sources (tr : list Event) : list WakeSource :=
  flat_map (fun e => match e with EvArm s => [s] | _ => [] end) tr.

Definition is_startCooldown (e : Event) : bool :=
  match e with EvStartCooldown _ => true | _ => false end.

Definition is_storage_acquire (e : Event) : bool :=
  match e with EvSdmmcMount r => r =? ESP_OK | _ => false end.
Definition is_storage_release (e : Event) : bool :=
  match e with EvSdcardUnmount => true | _ => false end.
Definition is_imaging_acquire (e : Event) : bool :=
  match e with EvCameraInit r => r =? ESP_OK | _ => false end.
Definition is_imaging_release (e : Event) : bool :=
  match e with EvCameraDeinit => true | _ => false end.
Definition is_frame_acquire (e : Event) : bool :=
  match e with EvFbGet (Some _) => true | _ => false end.
Definition is_frame_release (e : Event) : bool :=
  match e with EvFbReturn _ => true | _ => false end.
Definition is_fb_get (e : Event) : bool :=
  match e with EvFbGet _ => true | _ => false end.

(** Any attempt to take a resource: mounting, camera init or a frame grab. *)
Definition is_acquisition_attempt (e : Event) : bool :=
  match e with
  | EvSdmmcMount _ | EvCameraInit _ | EvFbGet _ => true
  | _ => false
  end.

(** No imaging release is found after a storage release. *)
Fixpoint imaging_released_first (tr : list Event) : bool :=
  match tr with
  | [] => true
  | e :: tr' =>
      (if is_storage_release e then negb (existsb is_imaging_release tr') else true)
      && imaging_released_first tr'
  end.

(** The events and the count of valid frames of [n] warmup iterations that
    start at frame-grab number [k]. *)
Fixpoint warmup_events (env : Env) (k n : nat) : list Event :=
  match n with
  | O => []
  | S n' =>
      match esp_camera_fb_get_at env k with
      | Some f => [EvFbGet (Some f); EvFbReturn f]
      | None => [EvFbGet None]
      end ++ EvDelayMs config.timing.CAMERA_WARMUP_DELAY_MS
          :: warmup_events env (S k) n'
  end.

Definition valid_warmup_frame (fb : option camera_fb_t) : bool :=
  match fb with
  | Some f => fb_len f >? config.camera.MIN_FRAME_SIZE
  | None => false
  end.

Fixpoint warmup_valid (env : Env) (k n : nat) : Z :=
  match n with
  | O => 0
  | S n' =>
      (if valid_warmup_frame (esp_camera_fb_get_at env k) then 1 else 0)
      + warmup_valid env (S k) n'
  end.

(** The SleepManager interface as a command language, to speak about
    arbitrary sequences of calls. *)
Inductive SleepCall :=
| CallGetWakeReason
| CallGetCurrentTimeSec
| CallIsInCooldown
| CallGetCooldownRemaining
| CallStartCooldown (seconds : Z)
| CallEnterDeepSleep.

Definition perform (env : Env) (c : SleepCall) : M unit :=
  match c with
  | CallGetWakeReason => _ <- getWakeReason env ;; ret tt
  | CallGetCurrentTimeSec => _ <- getCurrentTimeSec env ;; ret tt
  | CallIsInCooldown => _ <- isInCooldown env ;; ret tt
  | CallGetCooldownRemaining => _ <- getCooldownRemaining env ;; ret tt
  | CallStartCooldown s => startCooldown env s
  | CallEnterDeepSleep => enterDeepSleep env
  end.

Fixpoint perform_all (env : Env) (cs : list SleepCall) : M unit :=
  match cs with
  | [] => ret tt
  | c :: cs' => perform env c ;;; perform_all env cs'
  end.

Definition is_CallStartCooldown (c : SleepCall) : bool :=
  match c with CallStartCooldown _ => true | _ => false end.

(** What the wake arbiter selects for a persisted timestamp and a clock value. *)
Definition wake_selection (allowed_after now : Z) : WakeSource :=
  if isInCooldown_at allowed_after now
  then TimerWake (timer_wakeup_us (getCooldownRemaining_at allowed_after now))
  else LevelWake pir_ext1_mask.

(** ** The chip across a deep sleep

    [esp_timer_get_time] belongs to ESP-IDF.  sleep_manager.hpp documents the
    value derived from it as the "current time in seconds since boot", and
    every wake from deep sleep is a boot ([app_main] "is called after every
    wake-up"): the counter starts again at each wake, while the RTC variable
    keeps its value. *)

Record Chip := mk_chip {
  real_time_us : Z;           (* time that runs on, also during deep sleep *)
  booted_at_us : Z;           (* real time at which the current boot began *)
  rtc_nextPirAllowTime : Z    (* the RTC_DATA_ATTR variable *)
}.

Definition esp_timer_get_time (c : Chip) : Z :=
  real_time_us c - booted_at_us c.

Definition chip_now (c : Chip) : Z := seconds_of_us (esp_timer_get_time c).

Definition chip_elapse (dt_us : Z) (c : Chip) : Chip :=
  mk_chip (real_time_us c + dt_us) (booted_at_us c) (rtc_nextPirAllowTime c).

Definition chip_startCooldown (seconds : Z) (c : Chip) : Chip :=
  mk_chip (real_time_us c) (booted_at_us c)
          (startCooldown_at (chip_now c) seconds).

(** Deep sleep for [slept_us], then the wake-up boot. *)
Definition chip_deep_sleep (slept_us : Z) (c : Chip) : Chip :=
  mk_chip (real_time_us c + slept_us) (real_time_us c + slept_us)
          (rtc_nextPirAllowTime c).

Definition chip_isInCooldown (c : Chip) : bool :=
  isInCooldown_at (rtc_nextPirAllowTime c) (chip_now c).

Definition chip_getCooldownRemaining (c : Chip) : Z :=
  getCooldownRemaining_at (rtc_nextPirAllowTime c) (chip_now c).

(** The platform's answers in a boot in which every timer reading is [us]
    and nothing else matters. *)
Definition quiet_env (cause us : Z) : Env :=
  mk_env (fun _ => us) cause ESP_FAIL ESP_FAIL false (fun _ => None)
         false [] no_ap_in_range ESP_FAIL.

(** ** The exits of the PIR-trigger pipeline

    The pieces of trace the stages leave behind, and the ways a run of
    [handlePirTrigger] ends: eight through [enterDeepSleep]
    ([pipeline_exit]) and one through the [abort()] inside
    [WifiManager::connect] ([pipeline_aborted]).  [pipeline_exit env a tr a']
    reads: started with the persisted timestamp [a], the run leaves the trace
    [tr] and the persisted timestamp [a'].  That every run is one of them is
    [handlePirTrigger_exit] below. *)

Definition detect_results (tr : list Event) : list DetectionResult :=
  flat_map (fun e => match e with EvDetectReturned r => [r] | _ => [] end) tr.

(** What [enterDeepSleep] adds to the trace when its first timer reading is
    number [k]. *)
Definition sleep_events (env : Env) (a : Z) (k : nat) : list Event :=
  [EvArm (if isInCooldown_at a (now_at env k)
          then TimerWake (timer_wakeup_us
                 (getCooldownRemaining_at a (now_at env (S k))))
          else LevelWake pir_ext1_mask);
   EvDelayMs 100; EvDeepSleepStart].

Definition sd_shutdown_events : list Event :=
  EvSdcardUnmount :: resetGpioPins_events config.sdcard.PINS.

Definition cam_shutdown_events (env : Env) : list Event :=
  (if esp_camera_sensor_present env then [EvSensorStandby] else [])
  ++ EvCameraDeinit :: resetGpioPins_events config.camera.DATA_PINS.

Definition release_events (env : Env) : list Event :=
  cam_shutdown_events env ++ sd_shutdown_events.

Definition unusable_frame (f : camera_fb_t) : bool :=
  fb_buf_null f || (fb_len f =? 0).

Definition detection_of (env : Env) (f : camera_fb_t) : DetectionResult :=
  if unusable_frame f then no_detection
  else if negb (sw_decode_jpeg_ok env) then no_detection
  else match detect_run env with
       | det :: _ => result_of_detection det
       | [] => no_detection
       end.

Definition detect_events (env : Env) (f : camera_fb_t) : list Event :=
  if unusable_frame f then []
  else if negb (sw_decode_jpeg_ok env) then [EvJpegDecode false]
  else [EvJpegDecode true; EvModelRun (length (detect_run env)); EvHeapFree].

(** What [connect] does on the fresh [WifiManager] of the pipeline. *)
Definition wifi_run (env : Env) : WifiRun :=
  WifiObject_connect (wifi_platform env) WifiObject_new.

(** [connect] ends in [abort()]. *)
Definition connect_aborts (env : Env) : bool :=
  match wifi_run env with
  | WifiAborted _ => true
  | WifiReturned _ _ _ => false
  end.

(** [connect] returned and left [m_initialized] set. *)
Definition wifi_left_initialized (env : Env) : bool :=
  match wifi_run env with
  | WifiReturned _ o _ => wm_initialized o
  | WifiAborted _ => false
  end.

(** [wifi.connect() == ESP_OK && wifi.isConnected()], for the code [r] and
    the object [o] that [connect] left. *)
Definition connected_after (env : Env) (r : esp_err_t) (o : WifiObject) : bool :=
  (r =? ESP_OK) && fst (WifiObject_isConnected (wifi_platform env) o).

Definition wifi_up (env : Env) : bool :=
  match wifi_run env with
  | WifiReturned r o _ => connected_after env r o
  | WifiAborted _ => false
  end.

(** The trace of the confident block up to [startCooldown], when [connect]
    returned [r] and left [o] after the calls [calls]. *)
Definition notify_events (env : Env) (f : camera_fb_t)
    (r : esp_err_t) (o : WifiObject) (calls : list WifiCall) : list Event :=
  [EvWifiConnect] ++ map EvWifi calls
  ++ (if r =? ESP_OK
      then map EvWifi (snd (WifiObject_isConnected (wifi_platform env) o))
      else [])
  ++ (if connected_after env r o then
        (if unusable_frame f then []
         else [EvTelegramSend (telegram_sendDocument_ret env)])
        ++ map EvWifi (snd (WifiObject_disconnect o))
      else []).

(** The object that reaches the closing brace of the block, and the calls
    its destructor makes there. *)
Definition wifi_at_scope_end (env : Env) (r : esp_err_t) (o : WifiObject)
  : WifiObject :=
  if connected_after env r o then fst (WifiObject_disconnect o) else o.

Definition destructor_events (env : Env) (r : esp_err_t) (o : WifiObject)
  : list Event :=
  map EvWifi (snd (WifiObject_disconnect (wifi_at_scope_end env r o))).

(** Timer readings made for the caption (one, when WiFi came up), and the
    number of the reading [startCooldown] makes in a run of the pipeline. *)
Definition caption_readings (env : Env) : nat :=
  if wifi_up env then 1%nat else 0%nat.

Definition cooldown_reading (env : Env) : nat := S (caption_readings env).

Definition acquired_prefix (env : Env) : list Event :=
  [EvSdmmcMount ESP_OK; EvCameraInit ESP_OK; EvSensorSettings]
  ++ warmup_events env 0 config.timing.CAMERA_WARMUP_FRAMES.

Definition warmup_passes (env : Env) : bool :=
  warmup_valid env 0 config.timing.CAMERA_WARMUP_FRAMES
  >=? config.timing.CAMERA_MIN_VALID_FRAMES.

Inductive pipeline_exit (env : Env) (a : Z) : list Event -> Z -> Prop :=
| exit_cooldown :
    isInCooldown_at a (now_at env 0) = true ->
    pipeline_exit env a (sleep_events env a 2) a
| exit_mount_failed :
    isInCooldown_at a (now_at env 0) = false ->
    (esp_vfs_fat_sdmmc_mount_ret env =? ESP_OK) = false ->
    pipeline_exit env a
      (EvSdmmcMount (esp_vfs_fat_sdmmc_mount_ret env) :: sleep_events env a 1) a
| exit_camera_init_failed :
    isInCooldown_at a (now_at env 0) = false ->
    (esp_vfs_fat_sdmmc_mount_ret env =? ESP_OK) = true ->
    (esp_camera_init_ret env =? ESP_OK) = false ->
    pipeline_exit env a
      ([EvSdmmcMount ESP_OK; EvCameraInit (esp_camera_init_ret env)]
       ++ sd_shutdown_events ++ sleep_events env a 1) a
| exit_sensor_missing :
    isInCooldown_at a (now_at env 0) = false ->
    (esp_vfs_fat_sdmmc_mount_ret env =? ESP_OK) = true ->
    (esp_camera_init_ret env =? ESP_OK) = true ->
    esp_camera_sensor_present env = false ->
    pipeline_exit env a
      ([EvSdmmcMount ESP_OK; EvCameraInit ESP_OK; EvCameraDeinit]
       ++ sd_shutdown_events ++ sleep_events env a 1) a
| exit_warmup_failed :
    isInCooldown_at a (now_at env 0) = false ->
    (esp_vfs_fat_sdmmc_mount_ret env =? ESP_OK) = true ->
    (esp_camera_init_ret env =? ESP_OK) = true ->
    esp_camera_sensor_present env = true ->
    warmup_passes env = false ->
    pipeline_exit env a
      (acquired_prefix env ++ release_events env ++ sleep_events env a 1) a
| exit_capture_failed :
    isInCooldown_at a (now_at env 0) = false ->
    (esp_vfs_fat_sdmmc_mount_ret env =? ESP_OK) = true ->
    (esp_camera_init_ret env =? ESP_OK) = true ->
    esp_camera_sensor_present env = true ->
    warmup_passes env = true ->
    match esp_camera_fb_get_at env config.timing.CAMERA_WARMUP_FRAMES with
    | Some f => fb_len f <? config.camera.MIN_FRAME_SIZE
    | None => true
    end = true ->
    pipeline_exit env a
      (acquired_prefix env
       ++ match esp_camera_fb_get_at env config.timing.CAMERA_WARMUP_FRAMES with
          | Some f => [EvFbGet (Some f); EvFbReturn f]
          | None => [EvFbGet None]
          end
       ++ release_events env ++ sleep_events env a 1) a
| exit_no_alert (f : camera_fb_t) :
    isInCooldown_at a (now_at env 0) = false ->
    (esp_vfs_fat_sdmmc_mount_ret env =? ESP_OK) = true ->
    (esp_camera_init_ret env =? ESP_OK) = true ->
    esp_camera_sensor_present env = true ->
    warmup_passes env = true ->
    esp_camera_fb_get_at env config.timing.CAMERA_WARMUP_FRAMES = Some f ->
    (fb_len f <? config.camera.MIN_FRAME_SIZE) = false ->
    confident (detection_of env f) = false ->
    pipeline_exit env a
      (acquired_prefix env
       ++ [EvFbGet (Some f)] ++ detect_events env f
       ++ [EvDetectReturned (detection_of env f)]
       ++ [EvFbReturn f] ++ release_events env ++ sleep_events env a 1) a
| exit_alert (f : camera_fb_t) (r : esp_err_t) (o : WifiObject)
             (calls : list WifiCall) :
    isInCooldown_at a (now_at env 0) = false ->
    (esp_vfs_fat_sdmmc_mount_ret env =? ESP_OK) = true ->
    (esp_camera_init_ret env =? ESP_OK) = true ->
    esp_camera_sensor_present env = true ->
    warmup_passes env = true ->
    esp_camera_fb_get_at env config.timing.CAMERA_WARMUP_FRAMES = Some f ->
    (fb_len f <? config.camera.MIN_FRAME_SIZE) = false ->
    confident (detection_of env f) = true ->
    wifi_run env = WifiReturned r o calls ->
    pipeline_exit env a
      (acquired_prefix env
       ++ [EvFbGet (Some f)] ++ detect_events env f
       ++ [EvDetectReturned (detection_of env f)]
       ++ notify_events env f r o calls
       ++ [EvStartCooldown config.timing.COOLDOWN_SECONDS]
       ++ destructor_events env r o
       ++ [EvFbReturn f] ++ release_events env
       ++ sleep_events env
            (startCooldown_at (now_at env (cooldown_reading env))
                              config.timing.COOLDOWN_SECONDS)
            (S (cooldown_reading env)))
      (startCooldown_at (now_at env (cooldown_reading env))
                        config.timing.COOLDOWN_SECONDS).

(** The run that ends in [abort()]: a confident detection, then [connect]
    fails to erase the NVS partition.  Nothing after the failing call is
    executed. *)
Inductive pipeline_aborted (env : Env) (a : Z) : list Event -> Z -> Prop :=
| abort_in_connect (f : camera_fb_t) (calls : list WifiCall) :
    isInCooldown_at a (now_at env 0) = false ->
    (esp_vfs_fat_sdmmc_mount_ret env =? ESP_OK) = true ->
    (esp_camera_init_ret env =? ESP_OK) = true ->
    esp_camera_sensor_present env = true ->
    warmup_passes env = true ->
    esp_camera_fb_get_at env config.timing.CAMERA_WARMUP_FRAMES = Some f ->
    (fb_len f <? config.camera.MIN_FRAME_SIZE) = false ->
    confident (detection_of env f) = true ->
    wifi_run env = WifiAborted calls ->
    pipeline_aborted env a
      (acquired_prefix env
       ++ [EvFbGet (Some f)] ++ detect_events env f
       ++ [EvDetectReturned (detection_of env f)]
       ++ [EvWifiConnect] ++ map EvWifi calls)
      a.

(** How a run ends: in deep sleep or in [abort()], never by returning. *)
Definition ends_in (o : Outcome unit) (w' : World) : Prop :=
  o = PoweredDown w' \/ o = Aborted w'.

(** What is known of the outcome of a run started with the timestamp [a]. *)
Definition pipeline_outcome (env : Env) (a : Z) (o : Outcome unit) : Prop :=
  match o with
  | PoweredDown w' => pipeline_exit env a (trace w') (s_nextPirAllowTime w')
  | Aborted w' => pipeline_aborted env a (trace w') (s_nextPirAllowTime w')
  | Returned _ _ => False
  end.

(** One run of the PIR-trigger pipeline, from the wake-up boot. *)
Definition pipeline_run (env : Env) (allowed_after : Z) : Outcome unit :=
  handlePirTrigger env (boot_world allowed_after).

(** The failing paths of the pipeline: a stage fails, or no detection result
    returned in the run is a confident one. *)
Definition pipeline_fails (env : Env) (allowed_after : Z) : Prop :=
  (esp_vfs_fat_sdmmc_mount_ret env =? ESP_OK) = false
  \/ (esp_camera_init_ret env =? ESP_OK) = false
  \/ esp_camera_sensor_present env = false
  \/ warmup_passes env = false
  \/ match esp_camera_fb_get_at env config.timing.CAMERA_WARMUP_FRAMES with
     | Some f => fb_len f <? config.camera.MIN_FRAME_SIZE
     | None => true
     end = true
  \/ (forall r,
        In r (detect_results (trace (world_of (pipeline_run env allowed_after)))) ->
        confident r = false).

(** The valid frames among the grabs [k .. k+n-1]. *)
Definition valid_frames_among (env : Env) (k n : nat) : Z :=
  Z.of_nat (length (filter valid_warmup_frame
                      (map (esp_camera_fb_get_at env) (seq k n)))).

(** The frames among the grabs [k .. k+n-1] that meet the minimum size: the
    frames of at least [MIN_FRAME_SIZE] bytes ("minimum valid frame size" in
    app_config.hpp), which are also the frames [capture] accepts. *)
Definition meets_minimum_size (fb : option camera_fb_t) : bool :=
  match fb with
  | Some f => negb (fb_len f <? config.camera.MIN_FRAME_SIZE)
  | None => false
  end.

Definition frames_meeting_minimum (env : Env) (k n : nat) : Z :=
  Z.of_nat (length (filter meets_minimum_size
                      (map (esp_camera_fb_get_at env) (seq k n)))).

(** ** Sample platforms *)

Definition sample_frame : camera_fb_t := mk_fb false 48213 1280 1024.

(** [0.82f] in binary32. *)
Definition score_0_82 : spec_float := S754_finite false 13757317 (-24).

(** A person in front of the camera, WiFi out of reach; every timer reading
    falls in second 12 after boot. *)
Definition undelivered_alert_env : Env :=
  mk_env (fun _ => 12000000) ESP_SLEEP_WAKEUP_EXT1 ESP_OK ESP_OK true
         (fun _ => Some sample_frame) true
         [mk_det score_0_82 [400; 200; 700; 900]]
         no_ap_in_range ESP_FAIL.

(** The same person, the access point in reach and the alert accepted. *)
Definition delivered_alert_env : Env :=
  mk_env (fun _ => 12000000) ESP_SLEEP_WAKEUP_EXT1 ESP_OK ESP_OK true
         (fun _ => Some sample_frame) true
         [mk_det score_0_82 [400; 200; 700; 900]]
         reachable_ap ESP_OK.

(** The NVS partition has no free page and cannot be erased. *)
Definition nvs_unerasable : WifiPlatform :=
  mk_wifi_platform ESP_ERR_NVS_NO_FREE_PAGES ESP_FAIL ESP_OK true ESP_OK ESP_OK
                   ESP_OK ESP_OK ESP_OK ESP_OK ESP_OK ESP_OK 1 1.

(** The same person again, on a board whose NVS partition cannot be erased. *)
Definition nvs_unerasable_env : Env :=
  mk_env (fun _ => 12000000) ESP_SLEEP_WAKEUP_EXT1 ESP_OK ESP_OK true
         (fun _ => Some sample_frame) true
         [mk_det score_0_82 [400; 200; 700; 900]]
         nvs_unerasable ESP_OK.

(** Good frames that the JPEG decoder rejects. *)
Definition undecodable_frame_env : Env :=
  mk_env (fun _ => 12000000) ESP_SLEEP_WAKEUP_EXT1 ESP_OK ESP_OK true
         (fun _ => Some sample_frame) false [] no_ap_in_range ESP_FAIL.

(** The camera delivers no frame at all. *)
Definition dark_camera_env : Env :=
  mk_env (fun _ => 12000000) ESP_SLEEP_WAKEUP_EXT1 ESP_OK ESP_OK true
         (fun _ => None) true [] no_ap_in_range ESP_FAIL.

(** ** Further observations on a run *)

Definition is_wifi_connect (e : Event) : bool :=
  match e with EvWifiConnect => true | _ => false end.
(** A call made by [WifiManager] that satisfies [q]. *)
Definition is_wifi_call (q : WifiCall -> bool) (e : Event) : bool :=
  match e with EvWifi c => q c | _ => false end.
Definition is_deep_sleep_start (e : Event) : bool :=
  match e with EvDeepSleepStart => true | _ => false end.
Definition is_telegram_send (e : Event) : bool :=
  match e with EvTelegramSend _ => true | _ => false end.
Definition is_heap_free (e : Event) : bool :=
  match e with EvHeapFree => true | _ => false end.
Definition is_decoded (e : Event) : bool :=
  match e with EvJpegDecode ok => ok | _ => false end.
Definition is_model_run (e : Event) : bool :=
  match e with EvModelRun _ => true | _ => false end.

(** The pins named by the GPIO calls of a trace, in order. *)
Definition gpio_pins (tr : list Event) : list Z :=
  flat_map (fun e => match e with EvGpio _ p => [p] | _ => [] end) tr.

(** The GPIO calls made on one pin, in order. *)
Definition gpio_ops_on (pin : Z) (tr : list Event) : list gpio_op :=
  flat_map (fun e => match e with
                     | EvGpio op p => if p =? pin then [op] else []
                     | _ => []
                     end) tr.

(** A GPIO call on a pin of neither driver's table. *)
Definition is_foreign_gpio (e : Event) : bool :=
  match e with
  | EvGpio _ p =>
      negb (existsb (Z.eqb p) (config.camera.DATA_PINS ++ config.sdcard.PINS))
  | _ => false
  end.

(** The grabs [k .. k+n-1] that do not count as valid warmup frames. *)
Definition invalid_frames_among (env : Env) (k n : nat) : Z :=
  Z.of_nat (length (filter (fun fb => negb (valid_warmup_frame fb))
                      (map (esp_camera_fb_get_at env) (seq k n)))).

(** A frame of exactly [MIN_FRAME_SIZE] bytes, whenever a frame is asked for. *)
Definition boundary_frame : camera_fb_t :=
  mk_fb false config.camera.MIN_FRAME_SIZE 1280 1024.

Definition boundary_frame_env : Env :=
  mk_env (fun _ => 12000000) ESP_SLEEP_WAKEUP_EXT1 ESP_OK ESP_OK true
         (fun _ => Some boundary_frame) true [] no_ap_in_range ESP_FAIL.

(** ** network::TelegramClient in full (telegram_client.cpp)

    [sendDocument] and [sendMessage] call by call.  C strings are byte
    strings; [snprintf] fills its buffer with at most [size - 1] bytes and
    returns the length of the whole formatted text.  credentials.hpp is not
    part of the sources: [Credentials] stands for its three constants. *)

Module telegram.

Import Ascii String.
Local Open Scope string_scope.
Local Open Scope Z_scope.

Record Credentials := mk_credentials {
  API_BASE_URL : string;
  BOT_TOKEN : string;
  CHAT_ID : string
}.

Definition BOUNDARY : string := "X-ESPIDF-MULTIPART-BOUNDARY".
Definition HEADER_BUFFER_SIZE : nat := 512.
Definition TAIL_BUFFER_SIZE : nat := 128.
Definition HTTP_TIMEOUT_MS : Z := 30000.

Definition crlf : string := String (ascii_of_nat 13) (String (ascii_of_nat 10) "").
Definition dquote : string := String (ascii_of_nat 34) "".

(** What [snprintf(buf, size, ...)] leaves in [buf], and what it returns,
    for the formatted text [s]. *)
Definition snprintf_buf (size : nat) (s : string) : string :=
  substring 0 (size - 1) s.
Definition snprintf_ret (s : string) : Z := Z.of_nat (length s).

(** The formatted multipart header of [sendDocument]. *)
Definition header_text (creds : Credentials) (caption filename : string)
  : string :=
  "--" ++ BOUNDARY ++ crlf
  ++ "Content-Disposition: form-data; name=" ++ dquote ++ "chat_id" ++ dquote
  ++ crlf ++ crlf
  ++ CHAT_ID creds ++ crlf
  ++ "--" ++ BOUNDARY ++ crlf
  ++ "Content-Disposition: form-data; name=" ++ dquote ++ "caption" ++ dquote
  ++ crlf ++ crlf
  ++ caption ++ crlf
  ++ "--" ++ BOUNDARY ++ crlf
  ++ "Content-Disposition: form-data; name=" ++ dquote ++ "document" ++ dquote
  ++ "; filename=" ++ dquote ++ filename ++ dquote ++ crlf
  ++ "Content-Type: image/jpeg" ++ crlf ++ crlf.

Definition tail_text : string := crlf ++ "--" ++ BOUNDARY ++ "--" ++ crlf.

Definition content_type_text : string :=
  "multipart/form-data; boundary=" ++ BOUNDARY.

(** The formatted JSON payload of [sendMessage]. *)
Definition payload_text (creds : Credentials) (message : string) : string :=
  "{" ++ dquote ++ "chat_id" ++ dquote ++ ":" ++ dquote ++ CHAT_ID creds
  ++ dquote ++ "," ++ dquote ++ "text" ++ dquote ++ ":" ++ dquote ++ message
  ++ dquote ++ "}".

Inductive BodyPart :=
| PartHeader (buf : string)
| PartData
| PartTail (buf : string).

Inductive HttpCall :=
| HcInit (url : string) (timeout_ms : Z) (ok : bool)   (* esp_http_client_init *)
| HcSetHeader (name value : string)
| HcOpen (write_len : Z) (r : esp_err_t)
| HcWrite (part : BodyPart) (len : Z) (written : Z)
| HcFetchHeaders (content_length : Z)
| HcGetStatusCode (status : Z)
| HcSetPostField (payload : string) (len : Z)
| HcPerform (r : esp_err_t)
| HcCleanup.

Record HttpPlatform := mk_http_platform {
  esp_http_client_init_ok : bool;
  esp_http_client_open_ret : esp_err_t;
  write_header_ret : Z;
  write_data_ret : Z;
  write_tail_ret : Z;
  esp_http_client_fetch_headers_ret : Z;
  esp_http_client_get_status_code_ret : Z;
  esp_http_client_perform_ret : esp_err_t
}.

(** [data_null]: the [data] pointer is null; [dataLen]: a [size_t]. *)
Definition sendDocument (creds : Credentials) (p : HttpPlatform)
    (data_null : bool) (dataLen : Z) (caption filename : string)
  : esp_err_t * list HttpCall :=
  if data_null || (dataLen =? 0) then (ESP_ERR_INVALID_ARG, nil)
  else
  let url := snprintf_buf 256 (API_BASE_URL creds ++ BOT_TOKEN creds
                               ++ "/sendDocument") in
  let calls := (HcInit url HTTP_TIMEOUT_MS (esp_http_client_init_ok p) :: nil) in
  if negb (esp_http_client_init_ok p) then (ESP_ERR_NO_MEM, calls)
  else
  let header := snprintf_buf HEADER_BUFFER_SIZE
                             (header_text creds caption filename) in
  let headerLen := snprintf_ret (header_text creds caption filename) in
  let tail := snprintf_buf TAIL_BUFFER_SIZE tail_text in
  let tailLen := snprintf_ret tail_text in
  let contentType := snprintf_buf 64 content_type_text in
  let totalLen := wrap_s32 (wrap_s32 (headerLen + wrap_s32 dataLen) + tailLen) in
  let err := esp_http_client_open_ret p in
  let calls := (calls ++ HcSetHeader "Content-Type" contentType
                         :: HcOpen totalLen err :: nil)%list in
  if negb (err =? ESP_OK) then (err, (calls ++ HcCleanup :: nil)%list)
  else
  let calls := (calls ++ HcWrite (PartHeader header) headerLen
                                 (write_header_ret p) :: nil)%list in
  if negb (write_header_ret p =? headerLen)
  then (ESP_FAIL, (calls ++ HcCleanup :: nil)%list)
  else
  let calls := (calls ++ HcWrite PartData (wrap_s32 dataLen)
                                 (write_data_ret p) :: nil)%list in
  if negb (write_data_ret p =? wrap_s32 dataLen)
  then (ESP_FAIL, (calls ++ HcCleanup :: nil)%list)
  else
  let calls := (calls ++ HcWrite (PartTail tail) tailLen
                                 (write_tail_ret p) :: nil)%list in
  if negb (write_tail_ret p =? tailLen)
  then (ESP_FAIL, (calls ++ HcCleanup :: nil)%list)
  else
  let statusCode := esp_http_client_get_status_code_ret p in
  let calls := (calls ++ HcFetchHeaders (esp_http_client_fetch_headers_ret p)
                         :: HcGetStatusCode statusCode :: HcCleanup :: nil)%list in
  if statusCode =? 200 then (ESP_OK, calls) else (ESP_FAIL, calls).

Definition sendMessage (creds : Credentials) (p : HttpPlatform)
    (message : string) : esp_err_t * list HttpCall :=
  let url := snprintf_buf 256 (API_BASE_URL creds ++ BOT_TOKEN creds
                               ++ "/sendMessage") in
  let payload := snprintf_buf 512 (payload_text creds message) in
  let calls := (HcInit url HTTP_TIMEOUT_MS (esp_http_client_init_ok p) :: nil) in
  if negb (esp_http_client_init_ok p) then (ESP_ERR_NO_MEM, calls)
  else
  let err := esp_http_client_perform_ret p in
  let statusCode := esp_http_client_get_status_code_ret p in
  let calls := (calls ++ HcSetHeader "Content-Type" "application/json"
                         :: HcSetPostField payload (Z.of_nat (length payload))
                         :: HcPerform err
                         :: HcGetStatusCode statusCode
                         :: HcCleanup :: nil)%list in
  if (err =? ESP_OK) && (statusCode =? 200) then (ESP_OK, calls)
  else (ESP_FAIL, calls).

Definition is_cleanup (c : HttpCall) : bool :=
  match c with HcCleanup => true | _ => false end.
Definition is_client_created (c : HttpCall) : bool :=
  match c with HcInit _ _ ok => ok | _ => false end.

Definition http_count (q : HttpCall -> bool) (calls : list HttpCall) : nat :=
  List.length (filter q calls).

(** The lengths handed to [esp_http_client_write], in order. *)
Definition written_lengths (calls : list HttpCall) : list Z :=
  flat_map (fun c => match c with HcWrite _ len _ => (len :: nil)%list
                             | _ => nil end) calls.

(** The length announced to [esp_http_client_open]. *)
Definition announced_length (calls : list HttpCall) : option Z :=
  match flat_map (fun c => match c with HcOpen len _ => (len :: nil)%list
                                   | _ => nil end) calls with
  | (len :: _)%list => Some len
  | nil => None
  end.

(** The caption and file name of the pipeline's alert; the caption buffer of
    [handlePirTrigger] holds 128 bytes. *)
Definition CAPTION_BUFFER_SIZE : nat := 128.
Definition ALERT_FILENAME : string := "intruder_detection.jpg".

Definition sample_credentials : Credentials :=
  mk_credentials "https://api.telegram.org/bot" "123456:TOKEN" "987654321".

Definition sample_caption : string := "INTRUDER ALERT!".

Definition accepting_server : HttpPlatform :=
  mk_http_platform true ESP_OK
    (snprintf_ret (header_text sample_credentials sample_caption ALERT_FILENAME))
    48213 (snprintf_ret tail_text) 0 200 ESP_OK.

End telegram.

(** * Properties *)

(** ** Machine arithmetic *)

Lemma wrap_s64_small (z : Z) : in_int64 z -> wrap_s64 z = z.
Proof.
  unfold in_int64, INT64_MIN, INT64_MAX, wrap_s64. intros H.
  rewrite Z.mod_small; lia.
Qed.

Lemma wrap_s64_range (z : Z) : in_int64 (wrap_s64 z).
Proof.
  unfold in_int64, INT64_MIN, INT64_MAX, wrap_s64.
  pose proof (Z.mod_pos_bound (z + 2 ^ 63) (2 ^ 64) ltac:(lia)). lia.
Qed.

Lemma wrap_u64_small (z : Z) : 0 <= z < UINT64_MOD -> wrap_u64 z = z.
Proof. unfold UINT64_MOD, wrap_u64. intros H. apply Z.mod_small; lia. Qed.

Lemma seconds_of_us_nonneg (us : Z) : 0 <= us -> 0 <= seconds_of_us us.
Proof. intros H. unfold seconds_of_us. apply Z.quot_pos; lia. Qed.

(** ** The cooldown store *)

Lemma isInCooldown_at_spec (a now : Z) :
  isInCooldown_at a now = true <-> now < a.
Proof. unfold isInCooldown_at. rewrite Z.gtb_ltb, Z.ltb_lt. tauto. Qed.

Lemma getCooldownRemaining_at_exact (a now : Z) :
  in_int64 (a - now) -> getCooldownRemaining_at a now = Z.max 0 (a - now).
Proof.
  intros H. unfold getCooldownRemaining_at.
  rewrite (wrap_s64_small _ H).
  destruct (a - now >? 0) eqn:E.
  - rewrite Z.gtb_ltb, Z.ltb_lt in E. lia.
  - rewrite Z.gtb_ltb, Z.ltb_ge in E. lia.
Qed.

Lemma getCooldownRemaining_at_nonneg (a now : Z) :
  0 <= getCooldownRemaining_at a now.
Proof.
  unfold getCooldownRemaining_at.
  destruct (wrap_s64 (a - now) >? 0) eqn:E; [|lia].
  rewrite Z.gtb_ltb, Z.ltb_lt in E. lia.
Qed.

(** Values the program itself produces never overflow the subtraction. *)
Lemma nonneg_int64_difference (a now : Z) :
  0 <= a <= INT64_MAX -> 0 <= now <= INT64_MAX -> in_int64 (a - now).
Proof. unfold in_int64, INT64_MIN, INT64_MAX. lia. Qed.

(** The monadic queries run the bodies above on the next timer reading and
    touch nothing but the count of timer readings. *)
Lemma getCurrentTimeSec_run env w :
  getCurrentTimeSec env w =
  Returned (now_at env (timer_calls w))
           (mk_world (s_nextPirAllowTime w) (S (timer_calls w))
                     (fb_calls w) (trace w)).
Proof. reflexivity. Qed.

Lemma isInCooldown_run env w :
  isInCooldown env w =
  Returned (isInCooldown_at (s_nextPirAllowTime w) (now_at env (timer_calls w)))
           (mk_world (s_nextPirAllowTime w) (S (timer_calls w))
                     (fb_calls w) (trace w)).
Proof. reflexivity. Qed.

Lemma getCooldownRemaining_run env w :
  getCooldownRemaining env w =
  Returned (getCooldownRemaining_at (s_nextPirAllowTime w)
                                    (now_at env (timer_calls w)))
           (mk_world (s_nextPirAllowTime w) (S (timer_calls w))
                     (fb_calls w) (trace w)).
Proof. reflexivity. Qed.

Lemma startCooldown_run env seconds w :
  startCooldown env seconds w =
  Returned tt
           (mk_world (startCooldown_at (now_at env (timer_calls w)) seconds)
                     (S (timer_calls w)) (fb_calls w)
                     (trace w ++ [EvStartCooldown seconds])).
Proof. reflexivity. Qed.

Lemma enterDeepSleep_run {A} env w :
  @enterDeepSleep env A w =
  PoweredDown
    (if isInCooldown_at (s_nextPirAllowTime w) (now_at env (timer_calls w))
     then mk_world (s_nextPirAllowTime w) (S (S (timer_calls w))) (fb_calls w)
            (((trace w ++
               [EvArm (TimerWake (timer_wakeup_us
                  (getCooldownRemaining_at (s_nextPirAllowTime w)
                     (now_at env (S (timer_calls w))))))])
              ++ [EvDelayMs 100]) ++ [EvDeepSleepStart])
     else mk_world (s_nextPirAllowTime w) (S (timer_calls w)) (fb_calls w)
            (((trace w ++ [EvArm (LevelWake pir_ext1_mask)])
              ++ [EvDelayMs 100]) ++ [EvDeepSleepStart])).
Proof.
  unfold enterDeepSleep, bind. rewrite isInCooldown_run.
  destruct (isInCooldown_at _ _); reflexivity.
Qed.

(** C6: under the definedness condition of the C++ subtraction (no signed
    overflow of [allowed_after - now]), [getCooldownRemaining] is
    [max(0, allowed_after - now)], and it is zero exactly when [isInCooldown]
    is false. *)
Theorem C6_remaining_is_clamped_difference (allowed_after now : Z) :
  in_int64 (allowed_after - now) ->
  getCooldownRemaining_at allowed_after now = Z.max 0 (allowed_after - now)
  /\ (getCooldownRemaining_at allowed_after now = 0
      <-> isInCooldown_at allowed_after now = false).
Proof.
  intros H. rewrite (getCooldownRemaining_at_exact _ _ H). split; [reflexivity|].
  unfold isInCooldown_at. rewrite Z.gtb_ltb, Z.ltb_ge. lia.
Qed.

Lemma C6_remaining_is_clamped_difference_witness :
  in_int64 (3612 - 12)
  /\ (getCooldownRemaining_at 3612 12 = Z.max 0 (3612 - 12)
      /\ (getCooldownRemaining_at 3612 12 = 0
          <-> isInCooldown_at 3612 12 = false)).
Proof.
  split.
  - unfold in_int64, INT64_MIN, INT64_MAX. lia.
  - apply (C6_remaining_is_clamped_difference 3612 12).
    unfold in_int64, INT64_MIN, INT64_MAX. lia.
Defined.

Lemma perform_not_start_frame env c w :
  is_CallStartCooldown c = false ->
  s_nextPirAllowTime (world_of (perform env c w)) = s_nextPirAllowTime w.
Proof.
  destruct c; intros Hc; try discriminate; try reflexivity.
  simpl. rewrite enterDeepSleep_run. simpl.
  destruct (isInCooldown_at _ _); reflexivity.
Qed.

Lemma perform_all_frame env cs :
  forall w,
    forallb (fun c => negb (is_CallStartCooldown c)) cs = true ->
    s_nextPirAllowTime (world_of (perform_all env cs w)) = s_nextPirAllowTime w.
Proof.
  induction cs as [|c cs IH]; intros w H; [reflexivity|].
  simpl in H. apply andb_prop in H. destruct H as [Hc Hcs].
  apply negb_true_iff in Hc.
  pose proof (perform_not_start_frame env c w Hc) as Hstep.
  simpl. unfold bind.
  destruct (perform env c w) as [[] w1|w1|w1]; simpl in Hstep.
  - rewrite (IH w1 Hcs). exact Hstep.
  - exact Hstep.
  - exact Hstep.
Qed.

(** ** The wake arbiter *)

Lemma timer_wakeup_us_exact (d : Z) :
  0 <= d -> d * 1000000 < UINT64_MOD -> timer_wakeup_us d = d * 1000000.
Proof. intros H0 H1. unfold timer_wakeup_us. apply wrap_u64_small. lia. Qed.

Lemma armed_sources_app (l1 l2 : list Event) :
  armed_sources (l1 ++ l2) = armed_sources l1 ++ armed_sources l2.
Proof. unfold armed_sources. apply flat_map_app. Qed.

(** ** The warmup loop *)

Lemma warmup_loop_run env n :
  forall v w,
    warmup_loop env n v w =
    Returned (v + warmup_valid env (fb_calls w) n)
             (mk_world (s_nextPirAllowTime w) (timer_calls w)
                       (n + fb_calls w)
                       (trace w ++ warmup_events env (fb_calls w) n)).
Proof.
  induction n as [|n IH]; intros v w.
  - simpl. unfold ret. rewrite Z.add_0_r, app_nil_r. destruct w; reflexivity.
  - cbn [warmup_loop warmup_events warmup_valid].
    unfold bind, esp_camera_fb_get, esp_camera_fb_return, vTaskDelay_ms,
      emit, ret, valid_warmup_frame.
    destruct (esp_camera_fb_get_at env (fb_calls w)) as [f|];
      rewrite IH; cbn [fb_calls trace s_nextPirAllowTime timer_calls];
      rewrite <- !app_assoc, Nat.add_succ_r; cbn [app]; f_equal.
    destruct (fb_len f >? config.camera.MIN_FRAME_SIZE); lia.
Qed.

Lemma CameraDriver_warmup_run env w :
  CameraDriver_warmup env (mk_cam true) w =
  Returned (warmup_valid env (fb_calls w) config.timing.CAMERA_WARMUP_FRAMES
            >=? config.timing.CAMERA_MIN_VALID_FRAMES)
           (mk_world (s_nextPirAllowTime w) (timer_calls w)
                     (config.timing.CAMERA_WARMUP_FRAMES + fb_calls w)
                     (trace w ++ warmup_events env (fb_calls w)
                                   config.timing.CAMERA_WARMUP_FRAMES)).
Proof.
  unfold CameraDriver_warmup. cbn [m_initialized negb]. unfold bind.
  rewrite warmup_loop_run. reflexivity.
Qed.

(** ** Symbolic execution of the handlers

    One equation per operation, on a world given by its four fields. *)

Lemma bind_unfold {A B} (m : M A) (k : A -> M B) (w : World) :
  bind m k w = match m w with
               | Returned x w' => k x w'
               | PoweredDown w' => PoweredDown w'
               | Aborted w' => Aborted w'
               end.
Proof. reflexivity. Qed.

Lemma emit_mk e a t n tr :
  emit e (mk_world a t n tr) = Returned tt (mk_world a t n (tr ++ [e])).
Proof. reflexivity. Qed.

Lemma isInCooldown_mk env a t n tr :
  isInCooldown env (mk_world a t n tr) =
  Returned (isInCooldown_at a (now_at env t)) (mk_world a (S t) n tr).
Proof. reflexivity. Qed.

Lemma getCooldownRemaining_mk env a t n tr :
  getCooldownRemaining env (mk_world a t n tr) =
  Returned (getCooldownRemaining_at a (now_at env t)) (mk_world a (S t) n tr).
Proof. reflexivity. Qed.

Lemma getCurrentTimeSec_mk env a t n tr :
  getCurrentTimeSec env (mk_world a t n tr) =
  Returned (now_at env t) (mk_world a (S t) n tr).
Proof. reflexivity. Qed.

Lemma startCooldown_mk env seconds a t n tr :
  startCooldown env seconds (mk_world a t n tr) =
  Returned tt (mk_world (startCooldown_at (now_at env t) seconds) (S t) n
                        (tr ++ [EvStartCooldown seconds])).
Proof. reflexivity. Qed.

Lemma enterDeepSleep_mk {A} env a t n tr :
  exists t',
    @enterDeepSleep env A (mk_world a t n tr) =
    PoweredDown (mk_world a t' n (tr ++ sleep_events env a t)).
Proof.
  rewrite enterDeepSleep_run. cbn [s_nextPirAllowTime timer_calls fb_calls trace].
  unfold sleep_events.
  destruct (isInCooldown_at a (now_at env t));
    eexists; rewrite <- !app_assoc; reflexivity.
Qed.

Lemma SdCardDriver_mount_mk env a t n tr :
  SdCardDriver_mount env SdCardDriver_new (mk_world a t n tr) =
  Returned (if esp_vfs_fat_sdmmc_mount_ret env =? ESP_OK
            then (ESP_OK, mk_sd true)
            else (esp_vfs_fat_sdmmc_mount_ret env, mk_sd false))
           (mk_world a t n (tr ++ [EvSdmmcMount (esp_vfs_fat_sdmmc_mount_ret env)])).
Proof.
  unfold SdCardDriver_mount, SdCardDriver_new. cbn [m_card].
  rewrite bind_unfold, emit_mk.
  destruct (esp_vfs_fat_sdmmc_mount_ret env =? ESP_OK); reflexivity.
Qed.

Lemma SdCardDriver_shutdown_mounted a t n tr :
  SdCardDriver_shutdown (mk_sd true) (mk_world a t n tr) =
  Returned (mk_sd false) (mk_world a t n (tr ++ sd_shutdown_events)).
Proof.
  unfold SdCardDriver_shutdown, sd_shutdown_events, SdCardDriver_resetGpioPins,
    bind, emit, emit_all, ret.
  cbn [m_card negb s_nextPirAllowTime timer_calls fb_calls trace].
  rewrite <- app_assoc. reflexivity.
Qed.

Lemma SdCardDriver_shutdown_unmounted w :
  SdCardDriver_shutdown (mk_sd false) w = Returned (mk_sd false) w.
Proof. reflexivity. Qed.

Lemma CameraDriver_init_mk env a t n tr :
  CameraDriver_init env CameraDriver_new (mk_world a t n tr) =
  if esp_camera_init_ret env =? ESP_OK then
    if esp_camera_sensor_present env then
      Returned (ESP_OK, mk_cam true)
               (mk_world a t n ((tr ++ [EvCameraInit (esp_camera_init_ret env)])
                                ++ [EvSensorSettings]))
    else
      Returned (ESP_FAIL, mk_cam false)
               (mk_world a t n ((tr ++ [EvCameraInit (esp_camera_init_ret env)])
                                ++ [EvCameraDeinit]))
  else
    Returned (esp_camera_init_ret env, mk_cam false)
             (mk_world a t n (tr ++ [EvCameraInit (esp_camera_init_ret env)])).
Proof.
  unfold CameraDriver_init, CameraDriver_new. cbn [m_initialized].
  rewrite bind_unfold, emit_mk.
  destruct (esp_camera_init_ret env =? ESP_OK); [|reflexivity].
  destruct (esp_camera_sensor_present env); reflexivity.
Qed.

Lemma CameraDriver_shutdown_initialized env a t n tr :
  CameraDriver_shutdown env (mk_cam true) (mk_world a t n tr) =
  Returned (mk_cam false) (mk_world a t n (tr ++ cam_shutdown_events env)).
Proof.
  unfold CameraDriver_shutdown, cam_shutdown_events, CameraDriver_resetGpioPins,
    bind, emit, emit_all, ret.
  cbn [m_initialized negb].
  destruct (esp_camera_sensor_present env);
    cbn [s_nextPirAllowTime timer_calls fb_calls trace];
    rewrite <- !app_assoc; reflexivity.
Qed.

Lemma CameraDriver_shutdown_uninitialized env w :
  CameraDriver_shutdown env (mk_cam false) w = Returned (mk_cam false) w.
Proof. reflexivity. Qed.

Lemma CameraDriver_warmup_mk env a t n tr :
  CameraDriver_warmup env (mk_cam true) (mk_world a t n tr) =
  Returned (warmup_valid env n config.timing.CAMERA_WARMUP_FRAMES
            >=? config.timing.CAMERA_MIN_VALID_FRAMES)
           (mk_world a t (config.timing.CAMERA_WARMUP_FRAMES + n)
                     (tr ++ warmup_events env n config.timing.CAMERA_WARMUP_FRAMES)).
Proof. apply CameraDriver_warmup_run. Qed.

Lemma CameraDriver_capture_mk env a t n tr :
  CameraDriver_capture env (mk_cam true) (mk_world a t n tr) =
  match esp_camera_fb_get_at env n with
  | None => Returned None (mk_world a t (S n) (tr ++ [EvFbGet None]))
  | Some f =>
      if fb_len f <? config.camera.MIN_FRAME_SIZE
      then Returned None (mk_world a t (S n)
                            ((tr ++ [EvFbGet (Some f)]) ++ [EvFbReturn f]))
      else Returned (Some f) (mk_world a t (S n) (tr ++ [EvFbGet (Some f)]))
  end.
Proof.
  unfold CameraDriver_capture. cbn [m_initialized negb].
  rewrite bind_unfold. unfold esp_camera_fb_get.
  cbn [s_nextPirAllowTime timer_calls fb_calls trace].
  destruct (esp_camera_fb_get_at env n) as [f|]; [|reflexivity].
  destruct (fb_len f <? config.camera.MIN_FRAME_SIZE); reflexivity.
Qed.

Lemma Detector_detect_mk env f a t n tr :
  Detector_detect env (Some f) (mk_world a t n tr) =
  Returned (detection_of env f) (mk_world a t n (tr ++ detect_events env f)).
Proof.
  unfold Detector_detect, detection_of, detect_events, unusable_frame.
  destruct (fb_buf_null f || (fb_len f =? 0)).
  - unfold ret. rewrite app_nil_r. reflexivity.
  - rewrite bind_unfold, emit_mk.
    destruct (sw_decode_jpeg_ok env); cbn [negb]; [|reflexivity].
    rewrite bind_unfold, emit_mk, bind_unfold, emit_mk.
    unfold ret. rewrite <- !app_assoc. reflexivity.
Qed.

Lemma emit_wifi_mk calls a t n tr :
  emit_wifi calls (mk_world a t n tr)
  = Returned tt (mk_world a t n (tr ++ map EvWifi calls)).
Proof. reflexivity. Qed.

Lemma WifiManager_connect_returns env r o calls a t n tr :
  wifi_run env = WifiReturned r o calls ->
  WifiManager_connect env WifiObject_new (mk_world a t n tr)
  = Returned (r, o) (mk_world a t n (tr ++ EvWifiConnect :: map EvWifi calls)).
Proof.
  intros H. unfold WifiManager_connect.
  change (WifiObject_connect (wifi_platform env) WifiObject_new)
    with (wifi_run env).
  rewrite H, bind_unfold, emit_mk, bind_unfold, emit_wifi_mk.
  unfold ret. rewrite <- app_assoc. reflexivity.
Qed.

Lemma WifiManager_connect_aborts env calls a t n tr :
  wifi_run env = WifiAborted calls ->
  WifiManager_connect env WifiObject_new (mk_world a t n tr)
  = Aborted (mk_world a t n (tr ++ EvWifiConnect :: map EvWifi calls)).
Proof.
  intros H. unfold WifiManager_connect.
  change (WifiObject_connect (wifi_platform env) WifiObject_new)
    with (wifi_run env).
  rewrite H, bind_unfold, emit_mk, bind_unfold, emit_wifi_mk.
  unfold abort. rewrite <- app_assoc. reflexivity.
Qed.

Lemma WifiManager_isConnected_mk env o a t n tr :
  WifiManager_isConnected env o (mk_world a t n tr)
  = Returned (fst (WifiObject_isConnected (wifi_platform env) o))
      (mk_world a t n
         (tr ++ map EvWifi (snd (WifiObject_isConnected (wifi_platform env) o)))).
Proof. reflexivity. Qed.

Lemma WifiManager_disconnect_mk o a t n tr :
  WifiManager_disconnect o (mk_world a t n tr)
  = Returned (fst (WifiObject_disconnect o))
      (mk_world a t n (tr ++ map EvWifi (snd (WifiObject_disconnect o)))).
Proof. reflexivity. Qed.

Lemma TelegramClient_sendDocument_mk env f a t n tr :
  exists r,
    TelegramClient_sendDocument env f (mk_world a t n tr)
    = Returned r
        (mk_world a t n
           (tr ++ (if unusable_frame f then []
                   else [EvTelegramSend (telegram_sendDocument_ret env)]))).
Proof.
  unfold TelegramClient_sendDocument, unusable_frame.
  destruct (fb_buf_null f || (fb_len f =? 0)).
  - eexists. unfold ret. rewrite app_nil_r. reflexivity.
  - eexists. rewrite bind_unfold, emit_mk. reflexivity.
Qed.

(** Lists built with [++] and [::], brought to one shape. *)
Ltac app_norm :=
  repeat (rewrite <- app_assoc || rewrite <- app_comm_cons
          || rewrite app_nil_r || rewrite app_nil_l).

Lemma notify_and_cooldown_returns env f r o calls a t n tr :
  wifi_run env = WifiReturned r o calls ->
  notify_and_cooldown env f (mk_world a t n tr) =
  Returned tt
    (mk_world (startCooldown_at (now_at env (caption_readings env + t))
                                config.timing.COOLDOWN_SECONDS)
              (S (caption_readings env + t)) n
              (((tr ++ notify_events env f r o calls)
                ++ [EvStartCooldown config.timing.COOLDOWN_SECONDS])
               ++ destructor_events env r o)).
Proof.
  intros H.
  unfold notify_and_cooldown, WifiManager_destroy, notify_events,
    destructor_events, wifi_at_scope_end, caption_readings, wifi_up,
    connected_after.
  rewrite H, bind_unfold, (WifiManager_connect_returns _ _ _ _ _ _ _ _ H).
  rewrite bind_unfold.
  destruct (r =? ESP_OK).
  - rewrite WifiManager_isConnected_mk. cbn [andb].
    destruct (fst (WifiObject_isConnected (wifi_platform env) o)).
    + rewrite !bind_unfold, getCurrentTimeSec_mk, bind_unfold.
      destruct (TelegramClient_sendDocument_mk env f a (S t) n
                  ((tr ++ EvWifiConnect :: map EvWifi calls)
                   ++ map EvWifi
                        (snd (WifiObject_isConnected (wifi_platform env) o))))
        as [sr ->].
      rewrite WifiManager_disconnect_mk, bind_unfold, startCooldown_mk.
      rewrite !bind_unfold, WifiManager_disconnect_mk. unfold ret.
      cbn [Nat.add]. app_norm. reflexivity.
    + unfold ret at 1. rewrite bind_unfold. unfold ret at 1.
      rewrite bind_unfold, startCooldown_mk.
      rewrite !bind_unfold, WifiManager_disconnect_mk. unfold ret.
      cbn [Nat.add]. app_norm. reflexivity.
  - cbn [andb]. unfold ret at 1. rewrite bind_unfold. unfold ret at 1.
    rewrite bind_unfold, startCooldown_mk.
    rewrite !bind_unfold, WifiManager_disconnect_mk. unfold ret.
    cbn [Nat.add]. app_norm. reflexivity.
Qed.

Lemma notify_and_cooldown_aborts env f calls a t n tr :
  wifi_run env = WifiAborted calls ->
  notify_and_cooldown env f (mk_world a t n tr)
  = Aborted (mk_world a t n (tr ++ EvWifiConnect :: map EvWifi calls)).
Proof.
  intros H. unfold notify_and_cooldown.
  rewrite bind_unfold, (WifiManager_connect_aborts _ _ _ _ _ _ H).
  reflexivity.
Qed.

Lemma pipeline_exit_eq env a tr tr' a' :
  pipeline_exit env a tr' a' -> tr = tr' -> pipeline_exit env a tr a'.
Proof. intros H ->. exact H. Qed.

Lemma pipeline_aborted_eq env a tr tr' a' :
  pipeline_aborted env a tr' a' -> tr = tr' -> pipeline_aborted env a tr a'.
Proof. intros H ->. exact H. Qed.

Ltac list_norm :=
  unfold acquired_prefix, release_events; app_norm; reflexivity.

Ltac power_down :=
  match goal with
  | |- context [@enterDeepSleep ?env ?A (mk_world ?a ?t ?n ?tr)] =>
      let t' := fresh "t'" in let E := fresh "E" in
      destruct (@enterDeepSleep_mk A env a t n tr) as [t' E];
      rewrite ?bind_unfold, E; unfold pipeline_outcome;
      cbn [trace s_nextPirAllowTime]
  end.

Lemma handlePirTrigger_outcome env a :
  pipeline_outcome env a (handlePirTrigger env (boot_world a)).
Proof.
  unfold handlePirTrigger, boot_world.
  rewrite bind_unfold, isInCooldown_mk.
  destruct (isInCooldown_at a (now_at env 0)) eqn:C0.
  { rewrite bind_unfold, bind_unfold, getCooldownRemaining_mk.
    power_down.
    eapply pipeline_exit_eq; [apply exit_cooldown; assumption | list_norm]. }
  rewrite bind_unfold. unfold ret at 1.
  rewrite bind_unfold, SdCardDriver_mount_mk.
  destruct (esp_vfs_fat_sdmmc_mount_ret env =? ESP_OK) eqn:Cm.
  2:{ rewrite Cm. cbn [negb]. rewrite bind_unfold, bind_unfold, SdCardDriver_shutdown_unmounted.
      power_down.
      eapply pipeline_exit_eq; [apply exit_mount_failed; assumption | list_norm]. }
  rewrite (proj1 (Z.eqb_eq _ _) Cm).
  change (ESP_OK =? ESP_OK) with true. cbn [negb]. rewrite bind_unfold. unfold ret at 1.
  rewrite bind_unfold, CameraDriver_init_mk.
  destruct (esp_camera_init_ret env =? ESP_OK) eqn:Ci.
  2:{ rewrite Ci. cbn [negb].
      rewrite bind_unfold, bind_unfold, CameraDriver_shutdown_uninitialized.
      rewrite bind_unfold, SdCardDriver_shutdown_mounted.
      power_down.
      eapply pipeline_exit_eq; [apply exit_camera_init_failed; assumption | list_norm]. }
  rewrite (proj1 (Z.eqb_eq _ _) Ci).
  destruct (esp_camera_sensor_present env) eqn:Cs.
  2:{ change (ESP_FAIL =? ESP_OK) with false. cbn [negb].
      rewrite bind_unfold, bind_unfold, CameraDriver_shutdown_uninitialized.
      rewrite bind_unfold, SdCardDriver_shutdown_mounted.
      power_down.
      eapply pipeline_exit_eq; [apply exit_sensor_missing; assumption | list_norm]. }
  change (ESP_OK =? ESP_OK) with true. cbn [negb]. rewrite bind_unfold. unfold ret at 1.
  rewrite bind_unfold, CameraDriver_warmup_mk.
  fold (warmup_passes env).
  destruct (warmup_passes env) eqn:Cw.
  2:{ cbn [negb].
      rewrite bind_unfold, bind_unfold, CameraDriver_shutdown_initialized.
      rewrite bind_unfold, SdCardDriver_shutdown_mounted.
      power_down.
      eapply pipeline_exit_eq; [apply exit_warmup_failed; assumption | list_norm]. }
  cbn [negb]. rewrite bind_unfold. unfold ret at 1.
  rewrite bind_unfold, CameraDriver_capture_mk.
  rewrite Nat.add_0_r.
  destruct (esp_camera_fb_get_at env config.timing.CAMERA_WARMUP_FRAMES) as [f|] eqn:Cf.
  2:{ rewrite !bind_unfold, CameraDriver_shutdown_initialized.
      rewrite bind_unfold, SdCardDriver_shutdown_mounted.
      power_down.
      eapply pipeline_exit_eq;
        [apply exit_capture_failed; try assumption; rewrite Cf; reflexivity
        | rewrite Cf; list_norm]. }
  destruct (fb_len f <? config.camera.MIN_FRAME_SIZE) eqn:Cl.
  { rewrite !bind_unfold, CameraDriver_shutdown_initialized.
    rewrite bind_unfold, SdCardDriver_shutdown_mounted.
    power_down.
    eapply pipeline_exit_eq;
      [apply exit_capture_failed; try assumption; rewrite Cf; assumption
      | rewrite Cf; list_norm]. }
  rewrite bind_unfold. unfold ret at 1.
  rewrite bind_unfold, Detector_detect_mk.
  rewrite bind_unfold, emit_mk, bind_unfold.
  destruct (confident (detection_of env f)) eqn:Cc.
  - destruct (wifi_run env) as [r o calls|calls] eqn:Cn.
    + rewrite (notify_and_cooldown_returns _ _ _ _ _ _ _ _ _ Cn).
      rewrite bind_unfold. unfold CameraDriver_returnFrame, esp_camera_fb_return.
      rewrite emit_mk.
      rewrite bind_unfold, CameraDriver_shutdown_initialized.
      rewrite bind_unfold, SdCardDriver_shutdown_mounted.
      power_down. rewrite Nat.add_1_r.
      eapply pipeline_exit_eq; [eapply exit_alert; eassumption | list_norm].
    + rewrite (notify_and_cooldown_aborts _ _ _ _ _ _ _ Cn).
      unfold pipeline_outcome. cbn [trace s_nextPirAllowTime].
      eapply pipeline_aborted_eq; [eapply abort_in_connect; eassumption | list_norm].
  - unfold ret at 1.
    rewrite bind_unfold. unfold CameraDriver_returnFrame, esp_camera_fb_return.
    rewrite emit_mk.
    rewrite bind_unfold, CameraDriver_shutdown_initialized.
    rewrite bind_unfold, SdCardDriver_shutdown_mounted.
    power_down.
    eapply pipeline_exit_eq; [eapply exit_no_alert; eassumption | list_norm].
Qed.

Lemma handlePirTrigger_exit env a :
  (exists w',
      handlePirTrigger env (boot_world a) = PoweredDown w'
      /\ pipeline_exit env a (trace w') (s_nextPirAllowTime w'))
  \/ (exists w',
         handlePirTrigger env (boot_world a) = Aborted w'
         /\ pipeline_aborted env a (trace w') (s_nextPirAllowTime w')).
Proof.
  pose proof (handlePirTrigger_outcome env a) as H.
  destruct (handlePirTrigger env (boot_world a)) as [[] w'|w'|w'].
  - destruct H.
  - left. exists w'. split; [reflexivity | exact H].
  - right. exists w'. split; [reflexivity | exact H].
Qed.

(** ** Counting over traces *)

Lemma count_app p (l1 l2 : list Event) :
  count p (l1 ++ l2) = (count p l1 + count p l2)%nat.
Proof. unfold count. rewrite filter_app, length_app. reflexivity. Qed.

Lemma count_cons p e (l : list Event) :
  count p (e :: l) = ((if p e then 1 else 0) + count p l)%nat.
Proof. unfold count. simpl. destruct (p e); reflexivity. Qed.

Lemma detect_results_app (l1 l2 : list Event) :
  detect_results (l1 ++ l2) = detect_results l1 ++ detect_results l2.
Proof. unfold detect_results. apply flat_map_app. Qed.

Lemma existsb_count p (l : list Event) :
  existsb p l = negb (count p l =? 0)%nat.
Proof.
  induction l as [|e l IH]; [reflexivity|].
  rewrite count_cons. simpl. rewrite IH. destruct (p e); reflexivity.
Qed.

Lemma imaging_released_first_app (l1 l2 : list Event) :
  imaging_released_first (l1 ++ l2) =
  imaging_released_first l1 && imaging_released_first l2
  && ((count is_storage_release l1 =? 0)%nat
      || (count is_imaging_release l2 =? 0)%nat).
Proof.
  induction l1 as [|e l1 IH].
  - simpl. rewrite andb_true_r. reflexivity.
  - cbn [app imaging_released_first]. rewrite IH, count_cons.
    rewrite !existsb_count, count_app.
    destruct (is_storage_release e); cbn [Nat.add Nat.eqb];
      destruct (imaging_released_first l1), (imaging_released_first l2),
        (count is_storage_release l1), (count is_imaging_release l1),
        (count is_imaging_release l2); reflexivity.
Qed.

(** The warmup loop grabs frames and gives every one of them back. *)
Lemma count_warmup_other p env :
  (forall fb, p (EvFbGet fb) = false) ->
  (forall f, p (EvFbReturn f) = false) ->
  (forall ms, p (EvDelayMs ms) = false) ->
  forall n k, count p (warmup_events env k n) = 0%nat.
Proof.
  intros Hg Hr Hd. induction n as [|n IH]; intros k; [reflexivity|].
  cbn [warmup_events]. rewrite count_app, count_cons, Hd, IH.
  destruct (esp_camera_fb_get_at env k);
    rewrite !count_cons, ?Hg, ?Hr; reflexivity.
Qed.

Lemma count_warmup_fb_get env :
  forall n k, count is_fb_get (warmup_events env k n) = n.
Proof.
  induction n as [|n IH]; intros k; [reflexivity|].
  cbn [warmup_events]. rewrite count_app, count_cons, IH.
  destruct (esp_camera_fb_get_at env k); reflexivity.
Qed.

Lemma count_warmup_frames env :
  forall n k,
    count is_frame_release (warmup_events env k n)
    = count is_frame_acquire (warmup_events env k n).
Proof.
  induction n as [|n IH]; intros k; [reflexivity|].
  cbn [warmup_events]. rewrite !count_app, !count_cons, IH.
  destruct (esp_camera_fb_get_at env k); reflexivity.
Qed.

Lemma armed_sources_warmup env :
  forall n k, armed_sources (warmup_events env k n) = [].
Proof.
  induction n as [|n IH]; intros k; [reflexivity|].
  cbn [warmup_events]. rewrite armed_sources_app.
  change (armed_sources (EvDelayMs config.timing.CAMERA_WARMUP_DELAY_MS
                         :: warmup_events env (S k) n))
    with (armed_sources (warmup_events env (S k) n)).
  rewrite IH. destruct (esp_camera_fb_get_at env k); reflexivity.
Qed.

Lemma detect_results_warmup env :
  forall n k, detect_results (warmup_events env k n) = [].
Proof.
  induction n as [|n IH]; intros k; [reflexivity|].
  cbn [warmup_events]. rewrite detect_results_app.
  change (detect_results (EvDelayMs config.timing.CAMERA_WARMUP_DELAY_MS
                          :: warmup_events env (S k) n))
    with (detect_results (warmup_events env (S k) n)).
  rewrite IH. destruct (esp_camera_fb_get_at env k); reflexivity.
Qed.

Lemma warmup_valid_counts_frames env :
  forall n k,
    warmup_valid env k n
    = Z.of_nat (length (filter valid_warmup_frame
                          (map (esp_camera_fb_get_at env) (seq k n)))).
Proof.
  induction n as [|n IH]; intros k; [reflexivity|].
  cbn [warmup_valid seq map filter]. rewrite IH.
  destruct (valid_warmup_frame (esp_camera_fb_get_at env k));
    cbn [length]; lia.
Qed.

Lemma count_warmup_storage_acquire env n k :
  count is_storage_acquire (warmup_events env k n) = 0%nat.
Proof. apply count_warmup_other; reflexivity. Qed.

Lemma count_warmup_storage_release env n k :
  count is_storage_release (warmup_events env k n) = 0%nat.
Proof. apply count_warmup_other; reflexivity. Qed.

Lemma count_warmup_imaging_acquire env n k :
  count is_imaging_acquire (warmup_events env k n) = 0%nat.
Proof. apply count_warmup_other; reflexivity. Qed.

Lemma count_warmup_imaging_release env n k :
  count is_imaging_release (warmup_events env k n) = 0%nat.
Proof. apply count_warmup_other; reflexivity. Qed.

Lemma count_warmup_startCooldown env n k :
  count is_startCooldown (warmup_events env k n) = 0%nat.
Proof. apply count_warmup_other; reflexivity. Qed.

Lemma imaging_released_first_warmup env :
  forall n k, imaging_released_first (warmup_events env k n) = true.
Proof.
  induction n as [|n IH]; intros k; [reflexivity|].
  cbn [warmup_events]. rewrite imaging_released_first_app.
  cbn [imaging_released_first is_storage_release]. rewrite IH.
  destruct (esp_camera_fb_get_at env k); reflexivity.
Qed.

(** The calls of [WifiManager] are no storage, imaging, frame, cooldown or
    wake-source events. *)
Lemma count_wifi_other p calls :
  (forall c, p (EvWifi c) = false) -> count p (map EvWifi calls) = 0%nat.
Proof.
  intros Hp. induction calls as [|c calls IH]; [reflexivity|].
  cbn [map]. rewrite count_cons, Hp, IH. reflexivity.
Qed.

Lemma count_wifi_storage_acquire calls :
  count is_storage_acquire (map EvWifi calls) = 0%nat.
Proof. apply count_wifi_other; reflexivity. Qed.

Lemma count_wifi_storage_release calls :
  count is_storage_release (map EvWifi calls) = 0%nat.
Proof. apply count_wifi_other; reflexivity. Qed.

Lemma count_wifi_imaging_acquire calls :
  count is_imaging_acquire (map EvWifi calls) = 0%nat.
Proof. apply count_wifi_other; reflexivity. Qed.

Lemma count_wifi_imaging_release calls :
  count is_imaging_release (map EvWifi calls) = 0%nat.
Proof. apply count_wifi_other; reflexivity. Qed.

Lemma count_wifi_frame_acquire calls :
  count is_frame_acquire (map EvWifi calls) = 0%nat.
Proof. apply count_wifi_other; reflexivity. Qed.

Lemma count_wifi_frame_release calls :
  count is_frame_release (map EvWifi calls) = 0%nat.
Proof. apply count_wifi_other; reflexivity. Qed.

Lemma count_wifi_startCooldown calls :
  count is_startCooldown (map EvWifi calls) = 0%nat.
Proof. apply count_wifi_other; reflexivity. Qed.

Lemma armed_sources_wifi calls : armed_sources (map EvWifi calls) = [].
Proof. induction calls as [|c calls IH]; [reflexivity | exact IH]. Qed.

Lemma detect_results_wifi calls : detect_results (map EvWifi calls) = [].
Proof. induction calls as [|c calls IH]; [reflexivity | exact IH]. Qed.

Lemma imaging_released_first_wifi calls :
  imaging_released_first (map EvWifi calls) = true.
Proof. induction calls as [|c calls IH]; [reflexivity | exact IH]. Qed.

Create Rewrite HintDb trace_db.
#[local] Hint Rewrite count_app armed_sources_app detect_results_app
  imaging_released_first_app imaging_released_first_warmup
  count_warmup_storage_acquire count_warmup_storage_release
  count_warmup_imaging_acquire count_warmup_imaging_release
  count_warmup_startCooldown count_warmup_frames
  armed_sources_warmup detect_results_warmup
  count_wifi_storage_acquire count_wifi_storage_release
  count_wifi_imaging_acquire count_wifi_imaging_release
  count_wifi_frame_acquire count_wifi_frame_release
  count_wifi_startCooldown armed_sources_wifi detect_results_wifi
  imaging_released_first_wifi : trace_db.

(** Replace stage outcomes by what is known about them. *)
Ltac use_outcomes :=
  repeat match goal with
         | H : (?x =? ?y) = _ |- context [?x =? ?y] => rewrite H
         | H : esp_camera_sensor_present ?e = _
           |- context [esp_camera_sensor_present ?e] => rewrite H
         | H : esp_camera_fb_get_at ?e ?k = _
           |- context [esp_camera_fb_get_at ?e ?k] => rewrite H
         end.

Ltac split_cases :=
  repeat match goal with
         | |- context [if ?c then _ else _] => destruct c
         | |- context [match ?c with Some _ => _ | None => _ end] => destruct c
         end.

(** Evaluate a count, a list of armed sources or of detection results over
    the trace of one exit. *)
Ltac trace_facts :=
  unfold acquired_prefix, release_events, cam_shutdown_events,
    sd_shutdown_events, detect_events, notify_events, destructor_events,
    sleep_events;
  use_outcomes;
  split_cases;
  autorewrite with trace_db;
  repeat match goal with
         | |- context [count ?p (warmup_events ?e ?k ?n)] =>
             generalize (count p (warmup_events e k n)); intro
         end;
  split_cases; cbn; use_outcomes; split_cases;
  cbn; try reflexivity; try lia.

(** ** What holds at every exit of the pipeline *)

Lemma exit_balanced env a tr a' :
  pipeline_exit env a tr a' ->
  count is_storage_release tr = count is_storage_acquire tr
  /\ count is_imaging_release tr = count is_imaging_acquire tr
  /\ count is_frame_release tr = count is_frame_acquire tr.
Proof. intros H. destruct H; repeat split; trace_facts. Qed.

Lemma exit_released_once env a tr a' :
  pipeline_exit env a tr a' ->
  (count is_storage_release tr <= 1)%nat
  /\ (count is_imaging_release tr <= 1)%nat.
Proof. intros H. destruct H; split; trace_facts. Qed.

Lemma exit_release_order env a tr a' :
  pipeline_exit env a tr a' -> imaging_released_first tr = true.
Proof. intros H. destruct H; trace_facts. Qed.

Lemma exit_one_wake_source env a tr a' :
  pipeline_exit env a tr a' -> length (armed_sources tr) = 1%nat.
Proof. intros H. destruct H; trace_facts. Qed.

Lemma exit_ends_in_deep_sleep env a tr a' :
  pipeline_exit env a tr a' ->
  exists pre k, tr = pre ++ sleep_events env a' k /\ armed_sources pre = [].
Proof.
  intros H.
  destruct H;
    try (exists [], 2%nat; split; reflexivity);
    try (eexists [_], _; split; reflexivity);
    rewrite ?app_assoc; eexists; eexists; (split; [reflexivity|]);
    trace_facts.
Qed.

Lemma isInCooldown_at_zero env k :
  0 <= esp_timer_get_time_at env k -> isInCooldown_at 0 (now_at env k) = false.
Proof.
  intros H. unfold isInCooldown_at, now_at.
  pose proof (seconds_of_us_nonneg _ H).
  rewrite Z.gtb_ltb. apply Z.ltb_ge. lia.
Qed.

(** A cooldown is started at an exit exactly when the detection result
    returned in the run is a confident one. *)
Lemma exit_detection env a tr a' :
  pipeline_exit env a tr a' ->
  (detect_results tr = [] /\ count is_startCooldown tr = 0%nat /\ a' = a)
  \/ (exists r, detect_results tr = [r] /\ confident r = false
                /\ count is_startCooldown tr = 0%nat /\ a' = a)
  \/ (exists r pre post,
        detect_results tr = [r] /\ confident r = true
        /\ tr = pre ++ EvStartCooldown config.timing.COOLDOWN_SECONDS
                   :: post ++ [EvDeepSleepStart]
        /\ count is_startCooldown pre = 0%nat
        /\ count is_startCooldown post = 0%nat
        /\ count is_startCooldown tr = 1%nat
        /\ a' = startCooldown_at (now_at env (cooldown_reading env))
                                 config.timing.COOLDOWN_SECONDS).
Proof.
  intros H. destruct H.
  1-6: left; repeat split; trace_facts.
  - right; left. exists (detection_of env f).
    repeat split; try assumption; trace_facts.
  - right; right.
    exists (detection_of env f),
      (acquired_prefix env ++ [EvFbGet (Some f)] ++ detect_events env f
       ++ [EvDetectReturned (detection_of env f)]
       ++ notify_events env f r o calls),
      (destructor_events env r o ++ [EvFbReturn f] ++ release_events env
       ++ [EvArm (if isInCooldown_at
                       (startCooldown_at (now_at env (cooldown_reading env))
                                         config.timing.COOLDOWN_SECONDS)
                       (now_at env (S (cooldown_reading env)))
                  then TimerWake (timer_wakeup_us
                         (getCooldownRemaining_at
                            (startCooldown_at (now_at env (cooldown_reading env))
                                              config.timing.COOLDOWN_SECONDS)
                            (now_at env (S (S (cooldown_reading env))))))
                  else LevelWake pir_ext1_mask);
           EvDelayMs 100]).
    split; [trace_facts|]. split; [assumption|].
    split.
    { unfold sleep_events. app_norm. reflexivity. }
    repeat split; trace_facts.
Qed.

Lemma exit_of_failing_path env a tr a' :
  pipeline_exit env a tr a' ->
  ((esp_vfs_fat_sdmmc_mount_ret env =? ESP_OK) = false
   \/ (esp_camera_init_ret env =? ESP_OK) = false
   \/ esp_camera_sensor_present env = false
   \/ warmup_passes env = false
   \/ match esp_camera_fb_get_at env config.timing.CAMERA_WARMUP_FRAMES with
      | Some f => fb_len f <? config.camera.MIN_FRAME_SIZE
      | None => true
      end = true
   \/ (forall r, In r (detect_results tr) -> confident r = false)) ->
  count is_startCooldown tr = 0%nat
  /\ a' = a
  /\ (a = 0 -> (forall k, 0 <= esp_timer_get_time_at env k) ->
      armed_sources tr = [LevelWake pir_ext1_mask]).
Proof.
  intros H Hfail.
  assert (Hlevel : forall k, a = 0 ->
            (forall k, 0 <= esp_timer_get_time_at env k) ->
            armed_sources (sleep_events env a k) = [LevelWake pir_ext1_mask]).
  { intros k -> Hclock. unfold sleep_events.
    rewrite (isInCooldown_at_zero env k (Hclock k)). reflexivity. }
  destruct H.
  8:{ exfalso.
      destruct Hfail as [F|[F|[F|[F|[F|F]]]]]; try congruence.
      - rewrite H4, H5 in F. discriminate.
      - assert (Hin : In (detection_of env f)
                         (detect_results
                            (acquired_prefix env ++ [EvFbGet (Some f)]
                             ++ detect_events env f
                             ++ [EvDetectReturned (detection_of env f)]
                             ++ notify_events env f r o calls
                             ++ [EvStartCooldown config.timing.COOLDOWN_SECONDS]
                             ++ destructor_events env r o
                             ++ [EvFbReturn f] ++ release_events env
                             ++ sleep_events env
                                  (startCooldown_at
                                     (now_at env (cooldown_reading env))
                                     config.timing.COOLDOWN_SECONDS)
                                  (S (cooldown_reading env))))).
        { replace (detect_results _) with [detection_of env f]
            by (symmetry; trace_facts).
          left; reflexivity. }
        specialize (F _ Hin). congruence. }
  all: split; [trace_facts|split; [reflexivity|]].
  all: intros Ha Hclock.
  all: repeat rewrite armed_sources_app.
  all: try (unfold acquired_prefix, release_events; autorewrite with trace_db).
  all: try rewrite (Hlevel _ Ha Hclock).
  all: try (change (armed_sources (EvSdmmcMount ?r :: ?l)) with (armed_sources l);
            rewrite (Hlevel _ Ha Hclock)).
  all: trace_facts.
Qed.

(** ** The run that ends in [abort()] *)

Lemma count_warmup_deep_sleep_start env n k :
  count is_deep_sleep_start (warmup_events env k n) = 0%nat.
Proof. apply count_warmup_other; reflexivity. Qed.

Lemma count_wifi_deep_sleep_start calls :
  count is_deep_sleep_start (map EvWifi calls) = 0%nat.
Proof. apply count_wifi_other; reflexivity. Qed.

#[local] Hint Rewrite count_warmup_deep_sleep_start
  count_wifi_deep_sleep_start : trace_db.

Lemma aborted_only_in_connect env a tr a' :
  pipeline_aborted env a tr a' -> connect_aborts env = true.
Proof. intros H. destruct H. unfold connect_aborts. rewrite H7. reflexivity. Qed.

(** Nothing is armed, started or released on the way to the abort; the SD
    card, the camera and the captured frame are still held. *)
Lemma aborted_nothing_armed env a tr a' :
  pipeline_aborted env a tr a' ->
  a' = a
  /\ armed_sources tr = []
  /\ count is_deep_sleep_start tr = 0%nat
  /\ count is_startCooldown tr = 0%nat.
Proof. intros H. destruct H. split; [reflexivity|]. repeat split; trace_facts. Qed.

Lemma aborted_resources_held env a tr a' :
  pipeline_aborted env a tr a' ->
  count is_storage_acquire tr = 1%nat
  /\ count is_storage_release tr = 0%nat
  /\ count is_imaging_acquire tr = 1%nat
  /\ count is_imaging_release tr = 0%nat
  /\ count is_frame_acquire tr = S (count is_frame_release tr)
  /\ imaging_released_first tr = true.
Proof. intros H. destruct H. repeat split; trace_facts. Qed.

Lemma aborted_detection env a tr a' :
  pipeline_aborted env a tr a' ->
  exists r, detect_results tr = [r] /\ confident r = true.
Proof.
  intros H. destruct H. exists (detection_of env f).
  split; [trace_facts | assumption].
Qed.

(** Every run of the pipeline is one of the nine. *)
Lemma pipeline_run_exit env a :
  exists w',
    (pipeline_run env a = PoweredDown w'
     /\ pipeline_exit env a (trace w') (s_nextPirAllowTime w'))
    \/ (pipeline_run env a = Aborted w'
        /\ pipeline_aborted env a (trace w') (s_nextPirAllowTime w')).
Proof.
  destruct (handlePirTrigger_exit env a) as [(w' & H)|(w' & H)];
    exists w'; [left | right]; exact H.
Qed.

(** A fact that holds at all nine ends holds of the run; and the run powers
    down unless [connect] aborts. *)
Lemma pipeline_run_ends (P : list Event -> Z -> Prop) env a :
  (forall tr a', pipeline_exit env a tr a' -> P tr a') ->
  (forall tr a', pipeline_aborted env a tr a' -> P tr a') ->
  exists w',
    ends_in (pipeline_run env a) w'
    /\ (connect_aborts env = false -> pipeline_run env a = PoweredDown w')
    /\ P (trace w') (s_nextPirAllowTime w').
Proof.
  intros Hexit Habort.
  destruct (pipeline_run_exit env a) as (w' & [(Hrun & H)|(Hrun & H)]);
    exists w'.
  - split; [left; exact Hrun|]. split; [intros _; exact Hrun|].
    apply Hexit, H.
  - split; [right; exact Hrun|]. split; [|apply Habort, H].
    intros Hc. rewrite (aborted_only_in_connect _ _ _ _ H) in Hc. discriminate.
Qed.

(** A run in which [connect] cannot abort, or is not reached, powers down. *)
Lemma pipeline_run_powers_down env a :
  (forall tr a', pipeline_aborted env a tr a' -> False) ->
  exists w',
    pipeline_run env a = PoweredDown w'
    /\ pipeline_exit env a (trace w') (s_nextPirAllowTime w').
Proof.
  intros Hno.
  destruct (pipeline_run_exit env a) as (w' & [H|(_ & H)]).
  - exists w'. exact H.
  - destruct (Hno _ _ H).
Qed.

Lemma app_main_dispatch env w :
  app_main env w
  = match classify (esp_sleep_get_wakeup_cause env) with
    | POWER_ON => handlePowerOnBoot env w
    | TIMER => handleTimerWakeup env w
    | PIR_TRIGGER => handlePirTrigger env w
    | UNKNOWN => enterDeepSleep env w
    end.
Proof.
  unfold app_main, getWakeReason. rewrite bind_unfold. unfold ret.
  destruct (classify (esp_sleep_get_wakeup_cause env)); reflexivity.
Qed.

(** C2: every invocation of [enterDeepSleep] arms exactly one wake source and
    then powers down: the timer, for the remaining cooldown in microseconds,
    when [isInCooldown] answers true, and the level wake on the PIR pin
    otherwise.  The two queries read the clock one after the other; when both
    readings fall in the same second [now] the selection is
    [wake_selection allowed_after now].  The timer is armed in microseconds:
    the remaining seconds times 1000000, exact as long as the product fits
    [uint64_t].  Every run of [app_main] that powers down ends in such an
    invocation and arms nothing before it; the only run that does not power
    down ends in the [abort()] inside [WifiManager::connect], with nothing
    armed and no deep sleep started. *)
Theorem C2_exactly_one_wake_source (env : Env) (a : Z) (w : World) :
  (exists src w',
      @enterDeepSleep env unit w = PoweredDown w'
      /\ trace w' = trace w ++ [EvArm src; EvDelayMs 100; EvDeepSleepStart]
      /\ s_nextPirAllowTime w' = s_nextPirAllowTime w
      /\ src = (if isInCooldown_at (s_nextPirAllowTime w)
                                   (now_at env (timer_calls w))
                then TimerWake (timer_wakeup_us
                       (getCooldownRemaining_at (s_nextPirAllowTime w)
                          (now_at env (S (timer_calls w)))))
                else LevelWake pir_ext1_mask)
      /\ (now_at env (S (timer_calls w)) = now_at env (timer_calls w) ->
          src = wake_selection (s_nextPirAllowTime w)
                               (now_at env (timer_calls w))))
  /\ (forall now,
        getCooldownRemaining_at a now * 1000000 < UINT64_MOD ->
        timer_wakeup_us (getCooldownRemaining_at a now)
        = getCooldownRemaining_at a now * 1000000)
  /\ (exists w',
        (app_main env (boot_world a) = PoweredDown w'
         /\ exists pre src,
              trace w' = pre ++ [EvArm src; EvDelayMs 100; EvDeepSleepStart]
              /\ armed_sources pre = []
              /\ armed_sources (trace w') = [src])
        \/ (app_main env (boot_world a) = Aborted w'
            /\ connect_aborts env = true
            /\ armed_sources (trace w') = []
            /\ count is_deep_sleep_start (trace w') = 0%nat)).
Proof.
  split; [|split].
  2:{ intros now H. apply timer_wakeup_us_exact; [|exact H].
      apply getCooldownRemaining_at_nonneg. }
  - rewrite enterDeepSleep_run. unfold wake_selection.
    destruct (isInCooldown_at (s_nextPirAllowTime w) (now_at env (timer_calls w)));
      do 2 eexists; (split; [reflexivity|]);
      cbn [trace s_nextPirAllowTime]; rewrite <- !app_assoc;
      (split; [reflexivity|]); (split; [reflexivity|]);
      (split; [reflexivity|]); intros E; rewrite ?E; reflexivity.
  - rewrite app_main_dispatch.
    destruct (classify (esp_sleep_get_wakeup_cause env)).
    + unfold handlePowerOnBoot, boot_world, vTaskDelay_ms.
      rewrite bind_unfold, emit_mk.
      destruct (@enterDeepSleep_mk unit env a 0 0 ([] ++ [EvDelayMs config.pir.WARMUP_MS]))
        as [t' E].
      rewrite E. eexists. left. split; [reflexivity|].
      exists [EvDelayMs config.pir.WARMUP_MS]. eexists.
      cbn [trace]. repeat split; reflexivity.
    + change (handlePirTrigger env (boot_world a)) with (pipeline_run env a).
      destruct (pipeline_run_exit env a) as (w' & [(Hrun & Hexit)|(Hrun & Hab)]);
        exists w'.
      * left. split; [exact Hrun|].
        destruct (exit_ends_in_deep_sleep _ _ _ _ Hexit) as (pre & k & Htr & Hpre).
        exists pre. eexists. rewrite Htr. unfold sleep_events.
        split; [reflexivity|]. split; [exact Hpre|].
        rewrite armed_sources_app, Hpre. reflexivity.
      * right. split; [exact Hrun|].
        split; [exact (aborted_only_in_connect _ _ _ _ Hab)|].
        destruct (aborted_nothing_armed _ _ _ _ Hab) as (_ & Harm & Hsleep & _).
        split; assumption.
    + unfold handleTimerWakeup, boot_world.
      destruct (@enterDeepSleep_mk unit env a 0 0 []) as [t' E]. rewrite E.
      eexists. left. split; [reflexivity|]. exists []. eexists.
      cbn [trace]. repeat split; reflexivity.
    + unfold boot_world.
      destruct (@enterDeepSleep_mk unit env a 0 0 []) as [t' E]. rewrite E.
      eexists. left. split; [reflexivity|]. exists []. eexists.
      cbn [trace]. repeat split; reflexivity.
Qed.

Lemma C2_exactly_one_wake_source_witness :
  let env := quiet_env ESP_SLEEP_WAKEUP_TIMER 12000000 in
  let w := boot_world 3612 in
  now_at env (S (timer_calls w)) = now_at env (timer_calls w)
  /\ exists w',
       @enterDeepSleep env unit w = PoweredDown w'
       /\ trace w' = [EvArm (wake_selection 3612 12); EvDelayMs 100;
                      EvDeepSleepStart].
Proof.
  intros env w. split; [reflexivity|].
  destruct (C2_exactly_one_wake_source env 3612 w)
    as [(src & w' & Hrun & Htr & _ & _ & Hsame) _].
  exists w'. split; [exact Hrun|].
  rewrite Htr, (Hsame eq_refl). reflexivity.
Defined.

(** ** The PIR-trigger pipeline *)

(** C3, amended: in a run whose detection result is [detected] with a
    confidence at or above [MIN_CONFIDENCE], and in which
    [WifiManager::connect] returns, [startCooldown(COOLDOWN_SECONDS)] is
    entered exactly once, before [esp_deep_sleep_start], and the persisted
    timestamp at power-down is the clock reading of that call plus the
    cooldown -- whatever code [connect] returned and whatever [isConnected]
    and [TelegramClient::sendDocument] answered. *)
Theorem C3_confident_detection_starts_cooldown
  (env : Env) (a : Z) (r : DetectionResult)
  (Hdet : In r (detect_results (trace (world_of (pipeline_run env a)))))
  (Hdetected : detected r = true)
  (Hconfidence : SFleb config.detection.MIN_CONFIDENCE (confidence r) = true)
  (Hreturns : connect_aborts env = false) :
  exists w' pre post,
    pipeline_run env a = PoweredDown w'
    /\ count is_startCooldown (trace w') = 1%nat
    /\ trace w' = pre ++ EvStartCooldown config.timing.COOLDOWN_SECONDS
                     :: post ++ [EvDeepSleepStart]
    /\ count is_startCooldown pre = 0%nat
    /\ count is_startCooldown post = 0%nat
    /\ s_nextPirAllowTime w'
       = startCooldown_at
           (now_at env (if wifi_up env then 2%nat else 1%nat))
           config.timing.COOLDOWN_SECONDS.
Proof.
  destruct (pipeline_run_powers_down env a) as (w' & Hrun & Hexit).
  { intros tr a' Hab. rewrite (aborted_only_in_connect _ _ _ _ Hab) in Hreturns.
    discriminate. }
  rewrite Hrun in Hdet. cbn [world_of] in Hdet.
  assert (Hc : confident r = true).
  { unfold confident. rewrite Hdetected, Hconfidence. reflexivity. }
  destruct (exit_detection _ _ _ _ Hexit)
    as [(Hnone & _) | [(r' & Hone & Hr' & _) | (r' & pre & post & Hone & _ & Htr & Hpre & Hpost & Hcount & Ha')]].
  - rewrite Hnone in Hdet. destruct Hdet.
  - rewrite Hone in Hdet. destruct Hdet as [<- | []]. congruence.
  - exists w', pre, post. repeat split; try assumption.
    rewrite Ha'. unfold cooldown_reading, caption_readings.
    destruct (wifi_up env); reflexivity.
Qed.

Lemma C3_confident_detection_starts_cooldown_witness :
  exists w' pre post,
    pipeline_run undelivered_alert_env 0 = PoweredDown w'
    /\ count is_startCooldown (trace w') = 1%nat
    /\ trace w' = pre ++ EvStartCooldown config.timing.COOLDOWN_SECONDS
                     :: post ++ [EvDeepSleepStart]
    /\ count is_startCooldown pre = 0%nat
    /\ count is_startCooldown post = 0%nat
    /\ s_nextPirAllowTime w'
       = startCooldown_at
           (now_at undelivered_alert_env
                   (if wifi_up undelivered_alert_env then 2%nat else 1%nat))
           config.timing.COOLDOWN_SECONDS.
Proof.
  apply (C3_confident_detection_starts_cooldown undelivered_alert_env 0
           (mk_result true score_0_82 400 200 300 700)).
  - vm_compute. left. reflexivity.
  - reflexivity.
  - reflexivity.
  - reflexivity.
Defined.

(** C3 as stated fails where [connect] does not return: the NVS partition
    reports no free page and cannot be erased, [ESP_ERROR_CHECK] aborts, and
    the run ends with the confident detection in hand, [startCooldown] never
    entered and no deep sleep started. *)
Lemma C3_counterexample_connect_aborts :
  exists r w',
    In r (detect_results (trace (world_of (pipeline_run nvs_unerasable_env 0))))
    /\ detected r = true
    /\ SFleb config.detection.MIN_CONFIDENCE (confidence r) = true
    /\ pipeline_run nvs_unerasable_env 0 = Aborted w'
    /\ count is_startCooldown (trace w') = 0%nat
    /\ count is_deep_sleep_start (trace w') = 0%nat
    /\ s_nextPirAllowTime w' = 0.
Proof.
  exists (mk_result true score_0_82 400 200 300 700).
  eexists.
  split; [vm_compute; left; reflexivity|].
  split; [reflexivity|]. split; [reflexivity|].
  split; [vm_compute; reflexivity|].
  split; [reflexivity|]. split; reflexivity.
Qed.

(** C4: on a failing path -- SD mount failure, camera init failure (error
    code or missing sensor), warmup failure, capture failure, or no confident
    detection -- [startCooldown] is never entered and the persisted timestamp
    at power-down is the one the run started with; started with [0], and the
    timer never reading negative, the run arms the level wake on the PIR
    pin and nothing else. *)
Theorem C4_failure_starts_no_cooldown
  (env : Env) (a : Z) (Hfail : pipeline_fails env a) :
  exists w',
    pipeline_run env a = PoweredDown w'
    /\ count is_startCooldown (trace w') = 0%nat
    /\ s_nextPirAllowTime w' = a
    /\ (a = 0 -> (forall k, 0 <= esp_timer_get_time_at env k) ->
        armed_sources (trace w') = [LevelWake pir_ext1_mask]).
Proof.
  destruct (pipeline_run_exit env a) as (w' & [(Hrun & Hexit)|(Hrun & Hab)]).
  - exists w'. split; [exact Hrun|].
    apply (exit_of_failing_path _ _ _ _ Hexit).
    unfold pipeline_fails in Hfail. rewrite Hrun in Hfail. exact Hfail.
  - exfalso. unfold pipeline_fails in Hfail. rewrite Hrun in Hfail.
    cbn [world_of] in Hfail.
    destruct (aborted_detection _ _ _ _ Hab) as (r & Hr & Hc).
    destruct Hab as [f calls H0 H1 H2 H3 H4 H5 H6 H7 H8].
    destruct Hfail as [F|[F|[F|[F|[F|F]]]]]; try congruence.
    + rewrite H5, H6 in F. discriminate.
    + rewrite Hr in F. specialize (F r (or_introl eq_refl)). congruence.
Qed.

Lemma C4_failure_starts_no_cooldown_witness :
  pipeline_fails dark_camera_env 0
  /\ exists w',
       pipeline_run dark_camera_env 0 = PoweredDown w'
       /\ count is_startCooldown (trace w') = 0%nat
       /\ s_nextPirAllowTime w' = 0
       /\ armed_sources (trace w') = [LevelWake pir_ext1_mask].
Proof.
  assert (Hfail : pipeline_fails dark_camera_env 0).
  { right; right; right; left. reflexivity. }
  split; [exact Hfail|].
  destruct (C4_failure_starts_no_cooldown dark_camera_env 0 Hfail)
    as (w' & Hrun & Hcount & Hkeep & Harm).
  exists w'. repeat split; try assumption.
  apply Harm; [reflexivity|]. intros k. vm_compute. discriminate.
Defined.

(** C5: when [isInCooldown] answers true at the start of the pipeline, the
    run consists of the wake arbiter's three calls and nothing else: no
    mount, no camera init, no frame grab, the persisted timestamp untouched.
    When the clock readings of the run fall in the same second [now], the
    source armed is the timer, for [getCooldownRemaining(now)]. *)
Theorem C5_cooldown_recheck_touches_nothing
  (env : Env) (a : Z)
  (Hcooling : isInCooldown_at a (now_at env 0) = true) :
  exists src w',
    pipeline_run env a = PoweredDown w'
    /\ trace w' = [EvArm src; EvDelayMs 100; EvDeepSleepStart]
    /\ count is_acquisition_attempt (trace w') = 0%nat
    /\ s_nextPirAllowTime w' = a
    /\ (now_at env 2 = now_at env 0 -> now_at env 3 = now_at env 0 ->
        src = TimerWake (timer_wakeup_us
                (getCooldownRemaining_at a (now_at env 0)))).
Proof.
  destruct (pipeline_run_powers_down env a) as (w' & Hrun & Hexit).
  { intros tr a' Hab. destruct Hab. congruence. }
  remember (trace w') as tr eqn:Htr.
  remember (s_nextPirAllowTime w') as a' eqn:Ha'.
  destruct Hexit; try congruence.
  eexists. exists w'. split; [exact Hrun|].
  rewrite <- Htr. unfold sleep_events.
  split; [reflexivity|]. split; [reflexivity|]. split; [symmetry; exact Ha'|].
  intros E2 E3. rewrite E2, E3, Hcooling. reflexivity.
Qed.

Lemma C5_cooldown_recheck_touches_nothing_witness :
  let env := quiet_env ESP_SLEEP_WAKEUP_EXT1 12000000 in
  isInCooldown_at 3612 (now_at env 0) = true
  /\ exists w',
       pipeline_run env 3612 = PoweredDown w'
       /\ trace w' = [EvArm (TimerWake 3600000000); EvDelayMs 100;
                      EvDeepSleepStart]
       /\ s_nextPirAllowTime w' = 3612.
Proof.
  intros env.
  assert (Hcooling : isInCooldown_at 3612 (now_at env 0) = true) by reflexivity.
  split; [exact Hcooling|].
  destruct (C5_cooldown_recheck_touches_nothing env 3612 Hcooling)
    as (src & w' & Hrun & Htr & _ & Hkeep & Hsrc).
  exists w'. split; [exact Hrun|]. split; [|exact Hkeep].
  rewrite Htr, (Hsrc eq_refl eq_refl). reflexivity.
Defined.

Lemma warmup_valid_among env n k :
  warmup_valid env k n = valid_frames_among env k n.
Proof. apply warmup_valid_counts_frames. Qed.

Lemma valid_frames_meet_minimum env n :
  forall k, valid_frames_among env k n <= frames_meeting_minimum env k n.
Proof.
  unfold valid_frames_among, frames_meeting_minimum.
  induction n as [|n IH]; intros k; [reflexivity|].
  cbn [seq map filter]. specialize (IH (S k)).
  destruct (esp_camera_fb_get_at env k) as [f|]; cbn [valid_warmup_frame meets_minimum_size].
  - destruct (fb_len f >? config.camera.MIN_FRAME_SIZE) eqn:E1;
      destruct (fb_len f <? config.camera.MIN_FRAME_SIZE) eqn:E2;
      cbn [negb length]; lia.
  - exact IH.
Qed.

(** C8 (the code, and the code at the failing input): on an initialised
    camera [warmup] makes [CAMERA_WARMUP_FRAMES] frame grabs, no more and no
    fewer, gives every grabbed frame back, and returns true exactly when at
    least [CAMERA_MIN_VALID_FRAMES] of the grabbed frames are longer than
    [MIN_FRAME_SIZE]; a success implies that as many frames meet the minimum
    size.  In a run of the pipeline that reaches the stage with fewer such
    frames, the camera is shut down, then the SD card, and the device powers
    down with no cooldown started.  The converse of the success condition
    fails: when every one of the 25 frames has exactly [MIN_FRAME_SIZE] bytes,
    all 25 meet the minimum size, [capture] accepts such a frame, and
    [warmup] returns false, so that the pipeline gives up without a capture. *)
Theorem C8_warmup_counts_only_longer_frames :
  (forall env w, exists ok es,
      CameraDriver_warmup env (mk_cam true) w
      = Returned ok (mk_world (s_nextPirAllowTime w) (timer_calls w)
                              (config.timing.CAMERA_WARMUP_FRAMES + fb_calls w)
                              (trace w ++ es))
      /\ count is_fb_get es = config.timing.CAMERA_WARMUP_FRAMES
      /\ count is_frame_release es = count is_frame_acquire es
      /\ (ok = true <->
          config.timing.CAMERA_MIN_VALID_FRAMES
          <= valid_frames_among env (fb_calls w)
                                config.timing.CAMERA_WARMUP_FRAMES)
      /\ (ok = true ->
          config.timing.CAMERA_MIN_VALID_FRAMES
          <= frames_meeting_minimum env (fb_calls w)
                                    config.timing.CAMERA_WARMUP_FRAMES))
  /\ (forall env a,
        isInCooldown_at a (now_at env 0) = false ->
        esp_vfs_fat_sdmmc_mount_ret env = ESP_OK ->
        esp_camera_init_ret env = ESP_OK ->
        esp_camera_sensor_present env = true ->
        valid_frames_among env 0 config.timing.CAMERA_WARMUP_FRAMES
        < config.timing.CAMERA_MIN_VALID_FRAMES ->
        exists w',
          pipeline_run env a = PoweredDown w'
          /\ trace w'
             = [EvSdmmcMount ESP_OK; EvCameraInit ESP_OK; EvSensorSettings]
               ++ warmup_events env 0 config.timing.CAMERA_WARMUP_FRAMES
               ++ cam_shutdown_events env ++ sd_shutdown_events
               ++ [EvArm (if isInCooldown_at a (now_at env 1)
                          then TimerWake (timer_wakeup_us
                                 (getCooldownRemaining_at a (now_at env 2)))
                          else LevelWake pir_ext1_mask);
                   EvDelayMs 100; EvDeepSleepStart]
          /\ count is_imaging_release (trace w') = 1%nat
          /\ count is_storage_release (trace w') = 1%nat
          /\ imaging_released_first (trace w') = true
          /\ count is_startCooldown (trace w') = 0%nat
          /\ s_nextPirAllowTime w' = a)
  /\ frames_meeting_minimum boundary_frame_env 0
                            config.timing.CAMERA_WARMUP_FRAMES
     = Z.of_nat config.timing.CAMERA_WARMUP_FRAMES
  /\ config.timing.CAMERA_MIN_VALID_FRAMES
     <= Z.of_nat config.timing.CAMERA_WARMUP_FRAMES
  /\ (exists w',
        CameraDriver_capture boundary_frame_env (mk_cam true) (boot_world 0)
        = Returned (Some boundary_frame) w')
  /\ (exists w',
        CameraDriver_warmup boundary_frame_env (mk_cam true) (boot_world 0)
        = Returned false w')
  /\ (exists w',
        pipeline_run boundary_frame_env 0 = PoweredDown w'
        /\ count is_fb_get (trace w') = config.timing.CAMERA_WARMUP_FRAMES
        /\ detect_results (trace w') = []
        /\ count is_imaging_release (trace w') = 1%nat
        /\ count is_storage_release (trace w') = 1%nat
        /\ count is_startCooldown (trace w') = 0%nat).
Proof.
  split; [|split; [|split; [|split; [|split; [|split]]]]].
  - intros env w. do 2 eexists. split; [apply CameraDriver_warmup_run|].
    split; [apply count_warmup_fb_get|].
    split; [apply count_warmup_frames|].
    rewrite warmup_valid_among, Z.geb_le.
    split; [reflexivity|]. intros H.
    pose proof (valid_frames_meet_minimum env config.timing.CAMERA_WARMUP_FRAMES
                  (fb_calls w)).
    lia.
  - intros env a Hentry Hmount Hinit Hsensor Hbudget.
    destruct (pipeline_run_exit env a) as (w' & [(Hrun & Hexit)|(Hrun & Hab)]).
    2:{ exfalso. destruct Hab as [f calls H0 H1 H2 H3 H4 H5 H6 H7 H8].
        unfold warmup_passes in H4. rewrite warmup_valid_among, Z.geb_le in H4.
        lia. }
    assert (Hw : warmup_passes env = false).
    { unfold warmup_passes. rewrite warmup_valid_among.
      destruct (_ >=? _) eqn:E; [|reflexivity].
      rewrite Z.geb_le in E. lia. }
    clear Hbudget.
    apply Z.eqb_eq in Hmount, Hinit.
    pose proof (exit_release_order _ _ _ _ Hexit) as Horder.
    remember (trace w') as tr eqn:Htr.
    remember (s_nextPirAllowTime w') as a' eqn:Ha'.
    destruct Hexit as [H0|H0 H1|H0 H1 H2|H0 H1 H2 H3|H0 H1 H2 H3 H4
                      |H0 H1 H2 H3 H4 H5|f H0 H1 H2 H3 H4 H5 H6 H7
                      |f r o calls H0 H1 H2 H3 H4 H5 H6 H7 H8].
    1: rewrite Hentry in H0; discriminate.
    1: rewrite Hmount in H1; discriminate.
    1: rewrite Hinit in H2; discriminate.
    1: rewrite Hsensor in H3; discriminate.
    2-4: rewrite Hw in H4; discriminate.
    exists w'. split; [exact Hrun|]. rewrite <- Htr.
    split.
    { unfold acquired_prefix, release_events, sleep_events.
      rewrite <- !app_assoc. reflexivity. }
    split; [trace_facts|]. split; [trace_facts|].
    split; [exact Horder|]. split; [trace_facts|]. symmetry; exact Ha'.
  - vm_compute. reflexivity.
  - vm_compute. discriminate.
  - eexists. vm_compute. reflexivity.
  - eexists. vm_compute. reflexivity.
  - eexists. split; [vm_compute; reflexivity|].
    repeat split; vm_compute; reflexivity.
Qed.

(** C9, amended: in every run of the pipeline that ends in power-down,
    whatever the platform answers, the SD card is unmounted as often as it was
    mounted, the camera deinitialised as often as it was initialised, and
    frame buffers returned as often as they were obtained; each session is
    released at most once, and no camera release comes after the SD card
    release.  The one run that does not end in power-down ends in the
    [abort()] inside [WifiManager::connect]: there the SD card, the camera
    and the captured frame have been acquired and none of them is released. *)
Theorem C9_resources_released_in_reverse_order (env : Env) (a : Z) :
  exists w',
    (pipeline_run env a = PoweredDown w'
     /\ count is_storage_release (trace w') = count is_storage_acquire (trace w')
     /\ count is_imaging_release (trace w') = count is_imaging_acquire (trace w')
     /\ count is_frame_release (trace w') = count is_frame_acquire (trace w')
     /\ (count is_storage_release (trace w') <= 1)%nat
     /\ (count is_imaging_release (trace w') <= 1)%nat
     /\ imaging_released_first (trace w') = true)
    \/ (pipeline_run env a = Aborted w'
        /\ connect_aborts env = true
        /\ count is_storage_acquire (trace w') = 1%nat
        /\ count is_storage_release (trace w') = 0%nat
        /\ count is_imaging_acquire (trace w') = 1%nat
        /\ count is_imaging_release (trace w') = 0%nat
        /\ count is_frame_acquire (trace w')
           = S (count is_frame_release (trace w'))).
Proof.
  destruct (pipeline_run_exit env a) as (w' & [(Hrun & Hexit)|(Hrun & Hab)]);
    exists w'; [left | right]; (split; [exact Hrun|]).
  - destruct (exit_balanced _ _ _ _ Hexit) as (Hsd & Hcam & Hfb).
    destruct (exit_released_once _ _ _ _ Hexit) as (Hsd1 & Hcam1).
    pose proof (exit_release_order _ _ _ _ Hexit) as Horder.
    repeat split; assumption.
  - split; [exact (aborted_only_in_connect _ _ _ _ Hab)|].
    destruct (aborted_resources_held _ _ _ _ Hab) as (H1 & H2 & H3 & H4 & H5 & _).
    repeat split; assumption.
Qed.

(** C9 as stated fails on the exit through [abort()]: on a board whose NVS
    partition cannot be erased, a run with a confident detection ends inside
    [connect] with the SD card mounted, the camera initialised and the
    captured frame held, and nothing released. *)
Lemma C9_counterexample_abort_releases_nothing :
  exists w',
    pipeline_run nvs_unerasable_env 0 = Aborted w'
    /\ count is_storage_acquire (trace w') = 1%nat
    /\ count is_storage_release (trace w') = 0%nat
    /\ count is_imaging_acquire (trace w') = 1%nat
    /\ count is_imaging_release (trace w') = 0%nat
    /\ count is_frame_acquire (trace w') = 26%nat
    /\ count is_frame_release (trace w') = 25%nat.
Proof.
  eexists. split; [vm_compute; reflexivity|].
  repeat split; reflexivity.
Qed.

(** ** Who writes the persisted timestamp *)

Lemma exit_without_cooldown env a tr a' :
  pipeline_exit env a tr a' -> count is_startCooldown tr = 0%nat -> a' = a.
Proof.
  intros H Hcount.
  destruct (exit_detection _ _ _ _ H)
    as [(_ & _ & E) | [(r & _ & _ & _ & E) | (r & pre & post & _ & _ & _ & _ & _ & H1 & _)]];
    [exact E | exact E | rewrite H1 in Hcount; discriminate].
Qed.

(** C7: [startCooldown] overwrites the persisted timestamp with
    [now + seconds], whatever it held (a second call replaces the first, it
    does not add to it); every sequence of SleepManager calls that contains no
    [startCooldown] -- in particular any number of [isInCooldown] and
    [getCooldownRemaining] queries -- leaves it unchanged, and so does every
    run of the pipeline in which [startCooldown] is not entered, whether it
    ends in power-down or in the [abort()] inside [WifiManager::connect]. *)
Theorem C7_allowed_after_written_only_by_startCooldown
  (env : Env) (w : World) (seconds first_seconds : Z) (cs : list SleepCall)
  (Hrange : in_int64 (now_at env (timer_calls w) + seconds))
  (Hcs : forallb (fun c => negb (is_CallStartCooldown c)) cs = true) :
  s_nextPirAllowTime (world_of (startCooldown env seconds w))
  = now_at env (timer_calls w) + seconds
  /\ s_nextPirAllowTime
       (world_of ((startCooldown env first_seconds ;;;
                   startCooldown env seconds) w))
     = startCooldown_at (now_at env (S (timer_calls w))) seconds
  /\ s_nextPirAllowTime (world_of (perform_all env cs w))
     = s_nextPirAllowTime w
  /\ (forall a, exists w',
        ends_in (pipeline_run env a) w'
        /\ (connect_aborts env = false -> pipeline_run env a = PoweredDown w')
        /\ (count is_startCooldown (trace w') = 0%nat ->
            s_nextPirAllowTime w' = a)).
Proof.
  split; [|split; [|split]].
  - rewrite startCooldown_run. simpl. unfold startCooldown_at.
    apply wrap_s64_small. exact Hrange.
  - reflexivity.
  - apply perform_all_frame. exact Hcs.
  - intros a.
    apply (pipeline_run_ends
             (fun tr a' => count is_startCooldown tr = 0%nat -> a' = a)).
    + intros tr a' Hexit. apply (exit_without_cooldown _ _ _ _ Hexit).
    + intros tr a' Hab _. apply (aborted_nothing_armed _ _ _ _ Hab).
Qed.

Lemma C7_allowed_after_written_only_by_startCooldown_witness :
  let env := quiet_env ESP_SLEEP_WAKEUP_EXT1 12000000 in
  let w := boot_world 500 in
  let cs := [CallIsInCooldown; CallGetCooldownRemaining; CallIsInCooldown;
             CallGetCurrentTimeSec; CallGetCooldownRemaining] in
  s_nextPirAllowTime (world_of (startCooldown env 3600 w)) = 12 + 3600
  /\ s_nextPirAllowTime (world_of (perform_all env cs w)) = 500.
Proof.
  intros env w cs.
  assert (Hrange : in_int64 (now_at env (timer_calls w) + 3600)).
  { unfold in_int64, INT64_MIN, INT64_MAX. vm_compute. split; discriminate. }
  assert (Hcs : forallb (fun c => negb (is_CallStartCooldown c)) cs = true)
    by reflexivity.
  destruct (C7_allowed_after_written_only_by_startCooldown
              env w 3600 60 cs Hrange Hcs) as (H1 & _ & H3 & _).
  split; [exact H1 | exact H3].
Defined.

(** ** The drivers *)

(** C10: [CameraDriver::shutdown] and [SdCardDriver::shutdown] do nothing on
    a driver that holds no resource: no platform call is made and neither the
    driver nor the program state changes.  That is the state of a freshly
    constructed driver, of a driver whose [mount]/[init] failed, and of a
    driver that has been shut down.  With the shutdown calls the pipeline
    makes on every path, each of the two resources is released at most once
    in a run, whether the run ends in power-down or in the [abort()] inside
    [WifiManager::connect]. *)
Theorem C10_shutdown_idempotent (env : Env) (w : World) (a : Z) :
  CameraDriver_shutdown env (mk_cam false) w = Returned (mk_cam false) w
  /\ SdCardDriver_shutdown (mk_sd false) w = Returned (mk_sd false) w
  /\ (forall sd, exists sd' w',
        SdCardDriver_shutdown sd w = Returned sd' w'
        /\ SdCardDriver_shutdown sd' w' = Returned sd' w')
  /\ (forall cam, exists cam' w',
        CameraDriver_shutdown env cam w = Returned cam' w'
        /\ CameraDriver_shutdown env cam' w' = Returned cam' w')
  /\ (exists r sd' w',
        SdCardDriver_mount env SdCardDriver_new w = Returned (r, sd') w'
        /\ if r =? ESP_OK then m_card sd' = true
           else SdCardDriver_shutdown sd' w' = Returned sd' w')
  /\ (exists r cam' w',
        CameraDriver_init env CameraDriver_new w = Returned (r, cam') w'
        /\ if r =? ESP_OK then m_initialized cam' = true
           else CameraDriver_shutdown env cam' w' = Returned cam' w')
  /\ (exists w',
        ends_in (pipeline_run env a) w'
        /\ (connect_aborts env = false -> pipeline_run env a = PoweredDown w')
        /\ (count is_storage_release (trace w') <= 1)%nat
        /\ (count is_imaging_release (trace w') <= 1)%nat).
Proof.
  split; [reflexivity|]. split; [reflexivity|].
  split; [|split; [|split; [|split]]].
  - intros [[|]]; do 2 eexists; split; reflexivity.
  - intros [[|]]; unfold CameraDriver_shutdown; simpl;
      destruct (esp_camera_sensor_present env);
      do 2 eexists; split; reflexivity.
  - unfold SdCardDriver_mount, SdCardDriver_new, bind; simpl.
    destruct (esp_vfs_fat_sdmmc_mount_ret env =? ESP_OK) eqn:E; simpl;
      do 3 eexists; (split; [reflexivity|]).
    + reflexivity.
    + rewrite E. reflexivity.
  - unfold CameraDriver_init, CameraDriver_new, bind; simpl.
    destruct (esp_camera_init_ret env =? ESP_OK) eqn:E; simpl.
    + destruct (esp_camera_sensor_present env); simpl;
        do 3 eexists; (split; [reflexivity|]); reflexivity.
    + do 3 eexists; (split; [reflexivity|]). rewrite E. reflexivity.
  - apply (pipeline_run_ends
             (fun tr _ => (count is_storage_release tr <= 1)%nat
                          /\ (count is_imaging_release tr <= 1)%nat)).
    + intros tr a' Hexit. apply (exit_released_once _ _ _ _ Hexit).
    + intros tr a' Hab.
      destruct (aborted_resources_held _ _ _ _ Hab) as (_ & H2 & _ & H4 & _).
      rewrite H2, H4. split; lia.
Qed.

(** ** The clock across deep sleep *)

(** With a counter that runs on through deep sleep the store keeps its
    contract: after [elapsed] seconds the remaining time is the started
    duration minus [elapsed], clamped at zero. *)
Lemma free_running_clock_contract (start seconds elapsed : Z) :
  in_int64 (start + seconds) -> in_int64 (seconds - elapsed) ->
  getCooldownRemaining_at (startCooldown_at start seconds) (start + elapsed)
  = Z.max 0 (seconds - elapsed).
Proof.
  intros H1 H2. unfold startCooldown_at. rewrite (wrap_s64_small _ H1).
  rewrite getCooldownRemaining_at_exact.
  - f_equal. lia.
  - replace (start + seconds - (start + elapsed)) with (seconds - elapsed) by lia.
    exact H2.
Qed.

(** With the counter of the chip, which counts from the boot, the time slept
    does not enter the remaining time computed at the wake-up boot. *)
Lemma since_boot_clock_ignores_sleep (c : Chip) (seconds slept_us : Z) :
  chip_getCooldownRemaining (chip_deep_sleep slept_us (chip_startCooldown seconds c))
  = getCooldownRemaining_at (startCooldown_at (chip_now c) seconds) 0.
Proof.
  unfold chip_getCooldownRemaining, chip_deep_sleep, chip_startCooldown,
    chip_now, esp_timer_get_time.
  cbn [real_time_us booted_at_us rtc_nextPirAllowTime].
  rewrite Z.sub_diag. reflexivity.
Qed.

(** C1 (the code at the failing input): a cooldown of 3600 s started 12 s
    after boot, then a deep sleep of 3600 s.  The claim asks for a remaining
    time of [3600 - 3600 = 0] at the wake-up; the code computes 3612, is still
    "in cooldown", and the timer-wake boot arms the timer again for 3612 s
    instead of the PIR. *)
Theorem C1_cooldown_not_kept_across_deep_sleep :
  let c1 := chip_startCooldown 3600 (chip_elapse 12000000 (mk_chip 0 0 0)) in
  let c2 := chip_deep_sleep 3600000000 c1 in
  chip_getCooldownRemaining c1 = 3600
  /\ real_time_us c2 - real_time_us c1 = 3600 * 1000000
  /\ esp_timer_get_time c2 = 0
  /\ rtc_nextPirAllowTime c2 = 3612
  /\ chip_isInCooldown c2 = true
  /\ chip_getCooldownRemaining c2 = 3612
  /\ armed_sources
       (trace (world_of
          (app_main (quiet_env ESP_SLEEP_WAKEUP_TIMER (esp_timer_get_time c2))
                    (boot_world (rtc_nextPirAllowTime c2)))))
     = [TimerWake 3612000000].
Proof. vm_compute. repeat split; reflexivity. Qed.

(** * Further properties of the code *)

(** ** Seconds, cooldown arithmetic *)

(** [getCurrentTimeSec] rounds the microsecond counter down to whole seconds
    and never runs backwards when the counter does not. *)
Theorem seconds_of_us_floor (us us' : Z) (Hus : 0 <= us) (Hle : us <= us') :
  seconds_of_us us * 1000000 <= us < (seconds_of_us us + 1) * 1000000
  /\ seconds_of_us us <= seconds_of_us us'.
Proof.
  unfold seconds_of_us. rewrite !Z.quot_div_nonneg by lia.
  split.
  - pose proof (Z.div_mod us 1000000 ltac:(lia)).
    pose proof (Z.mod_pos_bound us 1000000 ltac:(lia)). lia.
  - apply Z.div_le_mono; lia.
Qed.

Lemma seconds_of_us_floor_witness :
  seconds_of_us 12999999 * 1000000 <= 12999999
    < (seconds_of_us 12999999 + 1) * 1000000
  /\ seconds_of_us 12999999 <= seconds_of_us 13000000.
Proof. apply (seconds_of_us_floor 12999999 13000000); lia. Defined.

(** Right after [startCooldown(seconds)], at the same clock value, the store
    reports [seconds] remaining and is cooling down exactly when [seconds] is
    positive: a zero or negative duration starts no cooldown. *)
Theorem startCooldown_then_query (now seconds : Z)
  (Hsum : in_int64 (now + seconds)) (Hsec : in_int64 seconds) :
  getCooldownRemaining_at (startCooldown_at now seconds) now = Z.max 0 seconds
  /\ isInCooldown_at (startCooldown_at now seconds) now = (0 <? seconds).
Proof.
  unfold startCooldown_at. rewrite (wrap_s64_small _ Hsum). split.
  - rewrite getCooldownRemaining_at_exact.
    + f_equal. lia.
    + replace (now + seconds - now) with seconds by lia. exact Hsec.
  - unfold isInCooldown_at. rewrite Z.gtb_ltb.
    destruct (0 <? seconds) eqn:E.
    + apply Z.ltb_lt in E. apply Z.ltb_lt. lia.
    + apply Z.ltb_ge in E. apply Z.ltb_ge. lia.
Qed.

Lemma startCooldown_then_query_witness :
  getCooldownRemaining_at (startCooldown_at 12 3600) 12 = Z.max 0 3600
  /\ isInCooldown_at (startCooldown_at 12 3600) 12 = (0 <? 3600).
Proof.
  apply (startCooldown_then_query 12 3600);
    unfold in_int64, INT64_MIN, INT64_MAX; lia.
Defined.

(** With the persisted timestamp left alone, the remaining time never grows
    as the clock advances, a cooldown that has ended stays ended, and it has
    ended as soon as the clock reaches the timestamp. *)
Theorem cooldown_runs_down (allowed_after now now' : Z)
  (Hnow : in_int64 (allowed_after - now))
  (Hnow' : in_int64 (allowed_after - now'))
  (Hle : now <= now') :
  getCooldownRemaining_at allowed_after now'
    <= getCooldownRemaining_at allowed_after now
  /\ (isInCooldown_at allowed_after now = false ->
      isInCooldown_at allowed_after now' = false)
  /\ (allowed_after <= now' ->
      isInCooldown_at allowed_after now' = false
      /\ getCooldownRemaining_at allowed_after now' = 0).
Proof.
  rewrite !getCooldownRemaining_at_exact by assumption.
  unfold isInCooldown_at. rewrite !Z.gtb_ltb.
  split; [lia|]. split.
  - intros H. apply Z.ltb_ge in H. apply Z.ltb_ge. lia.
  - intros H. split; [apply Z.ltb_ge|]; lia.
Qed.

Lemma cooldown_runs_down_witness :
  getCooldownRemaining_at 3612 3612 <= getCooldownRemaining_at 3612 100
  /\ isInCooldown_at 3612 3612 = false
  /\ getCooldownRemaining_at 3612 3612 = 0.
Proof.
  destruct (cooldown_runs_down 3612 100 3612) as (H1 & _ & H3);
    try (unfold in_int64, INT64_MIN, INT64_MAX; lia).
  destruct (H3 ltac:(lia)) as (H4 & H5).
  split; [exact H1|]. split; [exact H4 | exact H5].
Defined.

(** ** The wake arbiter between two clock readings *)

(** [enterDeepSleep] decides on one clock reading and computes the duration
    on the next.  When the cooldown ends between the two, the timer is armed
    with a duration of zero and the PIR wake is not armed. *)
Theorem enterDeepSleep_zero_timer (env : Env) (w : World)
  (Hfirst : now_at env (timer_calls w) < s_nextPirAllowTime w)
  (Hsecond : s_nextPirAllowTime w <= now_at env (S (timer_calls w)))
  (Hrange : in_int64 (s_nextPirAllowTime w - now_at env (S (timer_calls w)))) :
  exists w',
    @enterDeepSleep env unit w = PoweredDown w'
    /\ trace w' = trace w ++ [EvArm (TimerWake 0); EvDelayMs 100;
                              EvDeepSleepStart].
Proof.
  rewrite enterDeepSleep_run.
  assert (E : isInCooldown_at (s_nextPirAllowTime w)
                              (now_at env (timer_calls w)) = true)
    by (apply isInCooldown_at_spec; exact Hfirst).
  rewrite E. eexists. split; [reflexivity|].
  cbn [trace]. rewrite getCooldownRemaining_at_exact by exact Hrange.
  rewrite Z.max_l by lia. rewrite <- !app_assoc. reflexivity.
Qed.

Lemma enterDeepSleep_zero_timer_witness :
  let env := mk_env (fun k => match k with O => 11999999 | _ => 12000000 end)
                    ESP_SLEEP_WAKEUP_TIMER ESP_FAIL ESP_FAIL false
                    (fun _ => None) false [] no_ap_in_range ESP_FAIL in
  exists w',
    @enterDeepSleep env unit (boot_world 12) = PoweredDown w'
    /\ trace w' = [EvArm (TimerWake 0); EvDelayMs 100; EvDeepSleepStart].
Proof.
  intros env.
  apply (enterDeepSleep_zero_timer env (boot_world 12)).
  - vm_compute. reflexivity.
  - vm_compute. discriminate.
  - unfold in_int64, INT64_MIN, INT64_MAX. vm_compute. split; discriminate.
Defined.

(** ** The dispatcher *)

(** A wake-up that is not the PIR's (power-on, timer, anything else) goes to
    deep sleep without mounting the card, initialising the camera, grabbing a
    frame, touching the network or starting a cooldown, and leaves the
    persisted timestamp as it was. *)
Theorem app_main_idle_unless_pir (env : Env) (a : Z)
  (Hcause : esp_sleep_get_wakeup_cause env <> ESP_SLEEP_WAKEUP_EXT1) :
  exists w',
    app_main env (boot_world a) = PoweredDown w'
    /\ count is_acquisition_attempt (trace w') = 0%nat
    /\ count is_wifi_connect (trace w') = 0%nat
    /\ count is_startCooldown (trace w') = 0%nat
    /\ fb_calls w' = 0%nat
    /\ s_nextPirAllowTime w' = a.
Proof.
  unfold app_main, getWakeReason. rewrite bind_unfold. unfold ret at 1.
  assert (Hc : classify (esp_sleep_get_wakeup_cause env) <> PIR_TRIGGER).
  { unfold classify.
    destruct (_ =? ESP_SLEEP_WAKEUP_UNDEFINED); [discriminate|].
    destruct (_ =? ESP_SLEEP_WAKEUP_EXT1) eqn:E.
    - apply Z.eqb_eq in E. contradiction.
    - destruct (_ =? ESP_SLEEP_WAKEUP_TIMER); discriminate. }
  destruct (classify (esp_sleep_get_wakeup_cause env)); try contradiction.
  - unfold handlePowerOnBoot, boot_world, vTaskDelay_ms.
    rewrite bind_unfold, emit_mk.
    destruct (@enterDeepSleep_mk unit env a 0 0
                ([] ++ [EvDelayMs config.pir.WARMUP_MS])) as [t' E].
    rewrite E. eexists. split; [reflexivity|].
    cbn [trace fb_calls s_nextPirAllowTime]. repeat split; trace_facts.
  - unfold handleTimerWakeup, boot_world.
    destruct (@enterDeepSleep_mk unit env a 0 0 []) as [t' E]. rewrite E.
    eexists. split; [reflexivity|].
    cbn [trace fb_calls s_nextPirAllowTime]. repeat split; trace_facts.
  - unfold boot_world.
    destruct (@enterDeepSleep_mk unit env a 0 0 []) as [t' E]. rewrite E.
    eexists. split; [reflexivity|].
    cbn [trace fb_calls s_nextPirAllowTime]. repeat split; trace_facts.
Qed.

Lemma app_main_idle_unless_pir_witness :
  exists w',
    app_main (quiet_env ESP_SLEEP_WAKEUP_TIMER 12000000) (boot_world 5)
    = PoweredDown w'
    /\ count is_acquisition_attempt (trace w') = 0%nat
    /\ count is_wifi_connect (trace w') = 0%nat
    /\ count is_startCooldown (trace w') = 0%nat
    /\ fb_calls w' = 0%nat
    /\ s_nextPirAllowTime w' = 5.
Proof.
  apply (app_main_idle_unless_pir (quiet_env ESP_SLEEP_WAKEUP_TIMER 12000000) 5).
  vm_compute. discriminate.
Defined.

(** A cold start -- wake cause undefined, persisted timestamp zero -- waits
    for the PIR sensor's warmup time and powers down with the PIR wake armed,
    whatever (non-negative) value the clock shows. *)
Theorem power_on_arms_pir (env : Env)
  (Hcause : esp_sleep_get_wakeup_cause env = ESP_SLEEP_WAKEUP_UNDEFINED)
  (Hclock : 0 <= esp_timer_get_time_at env 0) :
  exists w',
    app_main env (boot_world 0) = PoweredDown w'
    /\ trace w' = [EvDelayMs config.pir.WARMUP_MS;
                   EvArm (LevelWake pir_ext1_mask);
                   EvDelayMs 100; EvDeepSleepStart]
    /\ s_nextPirAllowTime w' = 0.
Proof.
  unfold app_main, getWakeReason. rewrite bind_unfold. unfold ret at 1.
  rewrite Hcause. cbn [classify Z.eqb ESP_SLEEP_WAKEUP_UNDEFINED].
  unfold handlePowerOnBoot, boot_world, vTaskDelay_ms.
  rewrite bind_unfold, emit_mk.
  destruct (@enterDeepSleep_mk unit env 0 0 0
              ([] ++ [EvDelayMs config.pir.WARMUP_MS])) as [t' E].
  rewrite E. eexists. split; [reflexivity|].
  cbn [trace s_nextPirAllowTime]. split; [|reflexivity].
  unfold sleep_events. rewrite (isInCooldown_at_zero env 0 Hclock). reflexivity.
Qed.

Lemma power_on_arms_pir_witness :
  exists w',
    app_main (quiet_env ESP_SLEEP_WAKEUP_UNDEFINED 150000) (boot_world 0)
    = PoweredDown w'
    /\ trace w' = [EvDelayMs config.pir.WARMUP_MS;
                   EvArm (LevelWake pir_ext1_mask);
                   EvDelayMs 100; EvDeepSleepStart]
    /\ s_nextPirAllowTime w' = 0.
Proof.
  apply (power_on_arms_pir (quiet_env ESP_SLEEP_WAKEUP_UNDEFINED 150000)).
  - reflexivity.
  - vm_compute. discriminate.
Defined.

(** On a timer wake-up the PIR wake is armed again exactly when the clock has
    reached the persisted timestamp; before that the run does nothing but arm
    the timer once more. *)
Theorem timer_wake_rearms_pir_when_expired (env : Env) (a : Z)
  (Hcause : esp_sleep_get_wakeup_cause env = ESP_SLEEP_WAKEUP_TIMER) :
  exists src w',
    app_main env (boot_world a) = PoweredDown w'
    /\ trace w' = [EvArm src; EvDelayMs 100; EvDeepSleepStart]
    /\ (src = LevelWake pir_ext1_mask <-> a <= now_at env 0).
Proof.
  unfold app_main, getWakeReason. rewrite bind_unfold. unfold ret at 1.
  rewrite Hcause. change (classify ESP_SLEEP_WAKEUP_TIMER) with TIMER.
  unfold handleTimerWakeup, boot_world.
  destruct (@enterDeepSleep_mk unit env a 0 0 []) as [t' E]. rewrite E.
  eexists. eexists. split; [reflexivity|]. cbn [trace app sleep_events].
  split; [reflexivity|].
  destruct (isInCooldown_at a (now_at env 0)) eqn:C.
  - apply isInCooldown_at_spec in C. split; [discriminate|lia].
  - split; [|reflexivity]. intros _.
    unfold isInCooldown_at in C. rewrite Z.gtb_ltb in C.
    apply Z.ltb_ge in C. exact C.
Qed.

Lemma timer_wake_rearms_pir_when_expired_witness :
  exists w',
    app_main (quiet_env ESP_SLEEP_WAKEUP_TIMER 3612000000) (boot_world 3612)
    = PoweredDown w'
    /\ trace w' = [EvArm (LevelWake pir_ext1_mask); EvDelayMs 100;
                   EvDeepSleepStart].
Proof.
  destruct (timer_wake_rearms_pir_when_expired
              (quiet_env ESP_SLEEP_WAKEUP_TIMER 3612000000) 3612 eq_refl)
    as (src & w' & Hrun & Htr & Hsrc).
  exists w'. split; [exact Hrun|].
  rewrite Htr. rewrite (proj2 Hsrc); [reflexivity|].
  vm_compute. discriminate.
Defined.

(** ** The drivers, call by call *)

(** [mount] on a mounted card does nothing and answers [ESP_OK].  On a fresh
    driver it makes one mount call and holds the card exactly when it
    returns [ESP_OK]; a following [shutdown] brings the driver back to its
    initial state, having unmounted the card as often as it was mounted. *)
Theorem SdCardDriver_mount_shutdown_roundtrip (env : Env) (w : World) :
  SdCardDriver_mount env (mk_sd true) w = Returned (ESP_OK, mk_sd true) w
  /\ exists r sd w1 w2,
       SdCardDriver_mount env SdCardDriver_new w = Returned (r, sd) w1
       /\ m_card sd = (r =? ESP_OK)
       /\ SdCardDriver_shutdown sd w1 = Returned SdCardDriver_new w2
       /\ trace w2
          = trace w ++ EvSdmmcMount (esp_vfs_fat_sdmmc_mount_ret env)
                    :: (if r =? ESP_OK
                        then EvSdcardUnmount
                               :: resetGpioPins_events config.sdcard.PINS
                        else [])
       /\ s_nextPirAllowTime w2 = s_nextPirAllowTime w.
Proof.
  split; [reflexivity|].
  destruct w as [a t n tr]. rewrite SdCardDriver_mount_mk.
  destruct (esp_vfs_fat_sdmmc_mount_ret env =? ESP_OK) eqn:E.
  - do 4 eexists. split; [reflexivity|]. split; [reflexivity|].
    rewrite SdCardDriver_shutdown_mounted. split; [reflexivity|].
    cbn [trace s_nextPirAllowTime]. unfold sd_shutdown_events.
    change (ESP_OK =? ESP_OK) with true. cbv iota.
    rewrite <- app_assoc. split; reflexivity.
  - do 4 eexists. split; [reflexivity|]. rewrite E.
    split; [reflexivity|]. split; [reflexivity|].
    cbn [trace s_nextPirAllowTime]. split; reflexivity.
Qed.

(** [init] on an initialised camera does nothing and answers [ESP_OK].  On a
    fresh driver it returns [ESP_OK] exactly when [esp_camera_init] succeeded
    and the sensor handle is there, and only then is the driver initialised;
    a failed [init] leaves no camera behind (the init that succeeded without
    a sensor is undone on the spot). *)
Theorem CameraDriver_init_outcome (env : Env) (w : World) :
  CameraDriver_init env (mk_cam true) w = Returned (ESP_OK, mk_cam true) w
  /\ exists r cam es,
       CameraDriver_init env CameraDriver_new w
       = Returned (r, cam)
                  (mk_world (s_nextPirAllowTime w) (timer_calls w) (fb_calls w)
                            (trace w ++ es))
       /\ m_initialized cam = (r =? ESP_OK)
       /\ (r =? ESP_OK)
          = (esp_camera_init_ret env =? ESP_OK) && esp_camera_sensor_present env
       /\ count is_imaging_acquire es
          = (count is_imaging_release es
             + (if m_initialized cam then 1 else 0))%nat.
Proof.
  split; [reflexivity|].
  destruct w as [a t n tr]. rewrite CameraDriver_init_mk.
  cbn [s_nextPirAllowTime timer_calls fb_calls trace].
  destruct (esp_camera_init_ret env =? ESP_OK) eqn:E.
  - destruct (esp_camera_sensor_present env);
      do 3 eexists; (split; [rewrite <- app_assoc; reflexivity|]);
      (split; [reflexivity|]); (split; [reflexivity|]);
      cbn [app]; rewrite !count_cons; cbn [is_imaging_acquire is_imaging_release];
      rewrite E; reflexivity.
  - do 3 eexists. split; [reflexivity|]. rewrite E.
    split; [reflexivity|]. split; [reflexivity|].
    rewrite !count_cons. cbn [is_imaging_acquire is_imaging_release].
    rewrite E. reflexivity.
Qed.

(** [capture] hands out a frame exactly when the camera is initialised, the
    grab delivered one and it is at least [MIN_FRAME_SIZE] bytes long; the
    frame handed out is the one grabbed.  A rejected frame is given back
    before returning, and without an initialised camera no grab is made. *)
Theorem CameraDriver_capture_outcome (env : Env) (cam : CameraDriver) (w : World) :
  exists r es,
    CameraDriver_capture env cam w
    = Returned r (mk_world (s_nextPirAllowTime w) (timer_calls w)
                           ((if m_initialized cam then 1 else 0) + fb_calls w)
                           (trace w ++ es))
    /\ (forall f,
          r = Some f <->
          m_initialized cam = true
          /\ esp_camera_fb_get_at env (fb_calls w) = Some f
          /\ config.camera.MIN_FRAME_SIZE <= fb_len f)
    /\ count is_fb_get es = (if m_initialized cam then 1 else 0)%nat
    /\ count is_frame_acquire es
       = (count is_frame_release es
          + (match r with Some _ => 1 | None => 0 end))%nat.
Proof.
  destruct cam as [[|]]; destruct w as [a t n tr].
  - rewrite CameraDriver_capture_mk.
    cbn [m_initialized s_nextPirAllowTime timer_calls fb_calls trace Nat.add].
    destruct (esp_camera_fb_get_at env n) as [f|] eqn:G.
    + destruct (fb_len f <? config.camera.MIN_FRAME_SIZE) eqn:L.
      * do 2 eexists. split; [rewrite <- app_assoc; reflexivity|].
        apply Z.ltb_lt in L.
        split; [|split; reflexivity].
        intros f'. split; [discriminate|].
        intros (_ & H & H'). injection H as <-. lia.
      * do 2 eexists. split; [reflexivity|].
        apply Z.ltb_ge in L.
        split; [|split; reflexivity].
        intros f'. split.
        -- intros H. injection H as <-. repeat split; assumption.
        -- intros (_ & H & _). exact H.
    + do 2 eexists. split; [reflexivity|].
      split; [|split; reflexivity].
      intros f'. split; [discriminate|]. intros (_ & H & _). discriminate.
  - exists None, []. split.
    + unfold CameraDriver_capture. cbn [m_initialized negb]. unfold ret.
      rewrite app_nil_r. reflexivity.
    + split; [|split; reflexivity].
      intros f. split; [discriminate|]. intros (H & _). discriminate.
Qed.

(** The two size checks do not agree on a frame of exactly [MIN_FRAME_SIZE]
    bytes: [capture] accepts it, the warmup loop does not count it as valid;
    on every other length they agree. *)
Theorem frame_size_checks_differ_at_minimum
  (env : Env) (w : World) (f : camera_fb_t)
  (Hgrab : esp_camera_fb_get_at env (fb_calls w) = Some f) :
  ((exists w', CameraDriver_capture env (mk_cam true) w = Returned (Some f) w')
   /\ (exists w', warmup_loop env 1 0 w = Returned 0 w'))
  <-> fb_len f = config.camera.MIN_FRAME_SIZE.
Proof.
  destruct w as [a t n tr]. cbn [fb_calls] in Hgrab.
  rewrite CameraDriver_capture_mk, warmup_loop_run, Hgrab.
  cbn [fb_calls warmup_valid]. rewrite Hgrab.
  unfold valid_warmup_frame.
  destruct (fb_len f <? config.camera.MIN_FRAME_SIZE) eqn:L;
    destruct (fb_len f >? config.camera.MIN_FRAME_SIZE) eqn:G;
    rewrite Z.gtb_ltb in G;
    try apply Z.ltb_lt in L; try apply Z.ltb_ge in L;
    try apply Z.ltb_lt in G; try apply Z.ltb_ge in G.
  - lia.
  - split; [intros ((w' & H) & _); discriminate | lia].
  - split; [intros (_ & (w' & H)); discriminate | lia].
  - split; [lia|]. intros _. split; eexists; reflexivity.
Qed.

Lemma frame_size_checks_differ_at_minimum_witness :
  (exists w', CameraDriver_capture boundary_frame_env (mk_cam true) (boot_world 0)
              = Returned (Some boundary_frame) w')
  /\ (exists w', warmup_loop boundary_frame_env 1 0 (boot_world 0)
                 = Returned 0 w').
Proof.
  apply (frame_size_checks_differ_at_minimum
           boundary_frame_env (boot_world 0) boundary_frame eq_refl).
  reflexivity.
Defined.

Lemma valid_plus_invalid env :
  forall n k,
    valid_frames_among env k n + invalid_frames_among env k n = Z.of_nat n.
Proof.
  unfold valid_frames_among, invalid_frames_among.
  induction n as [|n IH]; intros k; [reflexivity|].
  cbn [seq map filter]. specialize (IH (S k)).
  destruct (valid_warmup_frame (esp_camera_fb_get_at env k));
    cbn [negb length]; lia.
Qed.

(** [warmup] succeeds exactly when at most five of its twenty-five grabs are
    missing or not longer than [MIN_FRAME_SIZE]; on a camera that is not
    initialised it fails without grabbing anything. *)
Theorem warmup_tolerates_five_bad_grabs (env : Env) (w : World) :
  (exists ok w',
      CameraDriver_warmup env (mk_cam true) w = Returned ok w'
      /\ (ok = true <->
          invalid_frames_among env (fb_calls w)
                               config.timing.CAMERA_WARMUP_FRAMES <= 5))
  /\ CameraDriver_warmup env (mk_cam false) w = Returned false w.
Proof.
  split; [|reflexivity].
  rewrite CameraDriver_warmup_run. do 2 eexists. split; [reflexivity|].
  rewrite warmup_valid_among, Z.geb_le.
  pose proof (valid_plus_invalid env config.timing.CAMERA_WARMUP_FRAMES
                                 (fb_calls w)) as H.
  change (Z.of_nat config.timing.CAMERA_WARMUP_FRAMES) with 25 in H.
  change config.timing.CAMERA_MIN_VALID_FRAMES with 20. lia.
Qed.

(** ** GPIO clean-up *)

Lemma gpio_ops_on_app pin (l1 l2 : list Event) :
  gpio_ops_on pin (l1 ++ l2) = gpio_ops_on pin l1 ++ gpio_ops_on pin l2.
Proof. unfold gpio_ops_on. apply flat_map_app. Qed.

Lemma gpio_ops_on_absent pin pins :
  ~ In pin pins -> gpio_ops_on pin (resetGpioPins_events pins) = [].
Proof.
  induction pins as [|p pins IH]; intros H; [reflexivity|].
  cbn [resetGpioPins_events flat_map].
  change (flat_map _ pins) with (resetGpioPins_events pins).
  rewrite gpio_ops_on_app, IH by (intros F; apply H; right; exact F).
  assert (E : (p =? pin) = false)
    by (apply Z.eqb_neq; intros ->; apply H; left; reflexivity).
  cbn [gpio_ops_on flat_map app]. rewrite E. reflexivity.
Qed.

(** [resetGpioPins] makes four calls on every pin of its table, in the order
    reset, input direction, pull-up off, pull-down off, and none on a pin
    that is not in the table. *)
Theorem resetGpioPins_four_calls_per_pin (pins : list Z) (pin : Z)
  (Hnodup : NoDup pins) :
  (In pin pins ->
   gpio_ops_on pin (resetGpioPins_events pins)
   = [GpioResetPin; GpioSetInput; GpioPullupDis; GpioPulldownDis])
  /\ (~ In pin pins -> gpio_ops_on pin (resetGpioPins_events pins) = []).
Proof.
  split; [|apply gpio_ops_on_absent].
  induction Hnodup as [|p pins Hp Hnodup IH]; intros Hin; [destruct Hin|].
  cbn [resetGpioPins_events flat_map].
  change (flat_map _ pins) with (resetGpioPins_events pins).
  rewrite gpio_ops_on_app.
  destruct Hin as [-> | Hin].
  - rewrite (gpio_ops_on_absent pin pins Hp).
    cbn [gpio_ops_on flat_map app]. rewrite Z.eqb_refl. reflexivity.
  - rewrite (IH Hin).
    assert (E : (p =? pin) = false)
      by (apply Z.eqb_neq; intros ->; contradiction).
    cbn [gpio_ops_on flat_map app]. rewrite E. reflexivity.
Qed.

Lemma resetGpioPins_four_calls_per_pin_witness :
  gpio_ops_on config.sdcard.PIN_CMD (resetGpioPins_events config.sdcard.PINS)
  = [GpioResetPin; GpioSetInput; GpioPullupDis; GpioPulldownDis].
Proof.
  assert (Hnodup : NoDup config.sdcard.PINS).
  { repeat constructor; cbn; intros H;
      repeat (destruct H as [H|H]; [discriminate H|]); exact H. }
  apply (proj1 (resetGpioPins_four_calls_per_pin
                  config.sdcard.PINS config.sdcard.PIN_CMD Hnodup)).
  right; left; reflexivity.
Defined.

Lemma count_zero_not_in q (l : list Event) e :
  count q l = 0%nat -> In e l -> q e = false.
Proof.
  induction l as [|x l IH]; intros Hc Hin; [destruct Hin|].
  rewrite count_cons in Hc. destruct (q x) eqn:Q; [discriminate|].
  destruct Hin as [<- | Hin]; [exact Q | apply IH; assumption].
Qed.

Lemma count_warmup_foreign_gpio env n k :
  count is_foreign_gpio (warmup_events env k n) = 0%nat.
Proof. apply count_warmup_other; reflexivity. Qed.

Lemma count_warmup_wifi_connect env n k :
  count is_wifi_connect (warmup_events env k n) = 0%nat.
Proof. apply count_warmup_other; reflexivity. Qed.

Lemma count_warmup_wifi_call q env n k :
  count (is_wifi_call q) (warmup_events env k n) = 0%nat.
Proof. apply count_warmup_other; reflexivity. Qed.

Lemma count_wifi_foreign_gpio calls :
  count is_foreign_gpio (map EvWifi calls) = 0%nat.
Proof. apply count_wifi_other; reflexivity. Qed.

Lemma count_wifi_wifi_connect calls :
  count is_wifi_connect (map EvWifi calls) = 0%nat.
Proof. apply count_wifi_other; reflexivity. Qed.

Lemma count_wifi_telegram_send calls :
  count is_telegram_send (map EvWifi calls) = 0%nat.
Proof. apply count_wifi_other; reflexivity. Qed.

Lemma count_wifi_fb_get calls :
  count is_fb_get (map EvWifi calls) = 0%nat.
Proof. apply count_wifi_other; reflexivity. Qed.

Lemma count_warmup_telegram_send env n k :
  count is_telegram_send (warmup_events env k n) = 0%nat.
Proof. apply count_warmup_other; reflexivity. Qed.

#[local] Hint Rewrite count_warmup_foreign_gpio count_warmup_wifi_connect
  count_warmup_wifi_call count_warmup_telegram_send
  count_warmup_fb_get count_wifi_foreign_gpio count_wifi_wifi_connect
  count_wifi_telegram_send count_wifi_fb_get : trace_db.

Lemma exit_gpio env a tr a' :
  pipeline_exit env a tr a' -> count is_foreign_gpio tr = 0%nat.
Proof. intros H. destruct H; trace_facts. Qed.

Lemma aborted_gpio env a tr a' :
  pipeline_aborted env a tr a' -> count is_foreign_gpio tr = 0%nat.
Proof. intros H. destruct H; trace_facts. Qed.

(** In a run of the pipeline, however it ends, the only pins given to the
    GPIO driver are those of the camera and SD card tables; the PIR pin, on
    which the wake-up is armed, is never reset or reconfigured. *)
Theorem pipeline_leaves_pir_pin_alone (env : Env) (a : Z) :
  exists w',
    ends_in (pipeline_run env a) w'
    /\ (connect_aborts env = false -> pipeline_run env a = PoweredDown w')
    /\ (forall op pin,
          In (EvGpio op pin) (trace w') ->
          In pin (config.camera.DATA_PINS ++ config.sdcard.PINS))
    /\ (forall op, ~ In (EvGpio op config.pir.PIN) (trace w')).
Proof.
  destruct (pipeline_run_ends (fun tr _ => count is_foreign_gpio tr = 0%nat)
              env a (exit_gpio env a) (aborted_gpio env a))
    as (w' & Hend & Hdown & Hc).
  exists w'. split; [exact Hend|]. split; [exact Hdown|]. split.
  - intros op pin Hin.
    pose proof (count_zero_not_in _ _ _ Hc Hin) as H.
    cbn [is_foreign_gpio] in H. apply negb_false_iff in H.
    apply existsb_exists in H. destruct H as (x & Hx & E).
    apply Z.eqb_eq in E. subst x. exact Hx.
  - intros op Hin.
    pose proof (count_zero_not_in _ _ _ Hc Hin) as H. discriminate H.
Qed.

(** ** The detector wrapper *)

(** [detect] runs the model exactly when the JPEG was decoded, and frees the
    decoded image exactly then; without a usable frame (null frame, null
    buffer or zero length) it calls nothing at all.  It changes nothing else
    in the program state. *)
Theorem Detector_detect_calls (env : Env) (frame : option camera_fb_t) (w : World) :
  exists r es,
    Detector_detect env frame w
    = Returned r (mk_world (s_nextPirAllowTime w) (timer_calls w) (fb_calls w)
                           (trace w ++ es))
    /\ count is_model_run es = count is_decoded es
    /\ count is_heap_free es = count is_decoded es
    /\ (match frame with Some f => unusable_frame f | None => true end = true ->
        es = [] /\ r = no_detection).
Proof.
  destruct w as [a t n tr]. destruct frame as [f|].
  - rewrite Detector_detect_mk. do 2 eexists. split; [reflexivity|].
    unfold detect_events, detection_of.
    destruct (unusable_frame f).
    + repeat split; reflexivity.
    + destruct (sw_decode_jpeg_ok env); cbn [negb];
        (split; [reflexivity|]); (split; [reflexivity|]); discriminate.
  - exists no_detection, []. split.
    + unfold Detector_detect, ret. rewrite app_nil_r. reflexivity.
    + repeat split; reflexivity.
Qed.

(** [detect] reports a detection exactly when the frame is usable, the JPEG
    decodes and the model returns at least one entry; it then carries the
    score of the first entry, whatever follows it in the list.  In every
    other case the result is the all-zero "nothing detected". *)
Theorem Detector_detect_result (env : Env) (f : camera_fb_t) (w : World) :
  exists r w',
    Detector_detect env (Some f) w = Returned r w'
    /\ (detected r = true <->
        unusable_frame f = false /\ sw_decode_jpeg_ok env = true
        /\ detect_run env <> [])
    /\ (detected r = false -> r = no_detection)
    /\ (forall det rest,
          detected r = true -> detect_run env = det :: rest ->
          confidence r = det_score det).
Proof.
  destruct w as [a t n tr]. rewrite Detector_detect_mk.
  do 2 eexists. split; [reflexivity|]. unfold detection_of.
  destruct (unusable_frame f).
  { split; [split; [discriminate|intros (H & _); discriminate]|].
    split; [reflexivity|]. intros det rest H; discriminate. }
  destruct (sw_decode_jpeg_ok env); cbn [negb].
  2:{ split; [split; [discriminate|intros (_ & H & _); discriminate]|].
      split; [reflexivity|]. intros det rest H; discriminate. }
  destruct (detect_run env) as [|det rest].
  { split; [split; [discriminate|intros (_ & _ & H); contradiction]|].
    split; [reflexivity|]. intros det rest H; discriminate. }
  assert (Hd : detected (result_of_detection det) = true
               /\ confidence (result_of_detection det) = det_score det).
  { unfold result_of_detection. destruct (4 <=? _); split; reflexivity. }
  destruct Hd as (Hd & Hs).
  split; [split; [intros _; repeat split; discriminate | intros _; exact Hd]|].
  split; [rewrite Hd; discriminate|].
  intros det' rest' _ E. injection E as <- _. exact Hs.
Qed.

(** The bounding box of a result: with four coordinates [x1 y1 x2 y2] the
    result holds the corner [x1 y1] and the extent up to [x2 y2]; with fewer
    than four the box fields stay zero while the detection and its score are
    kept. *)
Theorem result_of_detection_box (score : spec_float) (x1 y1 x2 y2 : Z)
  (rest short : list Z)
  (Hw : - 2 ^ 31 <= x2 - x1 < 2 ^ 31) (Hh : - 2 ^ 31 <= y2 - y1 < 2 ^ 31)
  (Hshort : (length short < 4)%nat) :
  (let r := result_of_detection (mk_det score (x1 :: y1 :: x2 :: y2 :: rest)) in
   detected r = true /\ confidence r = score
   /\ res_x r = x1 /\ res_y r = y1
   /\ res_x r + res_width r = x2 /\ res_y r + res_height r = y2)
  /\ result_of_detection (mk_det score short) = mk_result true score 0 0 0 0.
Proof.
  split.
  - unfold result_of_detection. cbn [det_box det_score length nth].
    replace (4 <=? Z.of_nat (S (S (S (S (length rest)))))) with true
      by (symmetry; apply Z.leb_le; lia).
    cbn [detected confidence res_x res_y res_width res_height].
    unfold wrap_s32. rewrite !Z.mod_small by lia.
    repeat split; lia.
  - unfold result_of_detection. cbn [det_box det_score].
    replace (4 <=? Z.of_nat (length short)) with false
      by (symmetry; apply Z.leb_gt; lia).
    reflexivity.
Qed.

Lemma result_of_detection_box_witness :
  (let r := result_of_detection (mk_det score_0_82 [400; 200; 700; 900]) in
   detected r = true /\ confidence r = score_0_82
   /\ res_x r = 400 /\ res_y r = 200
   /\ res_x r + res_width r = 700 /\ res_y r + res_height r = 900)
  /\ result_of_detection (mk_det score_0_82 [400; 200])
     = mk_result true score_0_82 0 0 0 0.
Proof.
  apply (result_of_detection_box score_0_82 400 200 700 900 [] [400; 200]);
    cbn; lia.
Defined.

(** A result counts as a confident detection only with [detected] set and a
    positive score, finite or infinite: a NaN, a zero or a negative score
    never passes the threshold. *)
Theorem confident_needs_positive_score (r : DetectionResult)
  (Hc : confident r = true) :
  detected r = true
  /\ ((exists m e, confidence r = S754_finite false m e)
      \/ confidence r = S754_infinity false).
Proof.
  unfold confident in Hc. apply andb_prop in Hc. destruct Hc as (Hd & Hs).
  split; [exact Hd|].
  destruct (confidence r) as [s|s| |s m e]; try discriminate.
  - destruct s; [discriminate|]. right; reflexivity.
  - destruct s; [discriminate|]. left. exists m, e. reflexivity.
Qed.

Lemma confident_needs_positive_score_witness :
  detected (mk_result true config.detection.MIN_CONFIDENCE 0 0 0 0) = true
  /\ ((exists m e,
         confidence (mk_result true config.detection.MIN_CONFIDENCE 0 0 0 0)
         = S754_finite false m e)
      \/ confidence (mk_result true config.detection.MIN_CONFIDENCE 0 0 0 0)
         = S754_infinity false).
Proof.
  apply (confident_needs_positive_score
           (mk_result true config.detection.MIN_CONFIDENCE 0 0 0 0)).
  reflexivity.
Defined.

(** ** WifiManager, call by call *)

Ltac wifi_facts :=
  repeat match goal with
         | H : (?x =? ?y) = true |- _ => apply Z.eqb_eq in H
         | H : (?x =? ?y) = false |- _ => apply Z.eqb_neq in H
         end.

(** One early return of [connect]: go on where the step succeeded, close the
    branch where it failed with [leaf]. *)
Ltac gate c leaf :=
  destruct c eqn:?; cbn [negb andb orb]; [ | solve [leaf] ].

(** The early returns of [connect] in program order, after [initNvs]. *)
Ltac along_connect p leaf :=
  unfold connect_wifi_stack; cbv zeta; rewrite <- ?negb_orb;
  gate (xEventGroupCreate_ok p) leaf;
  gate ((esp_netif_init_ret p =? ESP_OK)
        || (esp_netif_init_ret p =? ESP_ERR_INVALID_STATE)) leaf;
  gate ((esp_event_loop_create_default_ret p =? ESP_OK)
        || (esp_event_loop_create_default_ret p =? ESP_ERR_INVALID_STATE)) leaf;
  gate (esp_wifi_init_ret p =? ESP_OK) leaf;
  gate (register_wifi_handler_ret p =? ESP_OK) leaf;
  gate (register_ip_handler_ret p =? ESP_OK) leaf;
  gate (esp_wifi_set_mode_ret p =? ESP_OK) leaf;
  gate (esp_wifi_set_config_ret p =? ESP_OK) leaf;
  gate (esp_wifi_start_ret p =? ESP_OK) leaf.

Ltac not_ok_leaf :=
  split;
  [ let E := fresh in
    intros (? & ? & E); try discriminate E;
    injection E as E _ _; wifi_facts;
    repeat match goal with
           | H : (_ || _) = false |- _ =>
               apply orb_false_elim in H; destruct H
           end;
    wifi_facts; congruence
  | let Hb := fresh in intros (Hb & _); discriminate Hb ].

(** [connect] returns [ESP_OK] exactly when every step up to
    [esp_wifi_start] succeeded ([ESP_ERR_INVALID_STATE] from
    [esp_netif_init] and [esp_event_loop_create_default] counting as success)
    and the wait found CONNECTED_BIT set. *)
Theorem WifiManager_connect_ok_iff (p : WifiPlatform) (o : WifiObject) :
  (exists o' calls, WifiObject_connect p o = WifiReturned ESP_OK o' calls)
  <-> wifi_bringup_ok p = true
      /\ Z.land (xEventGroupWaitBits_ret p) CONNECTED_BIT <> 0.
Proof.
  unfold WifiObject_connect, wifi_bringup_ok.
  destruct (initNvs p) as [calls [nvs|]].
  2:{ split; [intros (? & ? & E); discriminate E | intros (Hb & _); discriminate Hb]. }
  gate (nvs =? ESP_OK) not_ok_leaf.
  along_connect p not_ok_leaf.
  destruct (Z.land (xEventGroupWaitBits_ret p) CONNECTED_BIT =? 0) eqn:Hbit;
    cbn [negb]; wifi_facts.
  - split; [intros (? & ? & E); discriminate E | intros (_ & H); contradiction].
  - split; [intros _; split; [reflexivity|assumption] | intros _; do 2 eexists; reflexivity].
Qed.

Ltac use_true :=
  repeat match goal with
         | H : ?c = true |- context [?c] => rewrite H
         end.

Ltac bringup_leaf := let H := fresh in intros H; discriminate H.

(** Open [initNvs] and follow [connect] down to the wait, for a platform on
    which the bring-up succeeds; the goal starts with that hypothesis. *)
Ltac along_bringup p :=
  unfold WifiObject_connect, wifi_bringup_ok, initNvs; cbv zeta;
  destruct ((nvs_flash_init_first p =? ESP_ERR_NVS_NO_FREE_PAGES)
            || (nvs_flash_init_first p =? ESP_ERR_NVS_NEW_VERSION_FOUND));
  [ destruct (nvs_flash_erase_ret p =? ESP_OK) eqn:?;
    [ gate (nvs_flash_init_second p =? ESP_OK) bringup_leaf
    | bringup_leaf ]
  | gate (nvs_flash_init_first p =? ESP_OK) bringup_leaf ];
  along_connect p bringup_leaf; intros _.

(** After a [connect] whose bring-up succeeded -- whether it then found the
    access point or ran into the timeout -- [disconnect] makes exactly five
    calls: both handlers unregistered, WiFi stopped and deinitialised, the
    event group deleted, one release for each of the two registrations, of
    [esp_wifi_start], [esp_wifi_init] and [xEventGroupCreate]; the object is
    back in its initial state and a second [disconnect] does nothing.  The
    other set-up calls of [connect] -- [nvs_flash_init], [esp_netif_init],
    [esp_event_loop_create_default], [esp_netif_create_default_wifi_sta] --
    were made and have no counterpart among the five.  [connect] itself
    never stops or deinitialises WiFi. *)
Theorem WifiManager_connect_disconnect_balanced (p : WifiPlatform)
  (Hup : wifi_bringup_ok p = true) :
  exists r o' calls dcalls,
    WifiObject_connect p WifiObject_new = WifiReturned r o' calls
    /\ (r = ESP_OK \/ r = ESP_ERR_TIMEOUT)
    /\ WifiObject_disconnect o' = (WifiObject_new, dcalls)
    /\ WifiObject_disconnect WifiObject_new = (WifiObject_new, [])
    /\ dcalls = [WcUnregisterWifiHandler; WcUnregisterIpHandler; WcWifiStop;
                 WcWifiDeinit; WcEventGroupDelete]
    /\ In (WcNvsFlashInit (nvs_flash_init_first p)) calls
    /\ In (WcNetifInit (esp_netif_init_ret p)) calls
    /\ In (WcEventLoopCreateDefault (esp_event_loop_create_default_ret p)) calls
    /\ In WcNetifCreateDefaultWifiSta calls
    /\ wifi_count is_wifi_init_ok calls = 1%nat
    /\ wifi_count is_wifi_deinit dcalls = 1%nat
    /\ wifi_count is_wifi_start_ok calls = 1%nat
    /\ wifi_count is_wifi_stop dcalls = 1%nat
    /\ wifi_count is_group_create_ok calls = 1%nat
    /\ wifi_count is_group_delete dcalls = 1%nat
    /\ wifi_count is_register_ok calls = 2%nat
    /\ wifi_count is_unregister dcalls = 2%nat
    /\ wifi_count is_wifi_deinit calls = 0%nat
    /\ wifi_count is_wifi_stop calls = 0%nat.
Proof.
  revert Hup. along_bringup p.
  all: destruct (Z.land (xEventGroupWaitBits_ret p) CONNECTED_BIT =? 0);
    cbn [negb]; do 4 eexists; (split; [reflexivity|]);
    (split; [first [left; reflexivity | right; reflexivity]|]);
    (split; [reflexivity|]); (split; [reflexivity|]);
    (split; [reflexivity|]);
    (split; [cbn; auto 20|]); (split; [cbn; auto 20|]);
    (split; [cbn; auto 20|]); (split; [cbn; auto 20|]);
    unfold wifi_count; cbn; use_true; cbn; repeat split; reflexivity.
Qed.

Lemma WifiManager_connect_disconnect_balanced_witness :
  exists o' calls dcalls,
    WifiObject_connect no_ap_in_range WifiObject_new
    = WifiReturned ESP_ERR_TIMEOUT o' calls
    /\ WifiObject_disconnect o' = (WifiObject_new, dcalls)
    /\ wifi_count is_wifi_init_ok calls = wifi_count is_wifi_deinit dcalls.
Proof.
  destruct (WifiManager_connect_disconnect_balanced no_ap_in_range eq_refl)
    as (r & o' & calls & dcalls & Hrun & _ & Hd & _ & _ & _ & _ & _ & _
        & H1 & H2 & _).
  exists o', calls, dcalls.
  assert (Hr : r = ESP_ERR_TIMEOUT).
  { vm_compute in Hrun. injection Hrun as <- _ _. reflexivity. }
  rewrite Hr in Hrun.
  split; [exact Hrun|]. split; [exact Hd|]. rewrite H1, H2. reflexivity.
Defined.

Ltac failed_leaf :=
  let Hb := fresh in let r := fresh in let o' := fresh in
  let calls := fresh in let E := fresh in
  intros Hb r o' calls E; injection E as <- <- _; wifi_facts;
  repeat match goal with
         | H : (_ || _) = false |- _ =>
             apply orb_false_elim in H; destruct H
         end;
  wifi_facts;
  split; [first [assumption | discriminate] | split; reflexivity].

(** When a step of the bring-up fails, [connect] returns an error, the
    object is not marked initialised, and a following [disconnect] makes no
    call at all: what [connect] had set up before the failing step (the
    event group, an initialised WiFi driver, a registered handler) is left
    as it is. *)
Theorem WifiManager_failed_bringup_not_undone (p : WifiPlatform)
  (Hdown : wifi_bringup_ok p = false) :
  forall r o' calls,
    WifiObject_connect p WifiObject_new = WifiReturned r o' calls ->
    r <> ESP_OK
    /\ wm_initialized o' = false
    /\ WifiObject_disconnect o' = (o', []).
Proof.
  revert Hdown. unfold WifiObject_connect, wifi_bringup_ok.
  destruct (initNvs p) as [calls0 [nvs|]].
  2:{ intros _ r o' calls E. discriminate E. }
  gate (nvs =? ESP_OK) failed_leaf.
  along_connect p failed_leaf.
  intros Hb. discriminate Hb.
Qed.

Lemma WifiManager_failed_bringup_not_undone_witness :
  exists r o' calls,
    WifiObject_connect handler_refused WifiObject_new = WifiReturned r o' calls
    /\ wifi_count is_wifi_init_ok calls = 1%nat
    /\ wifi_count is_group_create_ok calls = 1%nat
    /\ wifi_count is_register_ok calls = 1%nat
    /\ r <> ESP_OK
    /\ WifiObject_disconnect o' = (o', []).
Proof.
  do 3 eexists. split; [vm_compute; reflexivity|].
  split; [reflexivity|]. split; [reflexivity|]. split; [reflexivity|].
  destruct (WifiManager_failed_bringup_not_undone handler_refused eq_refl
              _ _ _ eq_refl) as (H1 & _ & H3).
  split; [exact H1 | exact H3].
Defined.

(** [connect] ends the program (the [ESP_ERROR_CHECK] on [nvs_flash_erase])
    exactly when the first [nvs_flash_init] asked for an erase and the erase
    failed; [nvs_flash_erase] is called only after such a first answer, and
    NVS is then initialised a second time. *)
Theorem WifiManager_nvs_erase (p : WifiPlatform) (o : WifiObject) :
  let needs_erase :=
    (nvs_flash_init_first p =? ESP_ERR_NVS_NO_FREE_PAGES)
    || (nvs_flash_init_first p =? ESP_ERR_NVS_NEW_VERSION_FOUND) in
  ((exists calls, WifiObject_connect p o = WifiAborted calls)
   <-> needs_erase = true /\ (nvs_flash_erase_ret p =? ESP_OK) = false)
  /\ (In (WcNvsFlashErase (nvs_flash_erase_ret p)) (fst (initNvs p))
      <-> needs_erase = true)
  /\ (snd (initNvs p)
      = if needs_erase
        then (if nvs_flash_erase_ret p =? ESP_OK
              then Some (nvs_flash_init_second p) else None)
        else Some (nvs_flash_init_first p)).
Proof.
  intros needs_erase. split; [|split].
  - assert (Hnever : forall calls0 nvs,
              ~ exists calls,
                  (if negb (nvs =? ESP_OK) then WifiReturned nvs o calls0
                   else
                     let calls1 := calls0 ++ [WcEventGroupCreate (xEventGroupCreate_ok p)] in
                     let o1 := mk_wifi_object (xEventGroupCreate_ok p)
                                 (wm_wifiEventHandle o) (wm_ipEventHandle o)
                                 (wm_initialized o) in
                     if negb (xEventGroupCreate_ok p)
                     then WifiReturned ESP_ERR_NO_MEM o1 calls1
                     else
                       let ret := esp_netif_init_ret p in
                       let calls2 := calls1 ++ [WcNetifInit ret] in
                       if negb (ret =? ESP_OK) && negb (ret =? ESP_ERR_INVALID_STATE)
                       then WifiReturned ret o1 calls2
                       else
                         let ret := esp_event_loop_create_default_ret p in
                         let calls3 := calls2 ++ [WcEventLoopCreateDefault ret] in
                         if negb (ret =? ESP_OK) && negb (ret =? ESP_ERR_INVALID_STATE)
                         then WifiReturned ret o1 calls3
                         else connect_wifi_stack p o1 calls3)
                  = WifiAborted calls).
    { intros calls0 nvs.
      destruct (nvs =? ESP_OK); cbn [negb];
        [|intros (c & E); discriminate E].
      along_connect p ltac:(intros (? & E); discriminate E).
      destruct (Z.land _ _ =? 0); cbn [negb]; intros (c & E); discriminate E. }
    unfold WifiObject_connect, initNvs. fold needs_erase.
    destruct needs_erase.
    + destruct (nvs_flash_erase_ret p =? ESP_OK).
      * split; [intros H; exfalso; exact (Hnever _ _ H) | intros (_ & H); discriminate H].
      * split; [intros _; split; reflexivity | intros _; eexists; reflexivity].
    + split; [intros H; exfalso; exact (Hnever _ _ H) | intros (H & _); discriminate H].
  - unfold initNvs. fold needs_erase. destruct needs_erase.
    + destruct (nvs_flash_erase_ret p =? ESP_OK); cbn [fst];
        (split; [reflexivity|]); intros _; right; left; reflexivity.
    + cbn [fst]. split; [|discriminate].
      intros [H | []]. discriminate H.
  - unfold initNvs. fold needs_erase. destruct needs_erase;
      [destruct (nvs_flash_erase_ret p =? ESP_OK)|]; reflexivity.
Qed.

(** [isConnected] answers from bit 0 of the event group alone, and false
    without asking when there is no event group -- which is the case from
    [disconnect] on. *)
Theorem WifiManager_isConnected_bit0 (p : WifiPlatform) (o : WifiObject) :
  fst (WifiObject_isConnected p o)
  = wm_eventGroup o && Z.odd (xEventGroupGetBits_ret p)
  /\ (wm_eventGroup o = false -> WifiObject_isConnected p o = (false, []))
  /\ (wm_initialized o = true ->
      WifiObject_isConnected p (fst (WifiObject_disconnect o)) = (false, [])).
Proof.
  split; [|split].
  - unfold WifiObject_isConnected.
    destruct (wm_eventGroup o); cbn [negb fst andb]; [|reflexivity].
    change CONNECTED_BIT with (Z.ones 1).
    rewrite Z.land_ones by lia. change (2 ^ 1) with 2.
    rewrite Zmod_odd. destruct (Z.odd _); reflexivity.
  - intros H. unfold WifiObject_isConnected. rewrite H. reflexivity.
  - intros H. unfold WifiObject_disconnect. rewrite H. reflexivity.
Qed.

(** ** The pipeline and the network *)

Lemma wifi_count_app q (l1 l2 : list WifiCall) :
  wifi_count q (l1 ++ l2) = (wifi_count q l1 + wifi_count q l2)%nat.
Proof. unfold wifi_count. rewrite filter_app, length_app. reflexivity. Qed.

Lemma count_wifi_call q calls :
  count (is_wifi_call q) (map EvWifi calls) = wifi_count q calls.
Proof.
  unfold wifi_count. induction calls as [|c calls IH]; [reflexivity|].
  cbn [map filter]. rewrite count_cons, IH. cbn [is_wifi_call].
  destruct (q c); reflexivity.
Qed.

#[local] Hint Rewrite count_wifi_call : trace_db.

(** [connect] and [isConnected] make none of the calls of [disconnect]. *)
Section NoTeardown.

Variable q : WifiCall -> bool.
Hypothesis q_teardown : forall c, is_teardown_call c = false -> q c = false.

Lemma wifi_count_none (l : list WifiCall) :
  forallb (fun c => negb (is_teardown_call c)) l = true -> wifi_count q l = 0%nat.
Proof.
  unfold wifi_count. induction l as [|c l IH]; intros H; [reflexivity|].
  cbn [forallb] in H. apply andb_prop in H. destruct H as [Hc Hl].
  apply negb_true_iff in Hc. cbn [filter]. rewrite (q_teardown c Hc).
  apply IH, Hl.
Qed.

Lemma initNvs_calls_other p : wifi_count q (fst (initNvs p)) = 0%nat.
Proof.
  unfold initNvs. cbv zeta.
  destruct ((nvs_flash_init_first p =? ESP_ERR_NVS_NO_FREE_PAGES)
            || (nvs_flash_init_first p =? ESP_ERR_NVS_NEW_VERSION_FOUND));
    [destruct (nvs_flash_erase_ret p =? ESP_OK)|];
    apply wifi_count_none; reflexivity.
Qed.

Lemma connect_calls_other p o :
  wifi_count q (wifi_calls (WifiObject_connect p o)) = 0%nat.
Proof.
  pose proof (initNvs_calls_other p) as Hn.
  unfold WifiObject_connect.
  destruct (initNvs p) as [calls0 [nvs|]]; cbn [fst] in Hn; [|exact Hn].
  gate (nvs =? ESP_OK)
    ltac:(cbn [wifi_calls]; rewrite ?wifi_count_app, Hn;
          rewrite ?wifi_count_none by reflexivity; reflexivity).
  along_connect p
    ltac:(cbn [wifi_calls]; rewrite ?wifi_count_app, Hn;
          rewrite ?wifi_count_none by reflexivity; reflexivity).
  destruct (Z.land (xEventGroupWaitBits_ret p) CONNECTED_BIT =? 0);
    cbn [negb wifi_calls]; rewrite ?wifi_count_app, Hn;
    rewrite ?wifi_count_none by reflexivity; reflexivity.
Qed.

Lemma isConnected_calls_other p o :
  wifi_count q (snd (WifiObject_isConnected p o)) = 0%nat.
Proof.
  unfold WifiObject_isConnected. destruct (wm_eventGroup o); cbn [negb snd];
    apply wifi_count_none; reflexivity.
Qed.

End NoTeardown.

Lemma disconnect_stops_once o :
  wifi_count is_wifi_stop (snd (WifiObject_disconnect o))
  = (if wm_initialized o then 1 else 0)%nat
  /\ wifi_count is_wifi_deinit (snd (WifiObject_disconnect o))
     = (if wm_initialized o then 1 else 0)%nat.
Proof.
  unfold WifiObject_disconnect.
  destruct (wm_initialized o), (wm_wifiEventHandle o), (wm_ipEventHandle o),
    (wm_eventGroup o); split; reflexivity.
Qed.

Lemma disconnect_again o :
  snd (WifiObject_disconnect (fst (WifiObject_disconnect o))) = [].
Proof.
  unfold WifiObject_disconnect.
  destruct (wm_initialized o) eqn:E; cbn [negb fst snd wm_initialized];
    [reflexivity | rewrite E; reflexivity].
Qed.

Lemma disconnect_uninitialized o :
  wm_initialized o = false -> snd (WifiObject_disconnect o) = [].
Proof. intros E. unfold WifiObject_disconnect. rewrite E. reflexivity. Qed.

Lemma stop_is_teardown c : is_teardown_call c = false -> is_wifi_stop c = false.
Proof. destruct c; intros H; try reflexivity; discriminate H. Qed.

Lemma deinit_is_teardown c : is_teardown_call c = false -> is_wifi_deinit c = false.
Proof. destruct c; intros H; try reflexivity; discriminate H. Qed.

(** The WiFi calls of the confident block: those of [connect] and
    [isConnected] are no teardown calls; [esp_wifi_stop] and
    [esp_wifi_deinit] are called once when [connect] left the driver
    initialised -- by [disconnect] after the send, or else by the destructor
    -- and not at all otherwise. *)
Lemma notify_teardown env f r o calls :
  wifi_run env = WifiReturned r o calls ->
  count (is_wifi_call is_wifi_stop)
        (notify_events env f r o calls
         ++ [EvStartCooldown config.timing.COOLDOWN_SECONDS]
         ++ destructor_events env r o)
  = (if wm_initialized o then 1 else 0)%nat
  /\ count (is_wifi_call is_wifi_deinit)
           (notify_events env f r o calls
            ++ [EvStartCooldown config.timing.COOLDOWN_SECONDS]
            ++ destructor_events env r o)
     = (if wm_initialized o then 1 else 0)%nat
  /\ (connected_after env r o = false ->
      count (is_wifi_call is_teardown_call) (notify_events env f r o calls)
      = 0%nat).
Proof.
  intros Hrun.
  assert (Hcalls : forall q,
            (forall c, is_teardown_call c = false -> q c = false) ->
            wifi_count q calls = 0%nat).
  { intros q Hq.
    pose proof (connect_calls_other q Hq (wifi_platform env) WifiObject_new) as E.
    change (WifiObject_connect (wifi_platform env) WifiObject_new)
      with (wifi_run env) in E.
    rewrite Hrun in E. exact E. }
  destruct (disconnect_stops_once o) as (Hstop & Hdeinit).
  unfold notify_events, destructor_events, wifi_at_scope_end.
  destruct (connected_after env r o) eqn:Hup.
  - rewrite disconnect_again.
    assert (Hr : (r =? ESP_OK) = true).
    { unfold connected_after in Hup. apply andb_prop in Hup. apply Hup. }
    rewrite Hr.
    split; [|split; [|intros E; discriminate E]];
      autorewrite with trace_db;
      rewrite (Hcalls _ stop_is_teardown) || rewrite (Hcalls _ deinit_is_teardown);
      rewrite (isConnected_calls_other _ stop_is_teardown)
      || rewrite (isConnected_calls_other _ deinit_is_teardown);
      rewrite ?Hstop, ?Hdeinit;
      destruct (unusable_frame f), (wm_initialized o); reflexivity.
  - split; [|split; [|intros _]];
      destruct (r =? ESP_OK);
      autorewrite with trace_db;
      rewrite ?(Hcalls _ stop_is_teardown), ?(Hcalls _ deinit_is_teardown),
        ?(Hcalls _ (fun _ H => H)),
        ?(isConnected_calls_other _ stop_is_teardown),
        ?(isConnected_calls_other _ deinit_is_teardown),
        ?(isConnected_calls_other _ (fun _ H => H)),
        ?Hstop, ?Hdeinit;
      try destruct (wm_initialized o); reflexivity.
Qed.

Lemma exit_network env a tr a' :
  pipeline_exit env a tr a' ->
  count is_wifi_connect tr = count is_startCooldown tr
  /\ (count is_wifi_connect tr <= 1)%nat
  /\ (count is_telegram_send tr <= count is_wifi_connect tr)%nat
  /\ (count is_wifi_connect tr = 0%nat ->
      count (is_wifi_call (fun _ => true)) tr = 0%nat)
  /\ (wifi_up env = false -> count is_telegram_send tr = 0%nat).
Proof.
  intros H. destruct H.
  1-7: split; [trace_facts|]; split; [trace_facts|]; split; [trace_facts|];
       split; [intros _; trace_facts | intros _; trace_facts].
  split; [trace_facts|]. split; [trace_facts|].
  split; [trace_facts|].
  split; [intros Hc; exfalso; revert Hc; trace_facts|].
  unfold wifi_up. rewrite H7. intros Hup.
  unfold notify_events. rewrite Hup. trace_facts.
Qed.

Lemma aborted_network env a tr a' :
  pipeline_aborted env a tr a' ->
  count is_wifi_connect tr = 1%nat
  /\ count is_telegram_send tr = 0%nat
  /\ count (is_wifi_call is_wifi_stop) tr = 0%nat
  /\ count (is_wifi_call is_wifi_deinit) tr = 0%nat.
Proof.
  intros H. destruct H.
  assert (Hcalls : forall q,
            (forall c, is_teardown_call c = false -> q c = false) ->
            wifi_count q calls = 0%nat).
  { intros q Hq.
    pose proof (connect_calls_other q Hq (wifi_platform env) WifiObject_new) as E.
    change (WifiObject_connect (wifi_platform env) WifiObject_new)
      with (wifi_run env) in E.
    rewrite H7 in E. exact E. }
  split; [trace_facts|]. split; [trace_facts|].
  split.
  - unfold acquired_prefix, detect_events. autorewrite with trace_db.
    rewrite (Hcalls _ stop_is_teardown). split_cases; reflexivity.
  - unfold acquired_prefix, detect_events. autorewrite with trace_db.
    rewrite (Hcalls _ deinit_is_teardown). split_cases; reflexivity.
Qed.

(** WiFi is stopped and deinitialised once in a run in which [connect] was
    called and left the driver initialised, and never otherwise. *)
Lemma exit_teardown env a tr a' :
  pipeline_exit env a tr a' ->
  count (is_wifi_call is_wifi_stop) tr
  = (if wifi_left_initialized env then count is_wifi_connect tr else 0)%nat
  /\ count (is_wifi_call is_wifi_deinit) tr
     = (if wifi_left_initialized env then count is_wifi_connect tr else 0)%nat.
Proof.
  intros H. destruct H.
  1-7: split; trace_facts.
  destruct (notify_teardown env f r o calls H7) as (Hstop & Hdeinit & _).
  unfold wifi_left_initialized. rewrite H7.
  assert (Hconn : count is_wifi_connect
                    (notify_events env f r o calls
                     ++ [EvStartCooldown config.timing.COOLDOWN_SECONDS]
                     ++ destructor_events env r o) = 1%nat) by trace_facts.
  rewrite !count_app in Hstop, Hdeinit, Hconn.
  unfold acquired_prefix, release_events, cam_shutdown_events,
    sd_shutdown_events, detect_events, sleep_events.
  autorewrite with trace_db.
  set (s1 := count (is_wifi_call is_wifi_stop) (notify_events env f r o calls)) in *.
  set (s2 := count (is_wifi_call is_wifi_stop) (destructor_events env r o)) in *.
  set (d1 := count (is_wifi_call is_wifi_deinit) (notify_events env f r o calls)) in *.
  set (d2 := count (is_wifi_call is_wifi_deinit) (destructor_events env r o)) in *.
  set (c1 := count is_wifi_connect (notify_events env f r o calls)) in *.
  set (c2 := count is_wifi_connect (destructor_events env r o)) in *.
  clearbody s1 s2 d1 d2 c1 c2.
  cbn in Hstop, Hdeinit, Hconn.
  split; split_cases; cbn; lia.
Qed.

(** The network is touched only for an alert.  In every run of the pipeline
    [WifiManager::connect] is called at most once; [startCooldown] is never
    entered without it, and is entered exactly once after it unless [connect]
    ends in [abort()]; a document is sent at most as often as [connect] is
    called; without a call of [connect] no call of [WifiManager] reaches the
    platform at all; and WiFi is stopped and deinitialised exactly once when
    [connect] was called and left the driver initialised -- by the explicit
    [disconnect] or by the destructor -- and never otherwise. *)
Theorem network_only_for_alerts (env : Env) (a : Z) :
  exists w',
    ends_in (pipeline_run env a) w'
    /\ (connect_aborts env = false -> pipeline_run env a = PoweredDown w')
    /\ (count is_wifi_connect (trace w') <= 1)%nat
    /\ (count is_startCooldown (trace w') <= count is_wifi_connect (trace w'))%nat
    /\ (connect_aborts env = false ->
        count is_startCooldown (trace w') = count is_wifi_connect (trace w'))
    /\ (count is_telegram_send (trace w') <= count is_wifi_connect (trace w'))%nat
    /\ (count is_wifi_connect (trace w') = 0%nat ->
        count (is_wifi_call (fun _ => true)) (trace w') = 0%nat)
    /\ count (is_wifi_call is_wifi_stop) (trace w')
       = (if wifi_left_initialized env
          then count is_wifi_connect (trace w') else 0)%nat
    /\ count (is_wifi_call is_wifi_deinit) (trace w')
       = (if wifi_left_initialized env
          then count is_wifi_connect (trace w') else 0)%nat.
Proof.
  destruct (pipeline_run_exit env a) as (w' & [(Hrun & Hexit)|(Hrun & Hab)]);
    exists w'.
  - destruct (exit_network _ _ _ _ Hexit) as (H1 & H2 & H3 & H4 & _).
    destruct (exit_teardown _ _ _ _ Hexit) as (H5 & H6).
    split; [left; exact Hrun|]. split; [intros _; exact Hrun|].
    split; [exact H2|]. split; [rewrite H1; apply Nat.le_refl|].
    split; [intros _; symmetry; exact H1|].
    split; [exact H3|]. split; [exact H4|]. split; assumption.
  - pose proof (aborted_only_in_connect _ _ _ _ Hab) as Hc.
    destruct (aborted_network _ _ _ _ Hab) as (H1 & H2 & H3 & H4).
    destruct (aborted_nothing_armed _ _ _ _ Hab) as (_ & _ & _ & H5).
    assert (Hleft : wifi_left_initialized env = false).
    { unfold wifi_left_initialized. unfold connect_aborts in Hc.
      destruct (wifi_run env); [discriminate Hc | reflexivity]. }
    split; [right; exact Hrun|].
    split; [intros E; rewrite Hc in E; discriminate E|].
    rewrite H1, H2, H3, H4, H5, Hleft.
    split; [apply Nat.le_refl|]. split; [lia|].
    split; [intros E; rewrite Hc in E; discriminate E|].
    split; [lia|]. split; [intros E; discriminate E|]. split; reflexivity.
Qed.

Lemma exit_failed_connect env a tr a' :
  pipeline_exit env a tr a' ->
  wifi_up env = false ->
  count is_wifi_connect tr = 1%nat ->
  exists pre post,
    tr = pre ++ EvStartCooldown config.timing.COOLDOWN_SECONDS :: post
    /\ count (is_wifi_call is_teardown_call) pre = 0%nat.
Proof.
  intros H Hup. destruct H.
  1-7: intros Hc; exfalso; revert Hc; trace_facts.
  intros _.
  unfold wifi_up in Hup. rewrite H7 in Hup.
  destruct (notify_teardown env f r o calls H7) as (_ & _ & Hpre).
  specialize (Hpre Hup).
  exists (acquired_prefix env ++ [EvFbGet (Some f)] ++ detect_events env f
          ++ [EvDetectReturned (detection_of env f)]
          ++ notify_events env f r o calls).
  eexists. split.
  - app_norm. reflexivity.
  - rewrite !count_app, Hpre.
    unfold acquired_prefix, detect_events. autorewrite with trace_db.
    split_cases; reflexivity.
Qed.

(** When [connect] returns something else than [ESP_OK], or [isConnected]
    answers false after it, the run sends nothing and does not reach the
    explicit [disconnect]; the cooldown is started all the same.  WiFi is
    torn down nevertheless when [connect] had left the driver initialised
    (it ran into the timeout): by the destructor of the [WifiManager], at the
    end of the block, after [startCooldown] -- [esp_wifi_stop] and
    [esp_wifi_deinit] once each, and no teardown call before
    [startCooldown]. *)
Theorem failed_connect_is_torn_down_by_destructor (env : Env) (a : Z)
  (Hdown : wifi_up env = false)
  (Hreturns : connect_aborts env = false) :
  exists w',
    pipeline_run env a = PoweredDown w'
    /\ count is_telegram_send (trace w') = 0%nat
    /\ count is_startCooldown (trace w') = count is_wifi_connect (trace w')
    /\ count (is_wifi_call is_wifi_stop) (trace w')
       = (if wifi_left_initialized env
          then count is_wifi_connect (trace w') else 0)%nat
    /\ count (is_wifi_call is_wifi_deinit) (trace w')
       = (if wifi_left_initialized env
          then count is_wifi_connect (trace w') else 0)%nat
    /\ (count is_wifi_connect (trace w') = 1%nat ->
        exists pre post,
          trace w' = pre ++ EvStartCooldown config.timing.COOLDOWN_SECONDS
                         :: post
          /\ count (is_wifi_call is_teardown_call) pre = 0%nat).
Proof.
  destruct (pipeline_run_powers_down env a) as (w' & Hrun & Hexit).
  { intros tr a' Hab. rewrite (aborted_only_in_connect _ _ _ _ Hab) in Hreturns.
    discriminate. }
  exists w'. split; [exact Hrun|].
  destruct (exit_network _ _ _ _ Hexit) as (H1 & _ & _ & _ & H5).
  destruct (exit_teardown _ _ _ _ Hexit) as (H6 & H7).
  split; [exact (H5 Hdown)|]. split; [symmetry; exact H1|].
  split; [exact H6|]. split; [exact H7|].
  apply (exit_failed_connect _ _ _ _ Hexit Hdown).
Qed.

Lemma failed_connect_is_torn_down_by_destructor_witness :
  wifi_left_initialized undelivered_alert_env = true
  /\ exists w',
       pipeline_run undelivered_alert_env 0 = PoweredDown w'
       /\ count is_telegram_send (trace w') = 0%nat
       /\ count is_startCooldown (trace w') = 1%nat
       /\ count (is_wifi_call is_wifi_stop) (trace w') = 1%nat
       /\ count (is_wifi_call is_wifi_deinit) (trace w') = 1%nat.
Proof.
  split; [reflexivity|].
  destruct (failed_connect_is_torn_down_by_destructor undelivered_alert_env 0
              eq_refl eq_refl) as (w' & Hrun & H1 & H2 & H3 & H4 & _).
  exists w'. split; [exact Hrun|]. split; [exact H1|].
  assert (Hc : count is_wifi_connect (trace w') = 1%nat).
  { vm_compute in Hrun. injection Hrun as <-. reflexivity. }
  rewrite H2, H3, H4, Hc. repeat split; reflexivity.
Defined.

Lemma confident_no_detection : confident no_detection = false.
Proof. reflexivity. Qed.

Lemma exit_detect_results env a tr a' :
  pipeline_exit env a tr a' ->
  detect_results tr = [] \/ exists f, detect_results tr = [detection_of env f].
Proof.
  intros H. destruct H.
  1-6: left; trace_facts.
  all: right; exists f; trace_facts.
Qed.

Lemma aborted_detect_results env a tr a' :
  pipeline_aborted env a tr a' ->
  exists f, detect_results tr = [detection_of env f]
            /\ confident (detection_of env f) = true.
Proof.
  intros H. destruct H. exists f. split; [trace_facts | assumption].
Qed.

(** When the JPEG cannot be decoded, or the model returns an empty list, the
    run ends as a false alarm: it powers down with no call of
    [WifiManager::connect], no cooldown, the persisted timestamp unchanged. *)
Theorem no_detection_no_alert (env : Env) (a : Z)
  (Hnone : sw_decode_jpeg_ok env = false \/ detect_run env = []) :
  exists w',
    pipeline_run env a = PoweredDown w'
    /\ count is_wifi_connect (trace w') = 0%nat
    /\ count is_startCooldown (trace w') = 0%nat
    /\ s_nextPirAllowTime w' = a.
Proof.
  assert (Hd : forall f, confident (detection_of env f) = false).
  { intros f. unfold detection_of.
    destruct (unusable_frame f); [reflexivity|].
    destruct Hnone as [-> | ->]; [reflexivity|].
    destruct (sw_decode_jpeg_ok env); reflexivity. }
  destruct (pipeline_run_powers_down env a) as (w' & Hrun & Hexit).
  { intros tr a' Hab.
    destruct (aborted_detect_results _ _ _ _ Hab) as (f & _ & Hc).
    rewrite Hd in Hc. discriminate Hc. }
  exists w'. split; [exact Hrun|].
  assert (Hconf : forall r, In r (detect_results (trace w')) ->
                            confident r = false).
  { intros r Hin.
    destruct (exit_detect_results _ _ _ _ Hexit) as [E | (f & E)];
      rewrite E in Hin; [destruct Hin|].
    destruct Hin as [<- | []]. apply Hd. }
  destruct (exit_of_failing_path _ _ _ _ Hexit) as (Hc & Ha & _).
  { do 5 right. exact Hconf. }
  destruct (exit_network _ _ _ _ Hexit) as (H1 & _).
  rewrite H1. repeat split; assumption.
Qed.

(** The witness reaches the detector: the warmup passes, a frame is
    captured, the decoder is called once and rejects it. *)
Lemma no_detection_no_alert_witness :
  sw_decode_jpeg_ok undecodable_frame_env = false
  /\ exists w',
       pipeline_run undecodable_frame_env 7 = PoweredDown w'
       /\ detect_results (trace w') = [no_detection]
       /\ count (fun e => match e with EvJpegDecode _ => true | _ => false end)
                (trace w') = 1%nat
       /\ count is_wifi_connect (trace w') = 0%nat
       /\ count is_startCooldown (trace w') = 0%nat
       /\ s_nextPirAllowTime w' = 7.
Proof.
  split; [reflexivity|].
  destruct (no_detection_no_alert undecodable_frame_env 7 (or_introl eq_refl))
    as (w' & Hrun & H1 & H2 & H3).
  exists w'. split; [exact Hrun|].
  assert (Hw : trace w'
               = trace (world_of (pipeline_run undecodable_frame_env 7)))
    by (rewrite Hrun; reflexivity).
  split; [rewrite Hw; vm_compute; reflexivity|].
  split; [rewrite Hw; vm_compute; reflexivity|].
  repeat split; assumption.
Defined.

Lemma exit_frame_grabs env a tr a' :
  pipeline_exit env a tr a' ->
  count is_fb_get tr = 0%nat
  \/ ((count is_fb_get tr = config.timing.CAMERA_WARMUP_FRAMES
       \/ count is_fb_get tr = S config.timing.CAMERA_WARMUP_FRAMES)
      /\ count is_storage_acquire tr = 1%nat
      /\ count is_imaging_acquire tr = 1%nat).
Proof.
  intros H. destruct H.
  1-4: left; trace_facts.
  - right. split; [left; trace_facts|]. split; trace_facts.
  - right. split; [right; trace_facts|]. split; trace_facts.
  - right. split; [right; trace_facts|]. split; trace_facts.
  - right. split; [right; trace_facts|]. split; trace_facts.
Qed.

Lemma aborted_frame_grabs env a tr a' :
  pipeline_aborted env a tr a' ->
  count is_fb_get tr = S config.timing.CAMERA_WARMUP_FRAMES
  /\ count is_storage_acquire tr = 1%nat
  /\ count is_imaging_acquire tr = 1%nat.
Proof. intros H. destruct H. repeat split; trace_facts. Qed.

(** A run, however it ends, grabs frames only with the card mounted and the
    camera initialised, and then either the twenty-five warmup frames or
    those and the one capture: never more than twenty-six grabs per wake-up,
    and at most one detection. *)
Theorem pipeline_frame_grabs_bounded (env : Env) (a : Z) :
  exists w',
    ends_in (pipeline_run env a) w'
    /\ (connect_aborts env = false -> pipeline_run env a = PoweredDown w')
    /\ (count is_fb_get (trace w') = 0%nat
        \/ ((count is_fb_get (trace w') = config.timing.CAMERA_WARMUP_FRAMES
             \/ count is_fb_get (trace w')
                = S config.timing.CAMERA_WARMUP_FRAMES)
            /\ count is_storage_acquire (trace w') = 1%nat
            /\ count is_imaging_acquire (trace w') = 1%nat))
    /\ (length (detect_results (trace w')) <= 1)%nat.
Proof.
  apply (pipeline_run_ends
           (fun tr _ =>
              (count is_fb_get tr = 0%nat
               \/ ((count is_fb_get tr = config.timing.CAMERA_WARMUP_FRAMES
                    \/ count is_fb_get tr = S config.timing.CAMERA_WARMUP_FRAMES)
                   /\ count is_storage_acquire tr = 1%nat
                   /\ count is_imaging_acquire tr = 1%nat))
              /\ (length (detect_results tr) <= 1)%nat)).
  - intros tr a' Hexit. split.
    + apply (exit_frame_grabs _ _ _ _ Hexit).
    + destruct (exit_detect_results _ _ _ _ Hexit) as [E | (f & E)];
        rewrite E; cbn; lia.
  - intros tr a' Hab. split.
    + right. destruct (aborted_frame_grabs _ _ _ _ Hab) as (H1 & H2 & H3).
      split; [right; exact H1|]. split; assumption.
    + destruct (aborted_detect_results _ _ _ _ Hab) as (f & E & _).
      rewrite E. cbn. lia.
Qed.

(** ** TelegramClient, call by call *)

Lemma string_length_append (s1 s2 : String.string) :
  String.length (String.append s1 s2)
  = (String.length s1 + String.length s2)%nat.
Proof. induction s1 as [|c s1 IH]; cbn; [reflexivity | rewrite IH; reflexivity]. Qed.

Lemma substring_whole (s : String.string) :
  forall m, (String.length s <= m)%nat -> String.substring 0 m s = s.
Proof.
  induction s as [|c s IH]; intros m H.
  - destruct m; reflexivity.
  - destruct m; cbn in *; [lia|]. rewrite IH by lia. reflexivity.
Qed.

Lemma substring_length (s : String.string) :
  forall m, String.length (String.substring 0 m s) = Nat.min m (String.length s).
Proof.
  induction s as [|c s IH]; intros m.
  - destruct m; reflexivity.
  - destruct m; cbn; [reflexivity|]. rewrite IH. reflexivity.
Qed.

(** [sendDocument] releases the HTTP client exactly once on every path on
    which it obtained one, as its last call, and never otherwise; with a
    null pointer or a zero length it returns [ESP_ERR_INVALID_ARG] without
    any HTTP call. *)
Theorem sendDocument_cleans_up_once
  (creds : telegram.Credentials) (p : telegram.HttpPlatform)
  (data_null : bool) (dataLen : Z) (caption filename : String.string) :
  let r := fst (telegram.sendDocument creds p data_null dataLen caption filename) in
  let calls := snd (telegram.sendDocument creds p data_null dataLen caption filename) in
  telegram.http_count telegram.is_cleanup calls
  = telegram.http_count telegram.is_client_created calls
  /\ telegram.http_count telegram.is_client_created calls
     = (if negb (data_null || (dataLen =? 0))
           && telegram.esp_http_client_init_ok p then 1%nat else 0%nat)
  /\ (telegram.http_count telegram.is_cleanup calls = 1%nat ->
      exists pre, calls = pre ++ [telegram.HcCleanup]
                  /\ telegram.http_count telegram.is_cleanup pre = 0%nat)
  /\ (data_null || (dataLen =? 0) = true ->
      r = ESP_ERR_INVALID_ARG /\ calls = []).
Proof.
  unfold telegram.sendDocument. cbv zeta.
  destruct (data_null || (dataLen =? 0)); cbn [negb andb fst snd].
  { split; [reflexivity|]. split; [reflexivity|].
    split; [intros Hone; discriminate Hone|]. intros _; split; reflexivity. }
  destruct (telegram.esp_http_client_init_ok p) eqn:Hinit; cbn [negb fst snd].
  2:{ unfold telegram.http_count. cbn.
      split; [reflexivity|]. split; [reflexivity|].
      split; intros Hone; discriminate Hone. }
  assert (Hleaf : forall pre r0,
            telegram.http_count telegram.is_cleanup pre = 0%nat ->
            telegram.http_count telegram.is_client_created pre = 1%nat ->
            let calls := pre ++ [telegram.HcCleanup] in
            telegram.http_count telegram.is_cleanup calls
            = telegram.http_count telegram.is_client_created calls
            /\ telegram.http_count telegram.is_client_created calls = 1%nat
            /\ (telegram.http_count telegram.is_cleanup calls = 1%nat ->
                exists pre0, calls = pre0 ++ [telegram.HcCleanup]
                  /\ telegram.http_count telegram.is_cleanup pre0 = 0%nat)
            /\ (false = true -> r0 = ESP_ERR_INVALID_ARG /\ calls = [])).
  { intros pre r0 H0 H1. cbv zeta. unfold telegram.http_count in *.
    rewrite !filter_app, !length_app, H0, H1. cbn.
    split; [reflexivity|]. split; [reflexivity|].
    split; [|intros Hone; discriminate Hone].
    intros _. exists pre. split; [reflexivity | exact H0]. }
  destruct (telegram.esp_http_client_open_ret p =? ESP_OK) eqn:Hopen;
    cbn [negb fst snd].
  2:{ apply Hleaf; unfold telegram.http_count; cbn; rewrite ?Hinit; reflexivity. }
  destruct (telegram.write_header_ret p =? _); cbn [negb fst snd].
  2:{ apply Hleaf; unfold telegram.http_count; cbn; rewrite ?Hinit; reflexivity. }
  destruct (telegram.write_data_ret p =? _); cbn [negb fst snd].
  2:{ apply Hleaf; unfold telegram.http_count; cbn; rewrite ?Hinit; reflexivity. }
  destruct (telegram.write_tail_ret p =? _); cbn [negb fst snd].
  2:{ apply Hleaf; unfold telegram.http_count; cbn; rewrite ?Hinit; reflexivity. }
  match goal with
  | |- context [?pre ++ [?a; ?b; telegram.HcCleanup]] =>
      replace (pre ++ [a; b; telegram.HcCleanup])
        with ((pre ++ [a; b]) ++ [telegram.HcCleanup])
        by (rewrite <- app_assoc; reflexivity)
  end.
  destruct (_ =? 200); cbn [fst snd];
    apply Hleaf; unfold telegram.http_count; cbn; rewrite ?Hinit; reflexivity.
Qed.

Lemma sendDocument_ok_inv
  (creds : telegram.Credentials) (p : telegram.HttpPlatform)
  (data_null : bool) (dataLen : Z) (caption filename : String.string) :
  fst (telegram.sendDocument creds p data_null dataLen caption filename) = ESP_OK
  <-> (data_null || (dataLen =? 0)) = false
      /\ telegram.esp_http_client_init_ok p = true
      /\ telegram.esp_http_client_open_ret p = ESP_OK
      /\ telegram.write_header_ret p
         = telegram.snprintf_ret (telegram.header_text creds caption filename)
      /\ telegram.write_data_ret p = wrap_s32 dataLen
      /\ telegram.write_tail_ret p = telegram.snprintf_ret telegram.tail_text
      /\ telegram.esp_http_client_get_status_code_ret p = 200.
Proof.
  unfold telegram.sendDocument. cbv zeta.
  destruct (data_null || (dataLen =? 0)); cbn [negb fst].
  { split; [intros H; discriminate H | intros (H & _); discriminate H]. }
  destruct (telegram.esp_http_client_init_ok p); cbn [negb fst].
  2:{ split; [intros H; discriminate H | intros (_ & H & _); discriminate H]. }
  destruct (telegram.esp_http_client_open_ret p =? ESP_OK) eqn:E1; cbn [negb fst];
    wifi_facts.
  2:{ split; [intros H; contradiction | intros (_ & _ & H & _); contradiction]. }
  destruct (telegram.write_header_ret p =? _) eqn:E2; cbn [negb fst]; wifi_facts.
  2:{ split; [intros H; discriminate H
             | intros (_ & _ & _ & H & _); contradiction]. }
  destruct (telegram.write_data_ret p =? _) eqn:E3; cbn [negb fst]; wifi_facts.
  2:{ split; [intros H; discriminate H
             | intros (_ & _ & _ & _ & H & _); contradiction]. }
  destruct (telegram.write_tail_ret p =? _) eqn:E4; cbn [negb fst]; wifi_facts.
  2:{ split; [intros H; discriminate H
             | intros (_ & _ & _ & _ & _ & H & _); contradiction]. }
  destruct (telegram.esp_http_client_get_status_code_ret p =? 200) eqn:E5;
    cbn [fst]; wifi_facts.
  - split; [intros _; repeat split; assumption | reflexivity].
  - split; [intros H; discriminate H
           | intros (_ & _ & _ & _ & _ & _ & H); contradiction].
Qed.

(** [sendDocument] returns [ESP_OK] exactly when the data is there, the
    client was created, the connection opened, each of the three writes
    (header, image, tail) wrote all it was given, and the status code is 200;
    a short write or any other status gives [ESP_FAIL]. *)
Theorem sendDocument_ok_iff
  (creds : telegram.Credentials) (p : telegram.HttpPlatform)
  (data_null : bool) (dataLen : Z) (caption filename : String.string) :
  fst (telegram.sendDocument creds p data_null dataLen caption filename) = ESP_OK
  <-> (data_null || (dataLen =? 0)) = false
      /\ telegram.esp_http_client_init_ok p = true
      /\ telegram.esp_http_client_open_ret p = ESP_OK
      /\ telegram.write_header_ret p
         = telegram.snprintf_ret (telegram.header_text creds caption filename)
      /\ telegram.write_data_ret p = wrap_s32 dataLen
      /\ telegram.write_tail_ret p = telegram.snprintf_ret telegram.tail_text
      /\ telegram.esp_http_client_get_status_code_ret p = 200.
Proof. apply sendDocument_ok_inv. Qed.

(** On a successful [sendDocument] the content length announced when the
    connection is opened is the sum of the three lengths then written --
    header, image, tail -- as long as that sum fits an [int]. *)
Theorem sendDocument_announces_what_it_writes
  (creds : telegram.Credentials) (p : telegram.HttpPlatform)
  (dataLen : Z) (caption filename : String.string)
  (Hok : fst (telegram.sendDocument creds p false dataLen caption filename)
         = ESP_OK)
  (Hlen : 0 <= dataLen)
  (Hfits : telegram.snprintf_ret (telegram.header_text creds caption filename)
           + dataLen + telegram.snprintf_ret telegram.tail_text < 2 ^ 31) :
  let calls := snd (telegram.sendDocument creds p false dataLen caption filename) in
  telegram.written_lengths calls
  = [telegram.snprintf_ret (telegram.header_text creds caption filename);
     dataLen; telegram.snprintf_ret telegram.tail_text]
  /\ telegram.announced_length calls
     = Some (telegram.snprintf_ret (telegram.header_text creds caption filename)
             + dataLen + telegram.snprintf_ret telegram.tail_text).
Proof.
  apply sendDocument_ok_inv in Hok.
  destruct Hok as (H0 & H1 & H2 & H3 & H4 & H5 & H6).
  assert (Hh : 0 <= telegram.snprintf_ret
                      (telegram.header_text creds caption filename))
    by (unfold telegram.snprintf_ret; lia).
  assert (Ht : 0 <= telegram.snprintf_ret telegram.tail_text)
    by (unfold telegram.snprintf_ret; lia).
  assert (W : forall z, 0 <= z < 2 ^ 31 -> wrap_s32 z = z).
  { intros z Hz. unfold wrap_s32. rewrite Z.mod_small; lia. }
  unfold telegram.sendDocument. cbv zeta. cbn [orb] in H0. rewrite H0, H1, H2, H3, H4, H5, H6.
  rewrite !Z.eqb_refl. cbn [negb snd].
  rewrite (W dataLen) by lia.
  rewrite (W (_ + dataLen)) by lia.
  rewrite (W (_ + dataLen + _)) by lia.
  split; reflexivity.
Qed.

Lemma sendDocument_announces_what_it_writes_witness :
  let calls := snd (telegram.sendDocument telegram.sample_credentials
                      telegram.accepting_server false 48213
                      telegram.sample_caption telegram.ALERT_FILENAME) in
  telegram.written_lengths calls = [333; 48213; 35]
  /\ telegram.announced_length calls = Some (333 + 48213 + 35).
Proof.
  apply (sendDocument_announces_what_it_writes
           telegram.sample_credentials telegram.accepting_server 48213
           telegram.sample_caption telegram.ALERT_FILENAME).
  - reflexivity.
  - lia.
  - vm_compute. reflexivity.
Defined.

Lemma header_length
  (creds : telegram.Credentials) (caption filename : String.string) :
  telegram.snprintf_ret (telegram.header_text creds caption filename)
  = 287 + Z.of_nat (String.length (telegram.CHAT_ID creds))
    + Z.of_nat (String.length caption) + Z.of_nat (String.length filename).
Proof.
  unfold telegram.snprintf_ret, telegram.header_text.
  rewrite !string_length_append.
  change (String.length telegram.BOUNDARY) with 27%nat.
  change (String.length telegram.crlf) with 2%nat.
  change (String.length telegram.dquote) with 1%nat.
  cbn [String.length]. lia.
Qed.

(** The multipart header is formatted into a buffer of 512 bytes, and its
    full length -- 287 bytes of fixed text plus chat id, caption and file
    name -- is what [sendDocument] hands to the write call.  The buffer holds
    the whole header when that length is at most 511; beyond, it holds only
    the first 511 bytes while the length passed on is still the full one.
    The tail (35 bytes) always fits its buffer. *)
Theorem sendDocument_header_buffer
  (creds : telegram.Credentials) (caption filename : String.string) :
  let text := telegram.header_text creds caption filename in
  let buf := telegram.snprintf_buf telegram.HEADER_BUFFER_SIZE text in
  telegram.snprintf_ret text
  = 287 + Z.of_nat (String.length (telegram.CHAT_ID creds))
    + Z.of_nat (String.length caption) + Z.of_nat (String.length filename)
  /\ Z.of_nat (String.length buf) = Z.min 511 (telegram.snprintf_ret text)
  /\ (telegram.snprintf_ret text <= 511 -> buf = text)
  /\ telegram.snprintf_buf telegram.TAIL_BUFFER_SIZE telegram.tail_text
     = telegram.tail_text
  /\ telegram.snprintf_ret telegram.tail_text = 35.
Proof.
  cbv zeta. split; [apply header_length|]. split; [|split].
  - unfold telegram.snprintf_buf, telegram.snprintf_ret.
    rewrite substring_length.
    change (telegram.HEADER_BUFFER_SIZE - 1)%nat with 511%nat. lia.
  - intros H. unfold telegram.snprintf_buf, telegram.snprintf_ret in *.
    apply substring_whole.
    change (telegram.HEADER_BUFFER_SIZE - 1)%nat with 511%nat. lia.
  - split; reflexivity.
Qed.

(** With the caption of the pipeline (at most 127 bytes, the size of its
    buffer less one) and its file name, the header is sent complete whenever
    the chat id has at most 75 bytes. *)
Theorem alert_header_fits
  (creds : telegram.Credentials) (caption : String.string)
  (Hcaption : (String.length caption <= telegram.CAPTION_BUFFER_SIZE - 1)%nat)
  (Hchat : (String.length (telegram.CHAT_ID creds) <= 75)%nat) :
  telegram.snprintf_buf telegram.HEADER_BUFFER_SIZE
    (telegram.header_text creds caption telegram.ALERT_FILENAME)
  = telegram.header_text creds caption telegram.ALERT_FILENAME.
Proof.
  unfold telegram.snprintf_buf. apply substring_whole.
  pose proof (header_length creds caption telegram.ALERT_FILENAME) as H.
  unfold telegram.snprintf_ret in H.
  change (String.length telegram.ALERT_FILENAME) with 22%nat in H.
  change (telegram.CAPTION_BUFFER_SIZE - 1)%nat with 127%nat in Hcaption.
  change (telegram.HEADER_BUFFER_SIZE - 1)%nat with 511%nat. lia.
Qed.

Lemma alert_header_fits_witness :
  telegram.snprintf_buf telegram.HEADER_BUFFER_SIZE
    (telegram.header_text telegram.sample_credentials telegram.sample_caption
                          telegram.ALERT_FILENAME)
  = telegram.header_text telegram.sample_credentials telegram.sample_caption
                         telegram.ALERT_FILENAME.
Proof.
  apply (alert_header_fits telegram.sample_credentials telegram.sample_caption).
  - cbn. lia.
  - cbn. lia.
Defined.

(** [sendMessage] returns [ESP_OK] exactly when the client was created, the
    request was performed and the status code is 200, and releases the
    client exactly when it obtained one.  The JSON payload is formatted into
    512 bytes: what is posted is the first 511 bytes of the text, the whole
    of it only when chat id and message together have at most 487 bytes. *)
Theorem sendMessage_outcome
  (creds : telegram.Credentials) (p : telegram.HttpPlatform)
  (message : String.string) :
  let r := fst (telegram.sendMessage creds p message) in
  let calls := snd (telegram.sendMessage creds p message) in
  let text := telegram.payload_text creds message in
  (r = ESP_OK <->
   telegram.esp_http_client_init_ok p = true
   /\ telegram.esp_http_client_perform_ret p = ESP_OK
   /\ telegram.esp_http_client_get_status_code_ret p = 200)
  /\ telegram.http_count telegram.is_cleanup calls
     = telegram.http_count telegram.is_client_created calls
  /\ telegram.snprintf_ret text
     = 24 + Z.of_nat (String.length (telegram.CHAT_ID creds))
       + Z.of_nat (String.length message)
  /\ (forall payload len,
        In (telegram.HcSetPostField payload len) calls ->
        payload = telegram.snprintf_buf 512 text
        /\ len = Z.min 511 (telegram.snprintf_ret text)
        /\ (telegram.snprintf_ret text <= 511 -> payload = text)).
Proof.
  cbv zeta. unfold telegram.sendMessage. cbv zeta.
  split; [|split; [|split]].
  - destruct (telegram.esp_http_client_init_ok p); cbn [negb fst].
    2:{ split; [intros H; discriminate H | intros (H & _); discriminate H]. }
    destruct (telegram.esp_http_client_perform_ret p =? ESP_OK) eqn:E1;
      destruct (telegram.esp_http_client_get_status_code_ret p =? 200) eqn:E2;
      cbn [andb fst]; wifi_facts.
    + split; [intros _; repeat split; assumption | reflexivity].
    + split; [intros H; discriminate H | intros (_ & _ & H); contradiction].
    + split; [intros H; discriminate H | intros (_ & H & _); contradiction].
    + split; [intros H; discriminate H | intros (_ & H & _); contradiction].
  - destruct (telegram.esp_http_client_init_ok p); cbn [negb snd];
      [destruct (_ && _)|]; reflexivity.
  - unfold telegram.snprintf_ret, telegram.payload_text.
    rewrite !string_length_append.
    change (String.length telegram.dquote) with 1%nat.
    cbn [String.length]. lia.
  - intros payload len Hin.
    assert (Hlen : Z.of_nat (String.length (telegram.snprintf_buf 512
                      (telegram.payload_text creds message)))
                   = Z.min 511 (telegram.snprintf_ret
                                  (telegram.payload_text creds message))).
    { unfold telegram.snprintf_buf, telegram.snprintf_ret.
      rewrite substring_length. change (512 - 1)%nat with 511%nat. lia. }
    assert (Hwhole : telegram.snprintf_ret (telegram.payload_text creds message)
                     <= 511 ->
                     telegram.snprintf_buf 512 (telegram.payload_text creds message)
                     = telegram.payload_text creds message).
    { intros H. unfold telegram.snprintf_buf, telegram.snprintf_ret in *.
      apply substring_whole. change (512 - 1)%nat with 511%nat. lia. }
    destruct (telegram.esp_http_client_init_ok p); cbn [negb snd] in Hin.
    + assert (Hin' : In (telegram.HcSetPostField payload len)
                        [telegram.HcSetPostField
                           (telegram.snprintf_buf 512
                              (telegram.payload_text creds message))
                           (Z.of_nat (String.length
                              (telegram.snprintf_buf 512
                                 (telegram.payload_text creds message))))]).
      { destruct (_ && _); cbn [snd app] in Hin;
          repeat (destruct Hin as [Hin|Hin]; [try discriminate Hin|]);
          try contradiction; left; exact Hin. }
      destruct Hin' as [E | []]. injection E as <- <-.
      split; [reflexivity|]. split; [exact Hlen | exact Hwhole].
    + destruct Hin as [Hin | []]. discriminate Hin.
Qed.
